(** * Logitech HID++ touch drivers: report decoding and contact tracking

    A shallow embedding of the report path of two drivers,
    [drivers/hid/hid-logitech-tm.c] (touch mice, fixed-slot raw touch
    points) and [drivers/hid/hid-logitech-wtp.c] (wireless touchpad,
    identifier-based dual-touch reports), together with the properties of
    the contact tracker, the button arbiter and the wire codec.

    Integers are [Z] with the width of the C type written out where the
    source truncates; raw report buffers are [list byte]; the calls into
    the input core are recorded, in program order, as a list of events. *)

From Stdlib Require Import ZArith List Bool Lia.
From Stdlib.Strings Require Import Byte.
From stdpp Require Import base list.
Import ListNotations.
Local Open Scope Z_scope.

(** ** Machine integers *)

Definition u8 (x : Z) : Z := x mod 256.
Definition u16 (x : Z) : Z := x mod 65536.

(** Wrap-around of a 32-bit [int] (what the compiler does on the machines
    the driver runs on). *)
Definition int32 (x : Z) : Z := (x + 2147483648) mod 4294967296 - 2147483648.

(** [bytes[i]] on a [u8 *]. *)
Definition byte_at (bytes : list byte) (i : nat) : Z :=
  Z.of_N (Byte.to_N (nth i bytes x00)).

(** [MIN] and [MAX] of hid-logitech-tm.c. *)
Definition MIN (a b : Z) : Z := if a <? b then a else b.
Definition MAX (a b : Z) : Z := if a >? b then a else b.

(** ** The input core, as the drivers see it

    Each constructor is one call into the input layer; the drivers only
    ever produce them, so a run of a driver function is the list of calls
    it made. *)
Module Input.

Inductive ev_type := EV_KEY | EV_ABS.

Inductive ev_code :=
| ABS_MT_TRACKING_ID | ABS_MT_POSITION_X | ABS_MT_POSITION_Y | ABS_MT_PRESSURE
| BTN_TOOL_FINGER | BTN_TOOL_DOUBLETAP | BTN_TOOL_TRIPLETAP | BTN_TOOL_QUADTAP
| BTN_LEFT | BTN_RIGHT | BTN_MIDDLE
| REL_X | REL_Y.

Inductive input_ev :=
| input_mt_slot (slot : Z)
| input_event (t : ev_type) (c : ev_code) (value : Z)
| input_report_key (c : ev_code) (value : Z)
| input_report_rel (c : ev_code) (value : Z)
| input_mt_report_slot_state (active : bool)   (* tool is always MT_TOOL_FINGER *)
| input_mt_report_pointer_emulation (use_count : bool)
| input_sync.

(** *** What the sink sees of the multi-touch slots *)

(** Modelled from the spec: the input core, the sink of the decoded
    events, is not among the sources.  It keeps, for every slot, the last
    tracking id written while that slot was selected; [-1] is "no
    contact".  [input_mt_slot] selects the slot the following [ABS_MT_*]
    events go to. *)
Record mt_sink := { cur_slot : Z; tracking : Z -> Z }.

Definition sink_init : mt_sink := {| cur_slot := 0; tracking := fun _ => -1 |}.

Definition sink_step (s : mt_sink) (e : input_ev) : mt_sink :=
  match e with
  | input_mt_slot i => {| cur_slot := i; tracking := tracking s |}
  | input_event EV_ABS ABS_MT_TRACKING_ID v =>
      {| cur_slot := cur_slot s;
         tracking := fun j => if j =? cur_slot s then v else tracking s j |}
  | _ => s
  end.

Definition sink_run (s : mt_sink) (evs : list input_ev) : mt_sink :=
  fold_left sink_step evs s.

(** The slot selected after a trace. *)
Definition selected (cur : Z) (evs : list input_ev) : Z :=
  fold_left (fun c e => match e with input_mt_slot j => j | _ => c end) evs cur.

(** The events that are addressed to the selected slot. *)
Definition is_slot_ev (e : input_ev) : bool :=
  match e with
  | input_event EV_ABS (ABS_MT_TRACKING_ID | ABS_MT_POSITION_X
                        | ABS_MT_POSITION_Y | ABS_MT_PRESSURE) _ => true
  | input_mt_report_slot_state _ => true
  | _ => false
  end.

(** The events of a trace that reach slot [i], i.e. the slot events sent
    while [i] is the selected slot ([cur] is the slot selected when the
    trace starts). *)
Fixpoint slot_events (cur i : Z) (evs : list input_ev) : list input_ev :=
  match evs with
  | [] => []
  | input_mt_slot j :: rest => slot_events j i rest
  | e :: rest => if is_slot_ev e && (cur =? i) then e :: slot_events cur i rest
                 else slot_events cur i rest
  end.

(** The tracking id a slot holds after the events that reached it, [d]
    being the one it held before. *)
Definition last_tracking (d : Z) (evs : list input_ev) : Z :=
  fold_left (fun t e => match e with
                        | input_event EV_ABS ABS_MT_TRACKING_ID v => v
                        | _ => t
                        end) evs d.

(** The tracking ids a trace assigns, in order ("no contact" left out). *)
Definition allocated_ids (evs : list input_ev) : list Z :=
  flat_map (fun e => match e with
                     | input_event EV_ABS ABS_MT_TRACKING_ID v =>
                         if v =? -1 then [] else [v]
                     | _ => []
                     end) evs.

(** *** The age of a contact

    Beside the sink, the history of a trace counts the tracking ids
    assigned so far and remembers, for each slot, how many had been
    assigned before the slot got its own. *)
Definition assigns (e : input_ev) : bool :=
  match e with
  | input_event EV_ABS ABS_MT_TRACKING_ID v => negb (v =? -1)
  | _ => false
  end.

Record mt_history := { h_sink : mt_sink; h_allocs : nat; h_born : Z -> nat }.

Definition history_init : mt_history :=
  {| h_sink := sink_init; h_allocs := 0; h_born := fun _ => O |}.

Definition history_step (h : mt_history) (e : input_ev) : mt_history :=
  if assigns e then
    {| h_sink := sink_step (h_sink h) e;
       h_allocs := S (h_allocs h);
       h_born := fun j => if j =? cur_slot (h_sink h) then h_allocs h
                          else h_born h j |}
  else
    {| h_sink := sink_step (h_sink h) e;
       h_allocs := h_allocs h;
       h_born := h_born h |}.

Definition history (evs : list input_ev) : mt_history :=
  fold_left history_step evs history_init.

(** How many tracking ids have been assigned since slot [i] got the one
    it holds, that one included. *)
Definition age (h : mt_history) (i : Z) : Z :=
  Z.of_nat (h_allocs h - h_born h i).

(** No two slots in contact hold the same tracking id. *)
Definition unique_ids (s : mt_sink) : Prop :=
  forall i j, i <> j -> tracking s i <> -1 -> tracking s j <> -1 ->
              tracking s i <> tracking s j.

End Input.
Import Input.

(** ** hid-logitech-tm.c: touch mice *)
Module Tm.

Record tm_touchpad_info := {
  x_size : Z;            (* __u16 *)
  y_size : Z;            (* __u16 *)
  resolution : Z;        (* __u16 *)
  origin_position : Z;   (* __u8 *)
  max_fingers : Z;       (* __u8 *)
  max_width : Z          (* __u8 *)
}.

Definition DEPRESSOR_NONE : Z := 0.
Definition DEPRESSOR_MOUSE : Z := 1.
Definition DEPRESSOR_RAWPTS : Z := 2.
Definition DEPRESSOR_1B03 : Z := 3.

(** The fields of [struct tm_data] the report path reads or writes. *)
Record tm_data := {
  tp_info : tm_touchpad_info;
  mt_feature_index : Z;              (* __u8 *)
  feature_1b03 : Z;                  (* __u8 *)
  next_tracking_id : Z;              (* __u16 *)
  prev_slots_used : Z;               (* __u8, bit mask: 1 << slot_num *)
  button_depressor : list Z;         (* __u8 [3]: 0 BTN_LEFT, 1 RIGHT, 2 MIDDLE *)
  ignore_mouse_report_buttons : bool;
  hid_hw_started : bool
}.

Definition set_button_depressor (fd : tm_data) (d : list Z) : tm_data :=
  {| tp_info := tp_info fd; mt_feature_index := mt_feature_index fd;
     feature_1b03 := feature_1b03 fd; next_tracking_id := next_tracking_id fd;
     prev_slots_used := prev_slots_used fd; button_depressor := d;
     ignore_mouse_report_buttons := ignore_mouse_report_buttons fd;
     hid_hw_started := hid_hw_started fd |}.

Definition set_next_tracking_id (fd : tm_data) (n : Z) : tm_data :=
  {| tp_info := tp_info fd; mt_feature_index := mt_feature_index fd;
     feature_1b03 := feature_1b03 fd; next_tracking_id := n;
     prev_slots_used := prev_slots_used fd;
     button_depressor := button_depressor fd;
     ignore_mouse_report_buttons := ignore_mouse_report_buttons fd;
     hid_hw_started := hid_hw_started fd |}.

Definition set_prev_slots_used (fd : tm_data) (m : Z) : tm_data :=
  {| tp_info := tp_info fd; mt_feature_index := mt_feature_index fd;
     feature_1b03 := feature_1b03 fd; next_tracking_id := next_tracking_id fd;
     prev_slots_used := m; button_depressor := button_depressor fd;
     ignore_mouse_report_buttons := ignore_mouse_report_buttons fd;
     hid_hw_started := hid_hw_started fd |}.

(** *** emit_buttons *)

Definition idx_left : nat := 0.
Definition idx_middle : nat := 2.

Definition buttons (i : nat) : ev_code :=
  match i with O => BTN_LEFT | S O => BTN_RIGHT | _ => BTN_MIDDLE end.

(** [fd->button_depressor[i]] *)
Definition depressor (d : list Z) (i : nat) : Z := nth i d DEPRESSOR_NONE.

(** One round of the loop over the mouse report's button bits. *)
Definition mouse_button (b1 : Z) (d : list Z) (i : nat) : list Z :=
  let mask := u8 (Z.shiftl 1 (Z.of_nat i)) in
  if (depressor d i =? 0) && negb (Z.land b1 mask =? 0) then
    <[i := DEPRESSOR_MOUSE]> d
  else if (depressor d i =? DEPRESSOR_MOUSE) && (Z.land b1 mask =? 0) then
    <[i := DEPRESSOR_NONE]> d
  else d.

(** The three ways a button may be reported, in the order [emit_buttons]
    looks for them: the mouse report, ... *)
Definition mouse_report_buttons (fd : tm_data) (bytes : list byte)
  (d : list Z) : list Z :=
  if (byte_at bytes 0 =? 0x2) && negb (ignore_mouse_report_buttons fd) then
    fold_left (mouse_button (byte_at bytes 1))
              (seq idx_left (S idx_middle - idx_left)) d
  else d.

(** ... HID++ feature 0x1b03 for the middle button, ... *)
Definition feature_1b03_button (fd : tm_data) (bytes : list byte)
  (d : list Z) : list Z :=
  if (byte_at bytes 0 =? 0x11) && (byte_at bytes 2 =? feature_1b03 fd) then
    if (depressor d idx_middle =? 0) && negb (byte_at bytes 5 =? 0) then
      <[idx_middle := DEPRESSOR_1B03]> d
    else if (depressor d idx_middle =? DEPRESSOR_1B03)
            && (byte_at bytes 5 =? 0) then
      <[idx_middle := DEPRESSOR_NONE]> d
    else d
  else d.

(** ... and the raw touch points feature for the left button. *)
Definition raw_points_button (fd : tm_data) (bytes : list byte)
  (d : list Z) : list Z :=
  if (byte_at bytes 0 =? 0x11) && (byte_at bytes 2 =? mt_feature_index fd)
     && (Z.shiftr (byte_at bytes 3) 4 =? 1) then
    if (depressor d idx_left =? 0)
       && negb (Z.land (byte_at bytes 4) 2 =? 0) then
      <[idx_left := DEPRESSOR_RAWPTS]> d
    else if (depressor d idx_left =? DEPRESSOR_RAWPTS)
            && (Z.land (byte_at bytes 4) 2 =? 0) then
      <[idx_left := DEPRESSOR_NONE]> d
    else d
  else d.

Definition emit_buttons (fd : tm_data) (bytes : list byte)
  : tm_data * list input_ev :=
  let d := raw_points_button fd bytes
             (feature_1b03_button fd bytes
                (mouse_report_buttons fd bytes (button_depressor fd))) in
  (* Send input reports *)
  (set_button_depressor fd d,
   map (fun i => input_report_key (buttons i)
                   (Z.b2z (negb (depressor d i =? DEPRESSOR_NONE))))
       (seq idx_left (S idx_middle - idx_left))).

(** *** emit_fingers *)

Definition ORIGIN_LOWER_LEFT : Z := 1.
Definition ORIGIN_LOWER_RIGHT : Z := 2.
Definition ORIGIN_UPPER_LEFT : Z := 3.
Definition ORIGIN_UPPER_RIGHT : Z := 4.

Definition swap_x (fd : tm_data) : bool :=
  (origin_position (tp_info fd) =? ORIGIN_LOWER_RIGHT)
  || (origin_position (tp_info fd) =? ORIGIN_UPPER_RIGHT).

Definition swap_y (fd : tm_data) : bool :=
  (origin_position (tp_info fd) =? ORIGIN_LOWER_LEFT)
  || (origin_position (tp_info fd) =? ORIGIN_LOWER_RIGHT).

(** [rec[k]] for [rec = bytes + 4 * i]. *)
Definition rec_byte (bytes : list byte) (i : Z) (k : Z) : Z :=
  byte_at bytes (Z.to_nat (4 * i + k)).

Definition is_sentinel (bytes : list byte) (i : Z) : bool :=
  (rec_byte bytes i 0 =? 0xff) && (rec_byte bytes i 1 =? 0xff)
  && (rec_byte bytes i 2 =? 0xff) && (rec_byte bytes i 3 =? 0xff).

Definition raw_x (bytes : list byte) (i : Z) : Z :=
  Z.lor (Z.shiftl (rec_byte bytes i 0) 4) (Z.land (rec_byte bytes i 2) 0xf).

Definition raw_y (bytes : list byte) (i : Z) : Z :=
  Z.lor (Z.shiftl (rec_byte bytes i 1) 4) (Z.shiftr (rec_byte bytes i 2) 4).

Definition pressure (bytes : list byte) (i : Z) : Z :=
  let width_x := Z.shiftr (rec_byte bytes i 3) 4 + 1 in
  let width_y := Z.land (rec_byte bytes i 3) 0xf + 1 in
  MIN (MAX 30 (width_x * width_y * 3)) 255.

(** [u8 slot_mask = 1 << i]; the shift is done on a 32-bit [int] and the
    result cut to eight bits.  C defines the shift for [i < 31] only; on
    x86, where the driver is built, the shift count is taken modulo 32,
    so that from slot 32 on a slot shares its bit with the slot 32
    below.  What is proved of the mask below is proved for devices of at
    most 31 slots, where the shift is defined. *)
Definition slot_mask (i : Z) : Z := u8 (Z.shiftl 1 (i mod 32)).

(** [fd->next_tracking_id++; if (fd->next_tracking_id == 0xffff)
    fd->next_tracking_id = 1;] *)
Definition advance_tracking_id (next : Z) : Z :=
  let n := u16 (next + 1) in
  if n =? 0xffff then 1 else n.

(** The state the loop of [emit_fingers] carries: the driver data (whose
    [next_tracking_id] it advances), the local [slots_used] and the calls
    made so far. *)
Record fingers_loop := {
  lp_fd : tm_data;
  lp_slots_used : Z;
  lp_out : list input_ev
}.

(** The loop body for slot [i]. *)
Definition emit_finger (bytes : list byte) (st : fingers_loop) (i : Z)
  : fingers_loop :=
  let fd := lp_fd st in
  let out0 := lp_out st ++ [input_mt_slot i] in
  if is_sentinel bytes i then
    {| lp_fd := fd; lp_slots_used := lp_slots_used st;
       lp_out := out0 ++ [input_event EV_ABS ABS_MT_TRACKING_ID (-1)] |}
  else
    let slots_used := Z.lor (lp_slots_used st) (slot_mask i) in
    let '(fd1, out1) :=
      if Z.land (prev_slots_used fd) (slot_mask i) =? 0 then
        (* new finger. assign new tracking id *)
        (set_next_tracking_id fd (advance_tracking_id (next_tracking_id fd)),
         out0 ++ [input_event EV_ABS ABS_MT_TRACKING_ID (next_tracking_id fd)])
      else (fd, out0) in
    let x_pos := if swap_x fd then x_size (tp_info fd) - raw_x bytes i
                 else raw_x bytes i in
    let y_pos := if swap_y fd then y_size (tp_info fd) - raw_y bytes i
                 else raw_y bytes i in
    {| lp_fd := fd1; lp_slots_used := slots_used;
       lp_out := out1 ++ [input_event EV_ABS ABS_MT_POSITION_X x_pos;
                          input_event EV_ABS ABS_MT_POSITION_Y y_pos;
                          input_event EV_ABS ABS_MT_PRESSURE (pressure bytes i)] |}.

(** The slot numbers [0 .. n - 1], in order. *)
Definition slots_below (n : Z) : list Z := map Z.of_nat (seq 0 (Z.to_nat n)).

(** [for (i = 0; i < fd->tp_info.max_fingers; i++)] *)
Definition slot_range (fd : tm_data) : list Z :=
  slots_below (max_fingers (tp_info fd)).

Definition emit_fingers (fd : tm_data) (bytes : list byte)
  : tm_data * list input_ev :=
  let st := fold_left (emit_finger bytes) (slot_range fd)
              {| lp_fd := fd; lp_slots_used := 0; lp_out := [] |} in
  let slots_used := lp_slots_used st in
  (set_prev_slots_used (lp_fd st) slots_used,
   lp_out st ++
   [input_event EV_KEY BTN_TOOL_FINGER (Z.b2z (slots_used =? 1));
    input_event EV_KEY BTN_TOOL_DOUBLETAP (Z.b2z (slots_used =? 2));
    input_event EV_KEY BTN_TOOL_TRIPLETAP (Z.b2z (slots_used =? 3));
    input_event EV_KEY BTN_TOOL_QUADTAP (Z.b2z (slots_used =? 4))]).

(** *** Report layout *)

(** Modelled from the spec: [struct hidpp_report] is declared in
    hid-logitech-hidpp.h, which is not among the sources.  A report is a
    packed byte record: [report_id], [device_index], then (in the [rap]
    view) [sub_id], [reg_address] and the [params] array; the byte offsets
    are the ones [emit_buttons] uses on the same buffer. *)
Definition report_id (report : list byte) : Z := byte_at report 0.
Definition rap_sub_id (report : list byte) : Z := byte_at report 2.
Definition rap_reg_address (report : list byte) : Z := byte_at report 3.
Definition rap_params (report : list byte) : list byte := drop 4 report.

(** *** Reading [emit_fingers] slot by slot *)

(** Slot [i] carries a contact the previous frame did not have: the test
    that guards the allocation of a tracking id. *)
Definition is_new (fd : tm_data) (bytes : list byte) (i : Z) : bool :=
  negb (is_sentinel bytes i)
  && (Z.land (prev_slots_used fd) (slot_mask i) =? 0).

Definition emitted_x (fd : tm_data) (bytes : list byte) (i : Z) : Z :=
  if swap_x fd then x_size (tp_info fd) - raw_x bytes i else raw_x bytes i.

Definition emitted_y (fd : tm_data) (bytes : list byte) (i : Z) : Z :=
  if swap_y fd then y_size (tp_info fd) - raw_y bytes i else raw_y bytes i.

(** The calls one round of the loop makes once it has selected slot [i],
    [fd] being the driver data at that point. *)
Definition finger_events (fd : tm_data) (bytes : list byte) (i : Z)
  : list input_ev :=
  if is_sentinel bytes i then [input_event EV_ABS ABS_MT_TRACKING_ID (-1)]
  else
    (if is_new fd bytes i
     then [input_event EV_ABS ABS_MT_TRACKING_ID (next_tracking_id fd)]
     else [])
    ++ [input_event EV_ABS ABS_MT_POSITION_X (emitted_x fd bytes i);
        input_event EV_ABS ABS_MT_POSITION_Y (emitted_y fd bytes i);
        input_event EV_ABS ABS_MT_PRESSURE (pressure bytes i)].

(** How many of the slots of [l] get a tracking id. *)
Definition news (fd : tm_data) (bytes : list byte) (l : list Z) : nat :=
  length (List.filter (is_new fd bytes) l).

(** The value of [fd->next_tracking_id] when the loop reaches slot [i]. *)
Definition next_at (fd : tm_data) (bytes : list byte) (i : Z) : Z :=
  Nat.iter (news fd bytes (slots_below i)) advance_tracking_id
           (next_tracking_id fd).

(** The report is a frame of raw touch points, handed to [emit_fingers]. *)
Definition is_touch_frame (fd : tm_data) (report : list byte) : bool :=
  hid_hw_started fd && negb (report_id report =? 0x02)
  && (report_id report =? 0x11)
  && (rap_sub_id report =? mt_feature_index fd)
  && (Z.shiftr (rap_reg_address report) 4 =? 0).

(** Slot [i] is counted as in contact by the bit mask [m]. *)
Definition slot_used (m : Z) (i : Z) : bool := Z.testbit m i.

(** How many of the slots [0 .. 7] the [__u8] bit mask [m] counts. *)
Definition count_used (m : Z) : Z :=
  Z.of_nat (length (List.filter (slot_used m)
                           (map Z.of_nat (seq 0 8)))).

(** The ids the allocator hands out, [m] of them starting at [next]. *)
Fixpoint id_seq (m : nat) (next : Z) : list Z :=
  match m with
  | O => []
  | S m' => next :: id_seq m' (advance_tracking_id next)
  end.

Definition valid_tracking_id (n : Z) : Prop := 1 <= n <= 0xfffe.

(** *** Reading [emit_buttons] button by button

    What a report says about button [i] on behalf of the report kind
    [kind] (one of the [DEPRESSOR_*] values): nothing, or that it sees
    the button down ([true]) or up ([false]). *)
Definition observation (fd : tm_data) (bytes : list byte) (kind : Z) (i : nat)
  : option bool :=
  if negb (hid_hw_started fd) then None
  else if (kind =? DEPRESSOR_MOUSE) && (byte_at bytes 0 =? 0x2)
     && negb (ignore_mouse_report_buttons fd) && (i <=? idx_middle)%nat then
    Some (negb (Z.land (byte_at bytes 1) (u8 (Z.shiftl 1 (Z.of_nat i))) =? 0))
  else if (kind =? DEPRESSOR_1B03) && (byte_at bytes 0 =? 0x11)
          && (byte_at bytes 2 =? feature_1b03 fd) && (i =? idx_middle)%nat then
    Some (negb (byte_at bytes 5 =? 0))
  else if (kind =? DEPRESSOR_RAWPTS) && (byte_at bytes 0 =? 0x11)
          && (byte_at bytes 2 =? mt_feature_index fd)
          && (Z.shiftr (byte_at bytes 3) 4 =? 1) && (i =? idx_left)%nat then
    Some (negb (Z.land (byte_at bytes 4) 2 =? 0))
  else None.

(** The rule of the button arbiter for one report kind: it takes a free
    button it sees down, frees a button it holds and sees up, and leaves
    the button alone otherwise. *)
Definition arbitrate (kind : Z) (down : bool) (d : Z) : Z :=
  if (d =? DEPRESSOR_NONE) && down then kind
  else if (d =? kind) && negb down then DEPRESSOR_NONE
  else d.

Definition arbitrate_report (fd : tm_data) (bytes : list byte) (kind : Z)
  (i : nat) (d : Z) : Z :=
  match observation fd bytes kind i with
  | Some down => arbitrate kind down d
  | None => d
  end.

(** *** tm_raw_event *)

(** [(value << shift) >> shift] with [shift = sizeof(int) * 8 - 12]. *)
Definition sign_extend12 (value : Z) : Z :=
  let shift := 4 * 8 - 12 in
  Z.shiftr (int32 (Z.shiftl value shift)) shift.

(** The relative motion of a mouse report: two 12-bit signed fields
    packed across [reg_address], [params[0]] and [params[1]]. *)
Definition rel_motion (report : list byte) : list input_ev :=
  let value := Z.lor (rap_reg_address report)
                 (Z.shiftl (Z.land (byte_at (rap_params report) 0) 0xf) 8) in
  let value' := Z.lor (Z.shiftl (byte_at (rap_params report) 1) 4)
                  (Z.shiftr (byte_at (rap_params report) 0) 4) in
  [input_report_rel REL_X (sign_extend12 value);
   input_report_rel REL_Y (sign_extend12 value')].

Definition tm_raw_event (fd : tm_data) (report : list byte)
  : Z * tm_data * list input_ev :=
  if negb (hid_hw_started fd) then (1, fd, [])
  else
    let '(fd1, ev1) :=
      if report_id report =? 0x02 then (fd, rel_motion report)
      else if report_id report =? 0x11 then
        if rap_sub_id report =? mt_feature_index fd then
          if Z.shiftr (rap_reg_address report) 4 =? 0 then
            (* raw finger data *)
            emit_fingers fd (rap_params report)
          else (fd, [])
        else (fd, [])
      else (fd, []) in
    let '(fd2, ev2) := emit_buttons fd1 report in
    (1, fd2, ev1 ++ ev2 ++ [input_sync]).

(** The driver data and the calls made, once a report has been handled. *)
Definition tm_after (fd : tm_data) (report : list byte) : tm_data :=
  snd (fst (tm_raw_event fd report)).

Definition tm_events (fd : tm_data) (report : list byte) : list input_ev :=
  snd (tm_raw_event fd report).

(** The driver data as [tm_probe] leaves it once the device has answered
    [tm_set_raw_report_state]: zeroed by [kzalloc], then
    [prev_slots_used = 0], [next_tracking_id = 1], the per-model button
    flag, the geometry and feature indices read from the device, and
    [hid_hw_started = 1]. *)
Definition tm_probe (info : tm_touchpad_info) (mt_idx idx_1b03 : Z)
  (is_t620 : bool) : tm_data :=
  {| tp_info := info; mt_feature_index := mt_idx; feature_1b03 := idx_1b03;
     next_tracking_id := 1; prev_slots_used := 0;
     button_depressor := [0; 0; 0];
     ignore_mouse_report_buttons := is_t620;
     hid_hw_started := true |}.

(** A sequence of reports delivered one after the other. *)
Fixpoint tm_run (fd : tm_data) (reports : list (list byte))
  : tm_data * list input_ev :=
  match reports with
  | [] => (fd, [])
  | r :: rest =>
      let '(_, fd1, ev1) := tm_raw_event fd r in
      let '(fd2, ev2) := tm_run fd1 rest in
      (fd2, ev1 ++ ev2)
  end.

(** *** The contacts, read from the reports

    The last frame of raw touch points among [reports], if any; [fd] is
    the driver data at probe, of which only the feature index and the
    started flag are read, and no report changes those. *)
Definition last_frame (fd : tm_data) (reports : list (list byte))
  : option (list byte) :=
  fold_left (fun acc r => if is_touch_frame fd r then Some r else acc)
            reports None.

(** Slot [i] of the device carries a contact once [reports] have been
    handled: its record in the last frame is not the sentinel. *)
Definition in_contact (fd : tm_data) (reports : list (list byte)) (i : Z)
  : bool :=
  (0 <=? i) && (i <? max_fingers (tp_info fd))
  && match last_frame fd reports with
     | Some r => negb (is_sentinel (rap_params r) i)
     | None => false
     end.

(** Slot [i] carries no contact after [reports] and carries one once
    [report] has been handled as well: a contact appears. *)
Definition appears (fd : tm_data) (reports : list (list byte))
  (report : list byte) (i : Z) : bool :=
  negb (in_contact fd reports i) && in_contact fd (reports ++ [report]) i.

(** The driver and the sink agree on the slots in contact: the counter
    holds an id that can be handed out, [prev_slots_used] counts slots of
    the device only, and a slot holds a tracking id in the sink exactly
    when [prev_slots_used] counts it. *)
Definition in_step (fd : tm_data) (s : mt_sink) : Prop :=
  valid_tracking_id (next_tracking_id fd)
  /\ (forall i, slot_used (prev_slots_used fd) i = true ->
                0 <= i < max_fingers (tp_info fd))
  /\ (forall i, tracking s i <> -1 <-> slot_used (prev_slots_used fd) i = true).

(** *** Sample devices and reports *)

(** A four-finger touch mouse with its origin at the lower right. *)
Definition sample_info : tm_touchpad_info :=
  {| x_size := 1000; y_size := 800; resolution := 10;
     origin_position := ORIGIN_LOWER_RIGHT; max_fingers := 4; max_width := 16 |}.

Definition sample_fd : tm_data := tm_probe sample_info 5 7 false.

(** A raw-touch-points report for feature index 5 carrying [params]. *)
Definition touch_report (params : list byte) : list byte :=
  [x11; x01; x05; x00] ++ params.

(** Contacts in slots 0 and 1, nothing in slots 2 and 3. *)
Definition two_fingers : list byte :=
  [x10; x20; x34; x11;  x11; x21; x35; x22;
   xff; xff; xff; xff;  xff; xff; xff; xff].

(** The same frame once the finger in slot 1 has gone. *)
Definition one_finger : list byte :=
  [x10; x20; x34; x11;  xff; xff; xff; xff;
   xff; xff; xff; xff;  xff; xff; xff; xff].

(** A mouse report with the left button down, and a raw-touch-points
    button event (sub-event 1) that also sees it down. *)
Definition mouse_left_down : list byte := [x02; x01; x00; x00; x00; x00].
Definition rawpts_left_down : list byte := [x11; x01; x05; x10; x02; x00].

(** A two-finger device, one finger resting in slot 0 while another taps
    in slot 1. *)
Definition hold_info : tm_touchpad_info :=
  {| x_size := 1000; y_size := 800; resolution := 10;
     origin_position := ORIGIN_UPPER_LEFT; max_fingers := 2; max_width := 16 |}.

Definition hold_fd : tm_data := tm_probe hold_info 5 7 false.

(** The driver data between two taps, the counter being at [k]. *)
Definition tapping (k : Z) : tm_data :=
  set_prev_slots_used (set_next_tracking_id hold_fd k) 3.

Definition hold_only : list byte :=
  touch_report [x10; x20; x34; x11;  xff; xff; xff; xff].

Definition hold_and_tap : list byte :=
  touch_report [x10; x20; x34; x11;  x11; x21; x35; x22].

Definition taps (n : nat) : list (list byte) :=
  hold_and_tap :: concat (replicate n [hold_only; hold_and_tap]).

End Tm.

(** ** hid-logitech-wtp.c: wireless touchpad *)
Module Wtp.

Record hidpp_touchpad_raw_xy_finger := {
  contact_type : Z;     (* u8 *)
  contact_status : Z;   (* u8 *)
  x : Z;                (* u16 *)
  y : Z;                (* u16 *)
  z : Z;                (* u8 *)
  area : Z;             (* u8 *)
  finger_id : Z         (* u8 *)
}.

Record hidpp_touchpad_raw_xy := {
  timestamp : Z;                              (* u16 *)
  fingers_0 : hidpp_touchpad_raw_xy_finger;   (* fingers[0] *)
  fingers_1 : hidpp_touchpad_raw_xy_finger;   (* fingers[1] *)
  spurious_flag : Z;                          (* u8 *)
  end_of_frame : Z;                           (* u8 *)
  finger_count : Z                            (* u8 *)
}.

Record wtp_mt_slot := {
  touch_state : bool;          (* is the touch valid? *)
  seen_in_this_frame : bool    (* has this slot been updated *)
}.

(** [struct wtp_mt_slot slots[5]] *)
Definition ARRAY_SIZE_slots : Z := 5.

(** The fields of [struct wtp_data] the report path reads or writes. *)
Record wtp_data := {
  maxcontacts : Z;             (* __u8 *)
  slots : list wtp_mt_slot     (* five entries *)
}.

Definition set_slots (fd : wtp_data) (s : list wtp_mt_slot) : wtp_data :=
  {| maxcontacts := maxcontacts fd; slots := s |}.

(** The driver data as [wtp_probe] leaves it. *)
Definition wtp_probe : wtp_data :=
  {| maxcontacts := 5;
     slots := replicate 5 {| touch_state := false; seen_in_this_frame := false |} |}.

(** One touch sub-record on the wire ([z] and [area] of the source are
    [touch_z] and [touch_area] here, the finger record has the names). *)
Record touch_hidpp_report := {
  x_m : Z; x_l : Z; y_m : Z; y_l : Z;
  touch_z : Z; touch_area : Z; id : Z     (* all u8 *)
}.

Record dual_touch_hidpp_report := {
  dt_report_id : Z;
  device_index : Z;
  feature_index : Z;
  broadcast_event : Z;
  dt_timestamp : Z;
  touches_0 : touch_hidpp_report;   (* touches[0] *)
  touches_1 : touch_hidpp_report    (* touches[1] *)
}.

(** A C array has no bounds check: an access outside [fd->slots] is
    undefined behaviour, recorded here as a fault carrying the index. *)
Inductive outcome (A : Type) :=
| Done (a : A)
| OutOfBounds (index : Z).
Arguments Done {A} a.
Arguments OutOfBounds {A} index.

Definition bind {A B} (r : outcome A) (k : A -> outcome B) : outcome B :=
  match r with
  | Done a => k a
  | OutOfBounds i => OutOfBounds i
  end.

(** *** wtp_touch_event *)
Definition wtp_touch_event (fd : wtp_data)
  (touch_report : hidpp_touchpad_raw_xy_finger)
  : outcome (wtp_data * list input_ev) :=
  let slot := finger_id touch_report - 1 in
  if (0 <=? slot) && (slot <? ARRAY_SIZE_slots) then
    let active := negb (contact_status touch_report =? 0) in
    let fd1 := set_slots fd
                 (<[Z.to_nat slot :=
                      {| touch_state := active; seen_in_this_frame := true |}]>
                    (slots fd)) in
    Done (fd1,
          [input_mt_slot slot; input_mt_report_slot_state active]
          ++ (if active then
                [input_event EV_ABS ABS_MT_POSITION_X (x touch_report);
                 input_event EV_ABS ABS_MT_POSITION_Y (y touch_report);
                 input_event EV_ABS ABS_MT_PRESSURE (area touch_report)]
              else []))
  else OutOfBounds slot.

(** *** wtp_touchpad_raw_xy_event *)

(** Does the report carry a second touch record? *)
Definition second_touch (end_of_frame : bool) (finger_count : Z) : bool :=
  (end_of_frame && (finger_count =? 4))
  || (negb end_of_frame && (finger_count >=? 2)).

(** The touch records of the report, applied in order. *)
Definition apply_touches (fd : wtp_data) (raw : hidpp_touchpad_raw_xy)
  : outcome (wtp_data * list input_ev) :=
  let end_of_frame := negb (end_of_frame raw =? 0) in
  if negb (finger_count raw =? 0) then
    bind (wtp_touch_event fd (fingers_0 raw)) (fun '(fd1, ev1) =>
    if second_touch end_of_frame (finger_count raw) then
      bind (wtp_touch_event fd1 (fingers_1 raw)) (fun '(fd2, ev2) =>
      Done (fd2, ev1 ++ ev2))
    else Done (fd1, ev1))
  else Done (fd, []).

(** [!fd->slots[i].seen_in_this_frame && fd->slots[i].touch_state] *)
Definition stale (s : wtp_mt_slot) : bool :=
  negb (seen_in_this_frame s) && touch_state s.

(** One round of the loop over [fd->slots] at a frame boundary. *)
Definition flush_slot (st : list wtp_mt_slot * list input_ev) (i : nat)
  : list wtp_mt_slot * list input_ev :=
  let '(sl, out) := st in
  match sl !! i with
  | Some s =>
      let '(touch, out1) :=
        if stale s then
          (false, out ++ [input_mt_slot (Z.of_nat i);
                          input_mt_report_slot_state false])
        else (touch_state s, out) in
      (<[i := {| touch_state := touch; seen_in_this_frame := false |}]> sl, out1)
  | None => st
  end.

Definition flush_frame (sl : list wtp_mt_slot)
  : list wtp_mt_slot * list input_ev :=
  fold_left flush_slot (seq 0 (Z.to_nat ARRAY_SIZE_slots)) (sl, []).

Definition frame_boundary (raw : hidpp_touchpad_raw_xy) : bool :=
  negb (end_of_frame raw =? 0) || (finger_count raw <=? 2).

Definition wtp_touchpad_raw_xy_event (initialized : bool) (fd : wtp_data)
  (raw : hidpp_touchpad_raw_xy) : outcome (Z * wtp_data * list input_ev) :=
  let finger_count := finger_count raw in
  if negb initialized then Done (0, fd, [])
  else
    bind (apply_touches fd raw) (fun '(fd1, ev1) =>
    if frame_boundary raw then
      let '(sl, ev2) := flush_frame (slots fd1) in
      Done (1, set_slots fd1 sl,
            ev1 ++ ev2 ++
            [input_mt_report_pointer_emulation true;
             input_report_key BTN_TOOL_FINGER (Z.b2z (finger_count =? 1));
             input_report_key BTN_TOOL_DOUBLETAP (Z.b2z (finger_count =? 2));
             input_report_key BTN_TOOL_TRIPLETAP (Z.b2z (finger_count =? 3));
             input_report_key BTN_TOOL_QUADTAP (Z.b2z (finger_count =? 4));
             input_sync])
    else Done (1, fd1, ev1)).

(** *** hidpp_touchpad_touch_event: one wire sub-record to a finger *)
Definition hidpp_touchpad_touch_event (touch_report : touch_hidpp_report)
  : hidpp_touchpad_raw_xy_finger :=
  let x_m' := u8 (Z.shiftl (x_m touch_report) 2) in
  let y_m' := u8 (Z.shiftl (y_m touch_report) 2) in
  {| contact_type := Z.shiftr (x_m touch_report) 6;
     x := u16 (Z.lor (Z.shiftl x_m' 6) (x_l touch_report));
     contact_status := Z.shiftr (y_m touch_report) 6;
     y := u16 (Z.lor (Z.shiftl y_m' 6) (y_l touch_report));
     finger_id := Z.shiftr (id touch_report) 4;
     z := touch_z touch_report;
     area := touch_area touch_report |}.

(** *** hidpp_touchpad_raw_xy_event

    [raw_xy] is a local the source does not initialise: [stack] is
    whatever it holds on entry, and the fields the function does not write
    keep that content. *)
Definition decode_raw_xy (stack : hidpp_touchpad_raw_xy)
  (report : dual_touch_hidpp_report) : hidpp_touchpad_raw_xy :=
  let eof := Z.land (id (touches_0 report)) 0x01 in
  let spurious := Z.land (Z.shiftr (id (touches_0 report)) 1) 0x01 in
  let count := Z.land (id (touches_1 report)) 0x0f in
  let f0 := if negb (count =? 0)
            then hidpp_touchpad_touch_event (touches_0 report)
            else fingers_0 stack in
  let f1 := if negb (count =? 0) && second_touch (negb (eof =? 0)) count
            then hidpp_touchpad_touch_event (touches_1 report)
            else fingers_1 stack in
  {| timestamp := timestamp stack;
     fingers_0 := f0; fingers_1 := f1;
     spurious_flag := spurious; end_of_frame := eof; finger_count := count |}.

Definition hidpp_touchpad_raw_xy_event (initialized : bool)
  (stack : hidpp_touchpad_raw_xy) (fd : wtp_data)
  (report : dual_touch_hidpp_report)
  : outcome (Z * wtp_data * list input_ev) :=
  wtp_touchpad_raw_xy_event initialized fd (decode_raw_xy stack report).

(** *** Reading the slot array *)

Definition touch_at (fd : wtp_data) (i : nat) : bool :=
  match slots fd !! i with Some s => touch_state s | None => false end.

Definition seen_at (fd : wtp_data) (i : nat) : bool :=
  match slots fd !! i with Some s => seen_in_this_frame s | None => false end.

(** The finger identifier names an entry of [fd->slots]. *)
Definition in_slots (t : hidpp_touchpad_raw_xy_finger) : Prop :=
  1 <= finger_id t <= ARRAY_SIZE_slots.

(** Every touch record the report applies names an entry of [fd->slots]. *)
Definition touches_in_slots (raw : hidpp_touchpad_raw_xy) : Prop :=
  (finger_count raw <> 0 -> in_slots (fingers_0 raw))
  /\ (finger_count raw <> 0 ->
      second_touch (negb (end_of_frame raw =? 0)) (finger_count raw) = true ->
      in_slots (fingers_1 raw)).

(** A touch record applied by the report names slot [i]. *)
Definition addressed (raw : hidpp_touchpad_raw_xy) (i : nat) : Prop :=
  finger_count raw <> 0
  /\ (finger_id (fingers_0 raw) - 1 = Z.of_nat i
      \/ (second_touch (negb (end_of_frame raw =? 0)) (finger_count raw) = true
          /\ finger_id (fingers_1 raw) - 1 = Z.of_nat i)).

(** A touch record applied by the report reports slot [i] as lifted. *)
Definition lifted (raw : hidpp_touchpad_raw_xy) (i : nat) : Prop :=
  finger_count raw <> 0
  /\ ((finger_id (fingers_0 raw) - 1 = Z.of_nat i
       /\ contact_status (fingers_0 raw) = 0)
      \/ (second_touch (negb (end_of_frame raw =? 0)) (finger_count raw) = true
          /\ finger_id (fingers_1 raw) - 1 = Z.of_nat i
          /\ contact_status (fingers_1 raw) = 0)).

(** A slot once the frame boundary has passed over it, and the calls made
    for it. *)
Definition flushed (s : wtp_mt_slot) : wtp_mt_slot :=
  {| touch_state := if stale s then false else touch_state s;
     seen_in_this_frame := false |}.

Definition stale_events (i : nat) (s : wtp_mt_slot) : list input_ev :=
  if stale s
  then [input_mt_slot (Z.of_nat i); input_mt_report_slot_state false]
  else [].

(** The calls that close a frame. *)
Definition frame_summary (finger_count : Z) : list input_ev :=
  [input_mt_report_pointer_emulation true;
   input_report_key BTN_TOOL_FINGER (Z.b2z (finger_count =? 1));
   input_report_key BTN_TOOL_DOUBLETAP (Z.b2z (finger_count =? 2));
   input_report_key BTN_TOOL_TRIPLETAP (Z.b2z (finger_count =? 3));
   input_report_key BTN_TOOL_QUADTAP (Z.b2z (finger_count =? 4));
   input_sync].

(** *** Sample reports *)

Definition finger (id status : Z) : hidpp_touchpad_raw_xy_finger :=
  {| contact_type := 0; contact_status := status; x := 100; y := 200;
     z := 0; area := 9; finger_id := id |}.

Definition raw_xy (f0 f1 : hidpp_touchpad_raw_xy_finger) (eof count : Z)
  : hidpp_touchpad_raw_xy :=
  {| timestamp := 0; fingers_0 := f0; fingers_1 := f1;
     spurious_flag := 0; end_of_frame := eof; finger_count := count |}.

(** One finger down in slot 0, closing its frame. *)
Definition one_finger_down : hidpp_touchpad_raw_xy :=
  raw_xy (finger 1 1) (finger 2 0) 1 1.

(** The pad as that report leaves it. *)
Definition touching : wtp_data :=
  {| maxcontacts := 5;
     slots := {| touch_state := true; seen_in_this_frame := false |}
              :: replicate 4 {| touch_state := false;
                                seen_in_this_frame := false |} |}.

(** First part of a three-finger frame: finger 1 lifted, finger 2 down. *)
Definition lift_first_finger : hidpp_touchpad_raw_xy :=
  raw_xy (finger 1 0) (finger 2 1) 0 3.

Definition touch (xm ym i : Z) : touch_hidpp_report :=
  {| x_m := xm; x_l := 0x10; y_m := ym; y_l := 0x20;
     touch_z := 0; touch_area := 9; id := i |}.

Definition dual_touch (t0 t1 : touch_hidpp_report) : dual_touch_hidpp_report :=
  {| dt_report_id := 0x11; device_index := 1; feature_index := 0x0f;
     broadcast_event := 0; dt_timestamp := 0;
     touches_0 := t0; touches_1 := t1 |}.

Definition zero_raw_xy : hidpp_touchpad_raw_xy :=
  raw_xy (finger 0 0) (finger 0 0) 0 0.

End Wtp.

(** ** A device of nine slots

    One slot more than the [__u8] mask of used slots can record. *)
Module TmNine.
Import Tm.

Definition nine_info : tm_touchpad_info :=
  {| x_size := 1000; y_size := 800; resolution := 10;
     origin_position := ORIGIN_UPPER_LEFT; max_fingers := 9; max_width := 16 |}.

Definition nine_fd : tm_data := tm_probe nine_info 5 7 false.

(** Nothing in slots 0 to 7, a contact in slot 8. *)
Definition ninth_finger : list byte :=
  concat (replicate 8 [xff; xff; xff; xff]) ++ [x10; x20; x34; x11].

End TmNine.


(** ** Writing reports

    The inverse direction of the wire codec, used to state round trips:
    what a device has to put on the wire for the drivers to read a given
    value. *)
Module Wire.
Import Tm.

(** The byte holding [z mod 256]. *)
Definition byte_of (z : Z) : byte :=
  match Byte.of_N (Z.to_N (z mod 256)) with
  | Some b => b
  | None => x00
  end.

(** A mouse report (report id 2) with the button bits [btn] and the
    relative motion [dx], [dy], twelve bits each: [dx] fills
    [reg_address] and the low nibble of [params[0]], [dy] the high nibble
    of [params[0]] and [params[1]]. *)
Definition mouse_report (btn dx dy : Z) : list byte :=
  [x02; byte_of btn; x00;
   byte_of dx;
   byte_of (Z.lor (Z.land (Z.shiftr dx 8) 0xf) (Z.shiftl (Z.land dy 0xf) 4));
   byte_of (Z.shiftr dy 4)].

(** A four-byte touch record for the position [x], [y] (twelve bits
    each) and the widths [wx], [wy] (1 to 16). *)
Definition touch_record (x y wx wy : Z) : list byte :=
  [byte_of (Z.shiftr x 4); byte_of (Z.shiftr y 4);
   byte_of (Z.lor (Z.land x 0xf) (Z.shiftl (Z.land y 0xf) 4));
   byte_of (Z.lor (Z.shiftl (wx - 1) 4) (wy - 1))].

(** The [params] of a raw-touch-points report: one record per slot,
    each given as position and widths. *)
Definition touch_records (recs : list (Z * Z * Z * Z)) : list byte :=
  flat_map (fun '(x, y, wx, wy) => touch_record x y wx wy) recs.

(** [MIN(MAX(30, v), 255)] in words. *)
Definition clamp_pressure (v : Z) : Z := Z.min 255 (Z.max 30 v).

End Wire.


(** ** The command transport *)
Module Hidpp.

Inductive report_type := REPORT_ID_HIDPP_SHORT | REPORT_ID_HIDPP_LONG.

(** One synchronous command, as handed to
    [hidpp_send_rap_command_sync] or [hidpp_send_fap_command_sync]; the
    parameters are the first [param_count] bytes of [params]. *)
Inductive command :=
| rap_command (report_id : report_type) (sub_id reg_address : Z) (params : list Z)
| fap_command (feat_index funcindex_clientid : Z) (params : list Z).

(** What comes back: the return value and, when that is 0, the
    parameter bytes of the response. *)
Record answer := { a_ret : Z; a_params : list byte }.

(** Modelled from the spec: the device at the other end of the command
    transport, given by what it answers to the first, second, ...
    command it is sent. *)
Definition device := nat -> answer.

(** Modelled from the spec: [hidpp_send_rap_command_sync] is declared in
    hid-logitech-hidpp.h and is not among the sources.  It sends one
    command and waits for the answer; [sent] is the list of commands sent
    so far. *)
Definition hidpp_send_rap_command_sync (dev : device) (sent : list command)
  (report_id : report_type) (sub_id reg_address : Z) (params : list Z)
  (param_count : nat) : answer * list command :=
  (dev (length sent),
   sent ++ [rap_command report_id sub_id reg_address (take param_count params)]).

(** Modelled from the spec: [hidpp_send_fap_command_sync], declared in
    hid-logitech-hidpp.h as well, does the same for a command addressed
    by feature index. *)
Definition hidpp_send_fap_command_sync (dev : device) (sent : list command)
  (feat_index funcindex_clientid : Z) (params : list Z) (param_count : nat)
  : answer * list command :=
  (dev (length sent),
   sent ++ [fap_command feat_index funcindex_clientid (take param_count params)]).

(** [return -ret;] on an [int]. *)
Definition neg_ret (ret : Z) : Z := int32 (- ret).

(** The return value is an [int]. *)
Definition int_range (ret : Z) : Prop := -2147483648 < ret < 2147483648.

End Hidpp.

(** ** Declaring the input device

    What [tm_input_mapping] and [wtp_input_mapping] tell the input core,
    call by call. *)
Module Setup.

(** The event codes of the report path, and the ones that are only ever
    declared. *)
Inductive setup_code :=
| code (c : ev_code)
| BTN_TOUCH | ABS_X | ABS_Y | ABS_MT_TOUCH_MAJOR | ABS_MT_TOUCH_MINOR.

Inductive setup_call :=
| set_bit_EV_KEY
| set_bit_EV_ABS
| set_bit_key (c : setup_code)                    (* __set_bit(c, input->keybit) *)
| input_set_capability_key (c : setup_code)       (* type EV_KEY *)
| input_set_capability_rel (c : setup_code)       (* type EV_REL *)
| input_mt_init_slots (num_slots : Z)
| input_set_abs_params (axis : setup_code) (min max fuzz flat : Z).

Definition ev_code_eqb (a b : ev_code) : bool :=
  match a, b with
  | ABS_MT_TRACKING_ID, ABS_MT_TRACKING_ID
  | ABS_MT_POSITION_X, ABS_MT_POSITION_X
  | ABS_MT_POSITION_Y, ABS_MT_POSITION_Y
  | ABS_MT_PRESSURE, ABS_MT_PRESSURE
  | BTN_TOOL_FINGER, BTN_TOOL_FINGER
  | BTN_TOOL_DOUBLETAP, BTN_TOOL_DOUBLETAP
  | BTN_TOOL_TRIPLETAP, BTN_TOOL_TRIPLETAP
  | BTN_TOOL_QUADTAP, BTN_TOOL_QUADTAP
  | BTN_LEFT, BTN_LEFT | BTN_RIGHT, BTN_RIGHT | BTN_MIDDLE, BTN_MIDDLE
  | REL_X, REL_X | REL_Y, REL_Y => true
  | _, _ => false
  end.

(** Modelled from the spec: what the input core, which is not among the
    sources, makes of the calls.  The range they leave declared for an
    [ABS_*] code of the report path, if any (a later call replaces an
    earlier one). *)
Definition declared_range (calls : list setup_call) (axis : ev_code)
  : option (Z * Z) :=
  fold_left (fun r c =>
               match c with
               | input_set_abs_params (code a) lo hi _ _ =>
                   if ev_code_eqb a axis then Some (lo, hi) else r
               | _ => r
               end) calls None.

(** Modelled from the spec: the number of slots declared, if any. *)
Definition declared_slots (calls : list setup_call) : option Z :=
  fold_left (fun r c => match c with
                        | input_mt_init_slots n => Some n
                        | _ => r
                        end) calls None.

(** Modelled from the spec: the key bit of an [EV_KEY] code of the report
    path is set. *)
Definition key_declared (calls : list setup_call) (c : ev_code) : bool :=
  existsb (fun s => match s with
                    | set_bit_key (code a) | input_set_capability_key (code a) =>
                        ev_code_eqb a c
                    | _ => false
                    end) calls.

End Setup.

(** ** hid-logitech-tm.c: switching the device to raw mode *)
Module TmSetup.
Import Tm Hidpp Setup.

Definition SOFTWARE_ID : Z := 0xB.
Definition FEATURE_TOUCH_MOUSE_RAW_POINTS : Z := 0x6110.
Definition FEATURE_TOUCH_MOUSE_1B03 : Z := 0x1b03.

Definition set_mt_feature_index (fd : tm_data) (v : Z) : tm_data :=
  {| tp_info := tp_info fd; mt_feature_index := v;
     feature_1b03 := feature_1b03 fd; next_tracking_id := next_tracking_id fd;
     prev_slots_used := prev_slots_used fd;
     button_depressor := button_depressor fd;
     ignore_mouse_report_buttons := ignore_mouse_report_buttons fd;
     hid_hw_started := hid_hw_started fd |}.

Definition set_feature_1b03 (fd : tm_data) (v : Z) : tm_data :=
  {| tp_info := tp_info fd; mt_feature_index := mt_feature_index fd;
     feature_1b03 := v; next_tracking_id := next_tracking_id fd;
     prev_slots_used := prev_slots_used fd;
     button_depressor := button_depressor fd;
     ignore_mouse_report_buttons := ignore_mouse_report_buttons fd;
     hid_hw_started := hid_hw_started fd |}.

Definition set_tp_info (fd : tm_data) (info : tm_touchpad_info) : tm_data :=
  {| tp_info := info; mt_feature_index := mt_feature_index fd;
     feature_1b03 := feature_1b03 fd; next_tracking_id := next_tracking_id fd;
     prev_slots_used := prev_slots_used fd;
     button_depressor := button_depressor fd;
     ignore_mouse_report_buttons := ignore_mouse_report_buttons fd;
     hid_hw_started := hid_hw_started fd |}.

Definition set_hid_hw_started (fd : tm_data) (v : bool) : tm_data :=
  {| tp_info := tp_info fd; mt_feature_index := mt_feature_index fd;
     feature_1b03 := feature_1b03 fd; next_tracking_id := next_tracking_id fd;
     prev_slots_used := prev_slots_used fd;
     button_depressor := button_depressor fd;
     ignore_mouse_report_buttons := ignore_mouse_report_buttons fd;
     hid_hw_started := v |}.

(** *** tm_hidpp_send_sync *)
Definition tm_hidpp_send_sync (dev : device) (sent : list command)
  (type : report_type) (feature_index sub_index software_id : Z)
  (params : list Z) (params_count : nat) : answer * list command :=
  hidpp_send_rap_command_sync dev sent type feature_index
    (u8 (Z.lor (Z.shiftl sub_index 4) software_id)) params params_count.

(** The geometry in the nine parameter bytes of the answer. *)
Definition read_tp_info (params : list byte) : tm_touchpad_info :=
  {| x_size := u16 (Z.lor (Z.shiftl (u16 (byte_at params 0)) 8)
                          (byte_at params 1));
     y_size := u16 (Z.lor (Z.shiftl (u16 (byte_at params 2)) 8)
                          (byte_at params 3));
     resolution := u16 (Z.lor (Z.shiftl (u16 (byte_at params 4)) 8)
                              (byte_at params 5));
     origin_position := byte_at params 6;
     max_fingers := byte_at params 7;
     max_width := byte_at params 8 |}.

(** *** tm_set_raw_report_state *)
Definition tm_set_raw_report_state (dev : device) (sent : list command)
  (fd : tm_data) : Z * tm_data * list command :=
  (* Get hid++ version number *)
  let '(response, sent) :=
    tm_hidpp_send_sync dev sent REPORT_ID_HIDPP_SHORT 0 1 SOFTWARE_ID [] 0 in
  if negb (a_ret response =? 0) then (neg_ret (a_ret response), fd, sent)
  else
  (* Get Feature index of 0x6110 *)
  let params := [u8 (Z.shiftr FEATURE_TOUCH_MOUSE_RAW_POINTS 8);
                 u8 (Z.land FEATURE_TOUCH_MOUSE_RAW_POINTS 0xff)] in
  let '(response, sent) :=
    tm_hidpp_send_sync dev sent REPORT_ID_HIDPP_SHORT 0 0 SOFTWARE_ID params 2 in
  if negb (a_ret response =? 0) then (neg_ret (a_ret response), fd, sent)
  else
  let f_idx := byte_at (a_params response) 0 in
  let fd := set_mt_feature_index fd f_idx in
  (* Get Feature index of 0x1b03 *)
  let params := [u8 (Z.shiftr FEATURE_TOUCH_MOUSE_1B03 8);
                 u8 (Z.land FEATURE_TOUCH_MOUSE_1B03 0xff)] in
  let '(response, sent) :=
    tm_hidpp_send_sync dev sent REPORT_ID_HIDPP_SHORT 0 0 SOFTWARE_ID params 2 in
  if negb (a_ret response =? 0) then (neg_ret (a_ret response), fd, sent)
  else
  let fd := set_feature_1b03 fd (byte_at (a_params response) 0) in
  (* Get params *)
  let '(response, sent) :=
    tm_hidpp_send_sync dev sent REPORT_ID_HIDPP_SHORT f_idx 0 SOFTWARE_ID [] 0 in
  if negb (a_ret response =? 0) then (neg_ret (a_ret response), fd, sent)
  else
  let fd := set_tp_info fd (read_tp_info (a_params response)) in
  (* Request raw mode *)
  let params := [3; nth 1 params 0] in
  let '(response, sent) :=
    tm_hidpp_send_sync dev sent REPORT_ID_HIDPP_SHORT f_idx 2 SOFTWARE_ID params 1 in
  if negb (a_ret response =? 0) then (neg_ret (a_ret response), fd, sent)
  else (a_ret response, fd, sent).

(** The five commands of the switch to raw mode, [f_idx] being the
    feature index the device gave for the raw touch points. *)
Definition handshake (f_idx : Z) : list command :=
  [rap_command REPORT_ID_HIDPP_SHORT 0 0x1b [];
   rap_command REPORT_ID_HIDPP_SHORT 0 0x0b [0x61; 0x10];
   rap_command REPORT_ID_HIDPP_SHORT 0 0x0b [0x1b; 0x03];
   rap_command REPORT_ID_HIDPP_SHORT f_idx 0x0b [];
   rap_command REPORT_ID_HIDPP_SHORT f_idx 0x2b [3]].

(** *** tm_connect_change *)
Definition tm_connect_change (dev : device) (sent : list command)
  (fd : tm_data) (connected : bool) : tm_data * list command :=
  if connected && hid_hw_started fd then
    let '(_, fd', sent') := tm_set_raw_report_state dev sent fd in (fd', sent')
  else (fd, sent).

(** *** delayedwork_callback

    The two flags of [struct tm_data] that only the mode switch uses. *)
Record tm_mode := { in_raw_mode : bool; raw_switch_requested : bool }.

(** One run of the deferred work, taken on its own (what happens under
    [fd->lock] is done in program order).  [hw_start] is what
    [hid_hw_start] returns if it is called. *)
Definition delayedwork_callback (dev : device) (sent : list command)
  (hw_start : Z) (fd : tm_data) (mode : tm_mode)
  : tm_data * tm_mode * list command :=
  if in_raw_mode mode then (fd, mode, sent)
  else
    let '(ret, fd, sent) := tm_set_raw_report_state dev sent fd in
    let '(ret, fd) :=
      if negb (ret =? 0) then (ret, fd)
      else
        (* set up the input device *)
        if negb (hid_hw_started fd) then
          let ret := hw_start in
          if negb (ret =? 0) then (ret, fd)
          else (ret, set_hid_hw_started fd true)
        else (ret, fd) in
    (fd,
     {| in_raw_mode := if ret =? 0 then true else in_raw_mode mode;
        raw_switch_requested := false |},
     sent).

(** *** tm_input_mapping *)

(** [switch (fd->tp_info.max_fingers)], whose cases fall through. *)
Definition tool_bits (max_fingers : Z) : list setup_call :=
  let case1 := [set_bit_key (code BTN_TOOL_FINGER); set_bit_key BTN_TOUCH] in
  let case2 := set_bit_key (code BTN_TOOL_DOUBLETAP) :: case1 in
  let case3 := set_bit_key (code BTN_TOOL_TRIPLETAP) :: case2 in
  let case4 := set_bit_key (code BTN_TOOL_QUADTAP) :: case3 in
  if max_fingers =? 4 then case4
  else if max_fingers =? 3 then case3
  else if max_fingers =? 2 then case2
  else if max_fingers =? 1 then case1
  else [].

(** [is_button] stands for
    [(usage->hid & HID_USAGE_PAGE) == HID_UP_BUTTON]. *)
Definition tm_input_mapping (fd : tm_data) (is_button : bool)
  : Z * list setup_call :=
  if negb is_button then (-1, [])
  else
    let info := tp_info fd in
    (0,
     [set_bit_EV_KEY]
     ++ tool_bits (max_fingers info)
     ++ [input_set_capability_key BTN_TOUCH;
         set_bit_key (code BTN_LEFT); set_bit_key (code BTN_RIGHT);
         set_bit_key (code BTN_MIDDLE);
         set_bit_EV_ABS;
         input_mt_init_slots (MAX 2 (max_fingers info));
         input_set_abs_params ABS_MT_TOUCH_MAJOR 0 (max_width info) 0 0;
         input_set_abs_params ABS_MT_TOUCH_MINOR 0 (max_width info) 0 0;
         input_set_abs_params (code ABS_MT_PRESSURE) 0
           (MAX 255 (max_width info * max_width info)) 0 0;
         input_set_abs_params (code ABS_MT_POSITION_X) 0 (x_size info) 0 0;
         input_set_abs_params (code ABS_MT_POSITION_Y) 0 (y_size info) 0 0;
         input_set_abs_params ABS_X 0 (x_size info) 0 0;
         input_set_abs_params ABS_Y 0 (y_size info) 0 0;
         input_set_capability_rel (code REL_X);
         input_set_capability_rel (code REL_Y)]).

(** What a device has to answer to the geometry query for the driver to
    read [info]. *)
Definition write_tp_info (info : tm_touchpad_info) : list byte :=
  [Wire.byte_of (Z.shiftr (x_size info) 8); Wire.byte_of (x_size info);
   Wire.byte_of (Z.shiftr (y_size info) 8); Wire.byte_of (y_size info);
   Wire.byte_of (Z.shiftr (resolution info) 8); Wire.byte_of (resolution info);
   Wire.byte_of (origin_position info); Wire.byte_of (max_fingers info);
   Wire.byte_of (max_width info)].

(** *** Sample devices *)

(** A device that accepts every command: HID++ 4.2, raw touch points at
    index 5, feature 0x1b03 at index 7, the geometry of [sample_info]. *)
Definition sample_device : device :=
  fun k => {| a_ret := 0;
              a_params := match k with
                          | 1%nat => [x05]
                          | 2%nat => [x07]
                          | 3%nat => write_tp_info sample_info
                          | _ => [x04; x02]
                          end |}.

(** The same device, out of range from the fourth command on. *)
Definition fading_device : device :=
  fun k => if (k <? 3)%nat then sample_device k
           else {| a_ret := 9; a_params := [] |}.

(** The driver data before the device has said anything. *)
Definition blank_fd : tm_data :=
  tm_probe {| x_size := 0; y_size := 0; resolution := 0;
              origin_position := 0; max_fingers := 0; max_width := 0 |}
           0 0 false.

End TmSetup.

(** ** hid-logitech-tm.c: probing a touch mouse *)
Module TmProbe.
Import Tm Hidpp TmSetup.

(** Modelled from the spec: the two error codes [tm_probe] returns are
    defined in errno.h, which is not among the sources; they have their
    Linux values. *)
Definition ENOMEM : Z := 12.
Definition ENODEV : Z := 19.

(** [kzalloc(sizeof(struct tm_data))]: every field zero. *)
Definition zeroed_fd : tm_data :=
  {| tp_info := {| x_size := 0; y_size := 0; resolution := 0;
                   origin_position := 0; max_fingers := 0; max_width := 0 |};
     mt_feature_index := 0; feature_1b03 := 0;
     next_tracking_id := 0; prev_slots_used := 0;
     button_depressor := [0; 0; 0];
     ignore_mouse_report_buttons := false;
     hid_hw_started := false |}.

Definition set_ignore_mouse_report_buttons (fd : tm_data) (v : bool) : tm_data :=
  {| tp_info := tp_info fd; mt_feature_index := mt_feature_index fd;
     feature_1b03 := feature_1b03 fd; next_tracking_id := next_tracking_id fd;
     prev_slots_used := prev_slots_used fd;
     button_depressor := button_depressor fd;
     ignore_mouse_report_buttons := v;
     hid_hw_started := hid_hw_started fd |}.

(** *** tm_probe

    The calls [tm_probe] makes outside this file are given by what they
    return: the two [kzalloc] by whether they succeed, [hid_parse],
    [hidpp_init] and [hid_hw_start] by their return value; [is_t620]
    stands for [hdev->product == UNIFYING_DEVICE_ID_TOUCH_MOUSE_T620].
    The result is the return value, the driver data left attached to the
    device, if any, and the commands sent.  The probe is taken on its
    own: no report and no deferred work runs before it returns. *)
Definition tm_probe (use_raw_mode alloc_hidpp_device alloc_fd is_t620 : bool)
  (hid_parse hidpp_init hid_hw_start : Z) (dev : device) (sent : list command)
  : Z * option (tm_data * tm_mode) * list command :=
  if negb use_raw_mode then
    (* Using Standard mode for mouse *)
    let ret := hid_parse in
    let ret := if ret =? 0 then hid_hw_start else ret in
    (ret, None, sent)
  else if negb alloc_hidpp_device then (- ENOMEM, None, sent)
  else if negb alloc_fd then (- ENOMEM, None, sent)
  else
    let fd := zeroed_fd in
    let mode := {| in_raw_mode := false; raw_switch_requested := false |} in
    let fd := set_prev_slots_used fd 0 in
    let fd := set_next_tracking_id fd 1 in
    let fd := set_ignore_mouse_report_buttons fd is_t620 in
    if negb (hid_parse =? 0) then (- ENODEV, None, sent)
    else if negb (hidpp_init =? 0) then (- ENODEV, None, sent)
    else
      (* going to raw *)
      let '(_, fd, sent) := tm_set_raw_report_state dev sent fd in
      let mode := {| in_raw_mode := true;
                     raw_switch_requested := raw_switch_requested mode |} in
      if negb (hid_hw_start =? 0) then (- ENODEV, None, sent)
      else (0, Some (set_hid_hw_started fd true, mode), sent).

End TmProbe.

(** ** hid-logitech-wtp.c: switching the touchpad to raw mode *)
Module WtpSetup.
Import Wtp Hidpp Setup.

Definition X_SIZE : Z := 3700.
Definition Y_SIZE : Z := 2480.
Definition CMD_TOUCHPAD_GET_RAW_INFO : Z := 0x01.
Definition CMD_TOUCHPAD_SET_RAW_REPORT_STATE : Z := 0x21.
Definition WTP_RAW_XY_FEAT_INDEX : Z := 0x0F.

Record hidpp_touchpad_raw_info := {
  x_size : Z;           (* u16 *)
  y_size : Z;           (* u16 *)
  z_range : Z;          (* u8 *)
  area_range : Z;       (* u8 *)
  timestamp_unit : Z;   (* u8 *)
  origin : Z;           (* u8 *)
  pen_supported : Z     (* u8 *)
}.

(** *** hidpp_touchpad_get_raw_info

    The structure is first copied from the parameter bytes as they are
    (the five [u8] fields sit at offsets 4 to 8), then the two sizes are
    read again, most significant byte first. *)
Definition hidpp_touchpad_get_raw_info (dev : device) (sent : list command)
  (raw_info : hidpp_touchpad_raw_info)
  : Z * hidpp_touchpad_raw_info * list command :=
  let '(response, sent) :=
    hidpp_send_fap_command_sync dev sent WTP_RAW_XY_FEAT_INDEX
      CMD_TOUCHPAD_GET_RAW_INFO [] 0 in
  let ret := a_ret response in
  let params := a_params response in
  if negb (ret =? 0) then (neg_ret ret, raw_info, sent)
  else
    (ret,
     {| x_size := u16 (Z.lor (Z.shiftl (byte_at params 0) 8) (byte_at params 1));
        y_size := u16 (Z.lor (Z.shiftl (byte_at params 2) 8) (byte_at params 3));
        z_range := byte_at params 4;
        area_range := byte_at params 5;
        timestamp_unit := byte_at params 6;
        origin := byte_at params 7;
        pen_supported := byte_at params 8 |},
     sent).

(** *** hidpp_touchpad_set_raw_report_state *)
Definition hidpp_touchpad_set_raw_report_state (dev : device)
  (sent : list command)
  (send_raw_reports force_vs_area sensor_enhanced_settings : bool)
  : Z * list command :=
  let params := u8 (Z.lor (Z.lor (Z.b2z send_raw_reports)
                                 (Z.shiftl (Z.b2z force_vs_area) 1))
                          (Z.shiftl (Z.b2z sensor_enhanced_settings) 2)) in
  let '(response, sent) :=
    hidpp_send_fap_command_sync dev sent WTP_RAW_XY_FEAT_INDEX
      CMD_TOUCHPAD_SET_RAW_REPORT_STATE [params] 1 in
  let ret := a_ret response in
  if negb (ret =? 0) then (neg_ret ret, sent) else (ret, sent).

(** *** wtp_connect_change *)
Definition wtp_connect_change (dev : device) (sent : list command)
  (initialized connected : bool) : list command :=
  if connected && initialized then
    snd (hidpp_touchpad_set_raw_report_state dev sent true true true)
  else sent.

(** *** wtp_device_init

    The two fields of [struct wtp_data] that [wtp_device_init] writes. *)
Record wtp_geometry := { fd_x_size : Z; fd_y_size : Z }.   (* __u16 *)

(** The messages of [hid_err]. *)
Inductive hid_err :=
| unable_to_set_raw_report_mode
| error_getting_size (x y : Z).

Definition wtp_device_init (dev : device) (sent : list command)
  (geo : wtp_geometry) : Z * wtp_geometry * list command * list hid_err :=
  let raw_info := {| x_size := 0; y_size := 0; z_range := 0; area_range := 0;
                     timestamp_unit := 0; origin := 0; pen_supported := 0 |} in
  let '(ret, sent) :=
    hidpp_touchpad_set_raw_report_state dev sent true true true in
  if negb (ret =? 0) then (ret, geo, sent, [unable_to_set_raw_report_mode])
  else
    let '(ret, raw_info, sent) :=
      hidpp_touchpad_get_raw_info dev sent raw_info in
    if ret =? 0 then
      (ret,
       {| fd_x_size := x_size raw_info; fd_y_size := y_size raw_info |},
       sent,
       if negb (X_SIZE =? x_size raw_info) || negb (Y_SIZE =? y_size raw_info)
       then [error_getting_size (x_size raw_info) (y_size raw_info)]
       else [])
    else (ret, geo, sent, []).

(** *** wtp_input_mapping *)
Definition wtp_input_mapping (fd : wtp_data) (is_button : bool)
  : Z * list setup_call :=
  if negb is_button then (-1, [])
  else
    (0,
     [set_bit_key BTN_TOUCH;
      set_bit_key (code BTN_TOOL_FINGER);
      set_bit_key (code BTN_TOOL_DOUBLETAP);
      set_bit_key (code BTN_TOOL_TRIPLETAP);
      set_bit_key (code BTN_TOOL_QUADTAP);
      set_bit_EV_ABS;
      input_mt_init_slots (maxcontacts fd);
      input_set_capability_key BTN_TOUCH;
      input_set_abs_params ABS_MT_TOUCH_MAJOR 0 255 0 0;
      input_set_abs_params ABS_MT_TOUCH_MINOR 0 255 0 0;
      input_set_abs_params (code ABS_MT_PRESSURE) 0 255 0 0;
      input_set_abs_params (code ABS_MT_POSITION_X) 0 X_SIZE 0 0;
      input_set_abs_params (code ABS_MT_POSITION_Y) 0 Y_SIZE 0 0;
      input_set_abs_params ABS_X 0 X_SIZE 0 0;
      input_set_abs_params ABS_Y 0 Y_SIZE 0 0]).

(** The two commands of [wtp_device_init]. *)
Definition init_commands : list command :=
  [fap_command 0x0F 0x21 [7]; fap_command 0x0F 0x01 []].

(** A touchpad that accepts both and reports the expected size. *)
Definition sample_pad : device :=
  fun k => {| a_ret := 0;
              a_params := [x0e; x74; x09; xb0; xff; xff; x01; x01; x00] |}.

End WtpSetup.

(** ** hid-logitech-wtp.c: frames *)
Module WtpRun.
Import Wtp.

(** A sequence of decoded reports delivered one after the other. *)
Fixpoint wtp_run (initialized : bool) (fd : wtp_data)
  (reports : list hidpp_touchpad_raw_xy)
  : outcome (wtp_data * list input_ev) :=
  match reports with
  | [] => Done (fd, [])
  | r :: rest =>
      bind (wtp_touchpad_raw_xy_event initialized fd r) (fun '(_, fd1, ev1) =>
      bind (wtp_run initialized fd1 rest) (fun '(fd2, ev2) =>
      Done (fd2, ev1 ++ ev2)))
  end.

(** The touch records a report applies, in order. *)
Definition records (raw : hidpp_touchpad_raw_xy)
  : list hidpp_touchpad_raw_xy_finger :=
  if negb (finger_count raw =? 0) then
    fingers_0 raw
    :: (if second_touch (negb (end_of_frame raw =? 0)) (finger_count raw)
        then [fingers_1 raw] else [])
  else [].

(** The calls [wtp_touch_event] makes for a record. *)
Definition touch_events (t : hidpp_touchpad_raw_xy_finger) : list input_ev :=
  [input_mt_slot (finger_id t - 1);
   input_mt_report_slot_state (negb (contact_status t =? 0))]
  ++ (if negb (contact_status t =? 0) then
        [input_event EV_ABS ABS_MT_POSITION_X (x t);
         input_event EV_ABS ABS_MT_POSITION_Y (y t);
         input_event EV_ABS ABS_MT_PRESSURE (area t)]
      else []).

(** What the last of the records naming slot [i] says of the contact, if
    any names it. *)
Definition last_status (recs : list hidpp_touchpad_raw_xy_finger) (i : Z)
  : option bool :=
  fold_left (fun r t => if finger_id t - 1 =? i
                        then Some (negb (contact_status t =? 0)) else r)
            recs None.

(** What the sink was last told of a slot by the events that reached it,
    [d] being what it knew before. *)
Definition slot_active (d : bool) (evs : list input_ev) : bool :=
  fold_left (fun a e => match e with
                        | input_mt_report_slot_state b => b
                        | _ => a
                        end) evs d.

(** The wire form of a finger: the two most significant bits of [x_m] and
    [y_m] carry the contact type and status, the most significant four of
    [id] the finger identifier, the other four being [low]. *)
Definition encode_touch (t : hidpp_touchpad_raw_xy_finger) (low : Z)
  : touch_hidpp_report :=
  {| x_m := Z.lor (Z.shiftl (contact_type t) 6) (Z.shiftr (x t) 8);
     x_l := Z.land (x t) 0xff;
     y_m := Z.lor (Z.shiftl (contact_status t) 6) (Z.shiftr (y t) 8);
     y_l := Z.land (y t) 0xff;
     touch_z := z t;
     touch_area := area t;
     id := Z.lor (Z.shiftl (finger_id t) 4) low |}.

(** Every field of the wire record is a byte. *)
Definition u8_fields (t : touch_hidpp_report) : Prop :=
  0 <= x_m t < 256 /\ 0 <= x_l t < 256 /\ 0 <= y_m t < 256
  /\ 0 <= y_l t < 256 /\ 0 <= touch_z t < 256 /\ 0 <= touch_area t < 256
  /\ 0 <= id t < 256.

(** Finger 2 alone, closing its frame: finger 1 is not in it. *)
Definition second_finger_alone : hidpp_touchpad_raw_xy :=
  raw_xy (finger 2 1) (finger 0 0) 1 1.

(** A three-finger frame in two reports: fingers 1 and 2, then finger 3
    and the end of the frame. *)
Definition three_fingers : list hidpp_touchpad_raw_xy :=
  [raw_xy (finger 1 1) (finger 2 1) 0 3;
   raw_xy (finger 3 1) (finger 0 0) 1 3].

End WtpRun.

(** * Properties

    ** The sink *)
Module InputFacts.

Lemma selected_app cur a b : selected cur (a ++ b) = selected (selected cur a) b.
Proof. unfold selected. apply fold_left_app. Qed.

Lemma slot_events_app cur i a b :
  slot_events cur i (a ++ b) = slot_events cur i a ++ slot_events (selected cur a) i b.
Proof.
  revert cur. induction a as [|e a IH]; intros cur; [reflexivity|].
  destruct e; cbn [slot_events app];
    try (apply IH);
    rewrite IH;
    match goal with |- context [if ?c then _ else _] => destruct c end;
    reflexivity.
Qed.

Lemma allocated_ids_app a b : allocated_ids (a ++ b) = allocated_ids a ++ allocated_ids b.
Proof. unfold allocated_ids. apply flat_map_app. Qed.

Lemma sink_run_app s a b : sink_run s (a ++ b) = sink_run (sink_run s a) b.
Proof. unfold sink_run. apply fold_left_app. Qed.

Lemma cur_slot_sink_run s evs : cur_slot (sink_run s evs) = selected (cur_slot s) evs.
Proof.
  revert s. induction evs as [|e evs IH]; intros s; [reflexivity|].
  change (sink_run s (e :: evs)) with (sink_run (sink_step s e) evs).
  rewrite IH. destruct e as [| [] [] | | | | |]; reflexivity.
Qed.

(** The tracking id of a slot is decided by the events that reached it. *)
Lemma tracking_sink_run s evs i :
  tracking (sink_run s evs) i = last_tracking (tracking s i) (slot_events (cur_slot s) i evs).
Proof.
  revert s. induction evs as [|e evs IH]; intros s; [reflexivity|].
  change (sink_run s (e :: evs)) with (sink_run (sink_step s e) evs).
  rewrite IH.
  destruct e as [j | [] [] v | | | | |]; cbn [slot_events sink_step cur_slot tracking is_slot_ev andb];
    try reflexivity.
  all: try (destruct (cur_slot s =? i) eqn:E; cbn [last_tracking fold_left]; try reflexivity).
  - rewrite Z.eqb_sym, E. reflexivity.
  - rewrite Z.eqb_sym, E. reflexivity.
Qed.

Lemma sink_run_snoc s evs e : sink_run s (evs ++ [e]) = sink_step (sink_run s evs) e.
Proof. rewrite sink_run_app. reflexivity. Qed.

Lemma history_snoc evs e : history (evs ++ [e]) = history_step (history evs) e.
Proof. unfold history. rewrite fold_left_app. reflexivity. Qed.

Lemma allocated_ids_one e : allocated_ids [e] = if assigns e
  then match e with input_event _ _ v => [v] | _ => [] end else [].
Proof.
  destruct e as [j | [] [] v | | | | |]; try reflexivity.
  cbn. destruct (v =? -1); reflexivity.
Qed.

Lemma assigns_tracking e :
  assigns e = true ->
  exists v, e = input_event EV_ABS ABS_MT_TRACKING_ID v /\ v <> -1.
Proof.
  destruct e as [j | [] [] v | | | | |]; try discriminate.
  cbn. intros H. exists v. split; [reflexivity|].
  apply negb_true_iff, Z.eqb_neq in H. exact H.
Qed.

Lemma sink_step_keeps s e i :
  assigns e = false ->
  tracking (sink_step s e) i <> -1 ->
  tracking (sink_step s e) i = tracking s i.
Proof.
  destruct e as [j | [] [] v | | | | |]; try reflexivity.
  cbn. intros H. apply negb_false_iff, Z.eqb_eq in H. subst v.
  destruct (i =? cur_slot s); [congruence | reflexivity].
Qed.

(** The history of a trace: its sink is the sink of the trace, it has
    counted the ids the trace assigned, every slot in contact holds the id
    assigned at the position the history remembers for it, and no two
    slots in contact got theirs at the same position. *)
Lemma history_spec evs :
  let h := history evs in
  let ids := allocated_ids evs in
  h_sink h = sink_run sink_init evs
  /\ h_allocs h = length ids
  /\ (forall i, tracking (h_sink h) i <> -1 ->
                nth_error ids (h_born h i) = Some (tracking (h_sink h) i))
  /\ (forall i j, i <> j -> tracking (h_sink h) i <> -1 ->
                  tracking (h_sink h) j <> -1 -> h_born h i <> h_born h j).
Proof.
  induction evs as [|e evs IH] using rev_ind.
  - cbn. repeat split; try reflexivity; intros; exfalso; auto.
  - cbn zeta in *. destruct IH as (Hs & Hn & Hid & Hb).
    rewrite history_snoc, allocated_ids_app, sink_run_snoc, <- Hs, length_app.
    set (h := history evs) in *. unfold history_step.
    assert (Hlt : forall i, tracking (h_sink h) i <> -1 ->
                            (h_born h i < h_allocs h)%nat).
    { intros i Hi. rewrite Hn. apply nth_error_Some. rewrite (Hid i Hi). discriminate. }
    destruct (assigns e) eqn:Ea; cbn [h_sink h_allocs h_born].
    + destruct (assigns_tracking e Ea) as (v & -> & Hv).
      cbn [allocated_ids flat_map sink_step tracking]. rewrite app_nil_r.
      destruct (Z.eqb_spec v (-1)); [contradiction|]. cbn [length].
      split; [reflexivity|]. split; [lia|]. split.
      * intros i. destruct (i =? cur_slot (h_sink h)); intros Hi.
        -- rewrite nth_error_app2 by lia. rewrite Hn, Nat.sub_diag. reflexivity.
        -- rewrite nth_error_app1 by (rewrite <- Hn; apply Hlt, Hi).
           apply Hid, Hi.
      * intros i j Hij.
        destruct (Z.eqb_spec i (cur_slot (h_sink h))),
                 (Z.eqb_spec j (cur_slot (h_sink h))); intros Hi Hj.
        -- congruence.
        -- pose proof (Hlt j Hj). lia.
        -- pose proof (Hlt i Hi). lia.
        -- apply Hb; assumption.
    + rewrite allocated_ids_one, Ea, app_nil_r. cbn [length].
      split; [reflexivity|]. split; [lia|]. split.
      * intros i Hi. pose proof (sink_step_keeps _ _ _ Ea Hi) as Ek.
        rewrite Ek in Hi |- *. apply Hid, Hi.
      * intros i j Hij Hi Hj.
        pose proof (sink_step_keeps _ _ _ Ea Hi) as Eki.
        pose proof (sink_step_keeps _ _ _ Ea Hj) as Ekj.
        rewrite Eki in Hi. rewrite Ekj in Hj. apply Hb; assumption.
Qed.

End InputFacts.

(** ** The contact tracker of the touch mice *)
Module TmFacts.
Import Tm.

(** **** Bit masks *)

Lemma testbit_one k : 0 <= k -> Z.testbit 1 k = (k =? 0).
Proof.
  intros Hk. destruct (k =? 0) eqn:E.
  - apply Z.eqb_eq in E. subst. reflexivity.
  - apply Z.eqb_neq in E. apply Z.bits_above_log2; simpl; lia.
Qed.

Lemma testbit_slot_mask j k :
  0 <= j < 32 -> 0 <= k -> Z.testbit (slot_mask j) k = (k =? j) && (j <? 8).
Proof.
  intros Hj Hk. unfold slot_mask, u8. rewrite (Z.mod_small j 32) by exact Hj.
  change 256 with (2 ^ 8). rewrite Z.testbit_mod_pow2 by lia.
  rewrite Z.shiftl_spec by lia.
  destruct (Z.ltb_spec k 8), (Z.eqb_spec k j), (Z.ltb_spec j 8);
    cbn [andb]; subst; try lia; try reflexivity.
  - rewrite Z.sub_diag. reflexivity.
  - destruct (Z.lt_ge_cases k j).
    + apply Z.testbit_neg_r. lia.
    + rewrite testbit_one by lia. apply Z.eqb_neq. lia.
  - destruct (Z.lt_ge_cases k j).
    + apply Z.testbit_neg_r. lia.
    + rewrite testbit_one by lia. apply Z.eqb_neq. lia.
Qed.

Lemma land_slot_mask_eqb m i :
  0 <= i < 8 -> (Z.land m (slot_mask i) =? 0) = negb (slot_used m i).
Proof.
  intros Hi. unfold slot_used.
  destruct (Z.testbit m i) eqn:Eb; cbn [negb].
  - apply Z.eqb_neq. intros H0.
    assert (Hb : Z.testbit (Z.land m (slot_mask i)) i = true).
    { rewrite Z.land_spec, Eb, testbit_slot_mask by lia.
      rewrite Z.eqb_refl. cbn. apply Z.ltb_lt. lia. }
    rewrite H0, Z.bits_0 in Hb. discriminate.
  - apply Z.eqb_eq. apply Z.bits_inj'. intros n Hn.
    rewrite Z.land_spec, Z.bits_0, testbit_slot_mask by lia.
    destruct (Z.eqb_spec n i); subst; [rewrite Eb|]; cbn; [reflexivity|].
    apply andb_false_r.
Qed.

(** **** The tracking-id counter *)

Lemma advance_tracking_id_spec n :
  valid_tracking_id n ->
  advance_tracking_id n = (if n =? 0xfffe then 1 else n + 1).
Proof.
  unfold valid_tracking_id, advance_tracking_id, u16. intros H.
  rewrite Z.mod_small by lia.
  destruct (Z.eqb_spec (n + 1) 65535), (Z.eqb_spec n 65534); lia.
Qed.

Lemma advance_tracking_id_valid n :
  valid_tracking_id n -> valid_tracking_id (advance_tracking_id n).
Proof.
  intros H. rewrite advance_tracking_id_spec by exact H.
  unfold valid_tracking_id in *. destruct (Z.eqb_spec n 65534); lia.
Qed.

Lemma iter_advance_valid m n :
  valid_tracking_id n -> valid_tracking_id (Nat.iter m advance_tracking_id n).
Proof.
  intros H. induction m; cbn; [exact H|]. apply advance_tracking_id_valid, IHm.
Qed.

Lemma id_seq_app a b n :
  id_seq (a + b) n = id_seq a n ++ id_seq b (Nat.iter a advance_tracking_id n).
Proof.
  revert n. induction a as [|a IH]; intros n; [reflexivity|].
  cbn [id_seq Nat.add app]. rewrite IH, Nat.iter_succ_r. reflexivity.
Qed.

Lemma id_seq_valid m n :
  valid_tracking_id n -> Forall valid_tracking_id (id_seq m n).
Proof.
  revert n. induction m as [|m IH]; intros n H; constructor; [exact H|].
  apply IH, advance_tracking_id_valid, H.
Qed.

Lemma id_seq_length m n : length (id_seq m n) = m.
Proof. revert n. induction m; intros; cbn; [reflexivity|]. f_equal. auto. Qed.

(** Before the counter wraps the ids are consecutive, hence all different. *)
Lemma id_seq_fresh m n :
  1 <= n -> n + Z.of_nat m - 1 <= 0xfffe ->
  (forall v, In v (id_seq m n) -> n <= v < n + Z.of_nat m)
  /\ List.NoDup (id_seq m n).
Proof.
  revert n. induction m as [|m IH]; intros n H1 H2.
  - split; [intros v []| constructor].
  - cbn [id_seq]. destruct m as [|m'].
    + split; [intros v [<-|[]]; lia|]. constructor; [intros []|constructor].
    + assert (Hadv : advance_tracking_id n = n + 1).
      { rewrite advance_tracking_id_spec by (unfold valid_tracking_id; lia).
        destruct (Z.eqb_spec n 65534); lia. }
      rewrite Hadv. destruct (IH (n + 1)) as [Hr Hn]; [lia | lia |].
      split.
      * intros v [<- | Hv]; [lia|]. apply Hr in Hv. lia.
      * constructor; [|exact Hn]. intros Hin. apply Hr in Hin. lia.
Qed.

(** **** One round of the loop *)

Lemma emit_finger_out bytes st i :
  lp_out (emit_finger bytes st i)
  = lp_out st ++ input_mt_slot i :: finger_events (lp_fd st) bytes i.
Proof.
  unfold emit_finger, finger_events, is_new, emitted_x, emitted_y.
  destruct (is_sentinel bytes i); cbn [negb andb lp_out].
  - rewrite <- app_assoc. reflexivity.
  - destruct (Z.land (prev_slots_used (lp_fd st)) (slot_mask i) =? 0);
      cbn [lp_out]; repeat rewrite <- app_assoc; reflexivity.
Qed.

Lemma emit_finger_fd bytes st i :
  lp_fd (emit_finger bytes st i)
  = if is_new (lp_fd st) bytes i
    then set_next_tracking_id (lp_fd st)
           (advance_tracking_id (next_tracking_id (lp_fd st)))
    else lp_fd st.
Proof.
  unfold emit_finger, is_new.
  destruct (is_sentinel bytes i); cbn [negb andb lp_fd]; [reflexivity|].
  destruct (Z.land (prev_slots_used (lp_fd st)) (slot_mask i) =? 0); reflexivity.
Qed.

Lemma emit_finger_slots_used bytes st i :
  lp_slots_used (emit_finger bytes st i)
  = if is_sentinel bytes i then lp_slots_used st
    else Z.lor (lp_slots_used st) (slot_mask i).
Proof.
  unfold emit_finger.
  destruct (is_sentinel bytes i); cbn [lp_slots_used]; [reflexivity|].
  destruct (Z.land (prev_slots_used (lp_fd st)) (slot_mask i) =? 0); reflexivity.
Qed.

Lemma set_next_tracking_id_twice fd a b :
  set_next_tracking_id (set_next_tracking_id fd a) b = set_next_tracking_id fd b.
Proof. reflexivity. Qed.

Lemma set_next_tracking_id_same fd :
  set_next_tracking_id fd (next_tracking_id fd) = fd.
Proof. destruct fd; reflexivity. Qed.

Lemma is_new_set_next fd n bytes i :
  is_new (set_next_tracking_id fd n) bytes i = is_new fd bytes i.
Proof. reflexivity. Qed.

Lemma finger_events_slot j i fd bytes :
  slot_events j i (finger_events fd bytes j)
  = if j =? i then finger_events fd bytes j else [].
Proof.
  unfold finger_events.
  destruct (is_sentinel bytes j); [|destruct (is_new fd bytes j)];
    cbn [app slot_events is_slot_ev andb]; destruct (j =? i); reflexivity.
Qed.

Lemma finger_events_selected j fd bytes i :
  selected j (finger_events fd bytes i) = j.
Proof.
  unfold finger_events.
  destruct (is_sentinel bytes i); [|destruct (is_new fd bytes i)]; reflexivity.
Qed.

Lemma finger_events_allocated fd bytes i :
  next_tracking_id fd <> -1 ->
  allocated_ids (finger_events fd bytes i)
  = if is_new fd bytes i then [next_tracking_id fd] else [].
Proof.
  intros Hn. unfold finger_events, is_new.
  destruct (is_sentinel bytes i); cbn [negb andb]; [reflexivity|].
  destruct (Z.land (prev_slots_used fd) (slot_mask i) =? 0);
    cbn [app allocated_ids flat_map]; [|reflexivity].
  destruct (Z.eqb_spec (next_tracking_id fd) (-1)); [contradiction|reflexivity].
Qed.

(** **** The whole loop *)

Lemma loop_fd bytes l st :
  lp_fd (fold_left (emit_finger bytes) l st)
  = set_next_tracking_id (lp_fd st)
      (Nat.iter (news (lp_fd st) bytes l) advance_tracking_id
                (next_tracking_id (lp_fd st))).
Proof.
  revert st. induction l as [|i l IH]; intros st.
  - cbn. symmetry. apply set_next_tracking_id_same.
  - cbn [fold_left]. rewrite IH, emit_finger_fd. unfold news.
    cbn [List.filter]. destruct (is_new (lp_fd st) bytes i) eqn:E.
    + cbn [length]. rewrite Nat.iter_succ_r. reflexivity.
    + reflexivity.
Qed.

Lemma loop_out_other bytes l st cur i :
  ~ In i l ->
  slot_events cur i (lp_out (fold_left (emit_finger bytes) l st))
  = slot_events cur i (lp_out st).
Proof.
  revert st. induction l as [|j l IH]; intros st Hni; [reflexivity|].
  cbn [fold_left]. rewrite IH by (intros H; apply Hni; right; exact H).
  rewrite emit_finger_out, InputFacts.slot_events_app.
  cbn [slot_events]. rewrite finger_events_slot.
  destruct (Z.eqb_spec j i); [|apply app_nil_r].
  exfalso. apply Hni. left. assumption.
Qed.

Lemma loop_out_slot bytes l1 l2 st cur i :
  ~ In i l1 -> ~ In i l2 ->
  slot_events cur i (lp_out (fold_left (emit_finger bytes) (l1 ++ i :: l2) st))
  = slot_events cur i (lp_out st)
    ++ finger_events (lp_fd (fold_left (emit_finger bytes) l1 st)) bytes i.
Proof.
  intros H1 H2. rewrite fold_left_app. cbn [fold_left].
  rewrite loop_out_other by exact H2.
  rewrite emit_finger_out, InputFacts.slot_events_app.
  cbn [slot_events]. rewrite finger_events_slot, Z.eqb_refl.
  rewrite loop_out_other by exact H1. reflexivity.
Qed.

Lemma loop_allocated bytes l st :
  valid_tracking_id (next_tracking_id (lp_fd st)) ->
  allocated_ids (lp_out (fold_left (emit_finger bytes) l st))
  = allocated_ids (lp_out st)
    ++ id_seq (news (lp_fd st) bytes l) (next_tracking_id (lp_fd st)).
Proof.
  revert st. induction l as [|i l IH]; intros st Hv.
  - cbn. symmetry. apply app_nil_r.
  - cbn [fold_left]. rewrite IH.
    2:{ rewrite emit_finger_fd. destruct (is_new (lp_fd st) bytes i); [|exact Hv].
        apply advance_tracking_id_valid, Hv. }
    rewrite emit_finger_out, emit_finger_fd, InputFacts.allocated_ids_app.
    change (input_mt_slot i :: finger_events (lp_fd st) bytes i)
      with ([input_mt_slot i] ++ finger_events (lp_fd st) bytes i).
    rewrite InputFacts.allocated_ids_app, finger_events_allocated
      by (unfold valid_tracking_id in Hv; lia).
    unfold news. cbn [List.filter].
    destruct (is_new (lp_fd st) bytes i) eqn:E; cbn [length id_seq];
      rewrite <- app_assoc; reflexivity.
Qed.

Lemma loop_slots_used bytes l st k :
  0 <= k -> (forall j, In j l -> 0 <= j < 32) ->
  Z.testbit (lp_slots_used (fold_left (emit_finger bytes) l st)) k
  = Z.testbit (lp_slots_used st) k
    || (existsb (Z.eqb k) l && (k <? 8) && negb (is_sentinel bytes k)).
Proof.
  intros Hk. revert st. induction l as [|i l IH]; intros st Hl.
  - cbn. symmetry. apply orb_false_r.
  - cbn [fold_left existsb]. rewrite IH by (intros j Hj; apply Hl; right; exact Hj).
    assert (Hi : 0 <= i < 32) by (apply Hl; left; reflexivity).
    assert (Hbit : Z.testbit (lp_slots_used (emit_finger bytes st i)) k
                   = Z.testbit (lp_slots_used st) k
                     || ((k =? i) && (i <? 8) && negb (is_sentinel bytes i))).
    { rewrite emit_finger_slots_used. destruct (is_sentinel bytes i).
      - rewrite andb_false_r, orb_false_r. reflexivity.
      - rewrite Z.lor_spec, testbit_slot_mask, andb_true_r by lia. reflexivity. }
    rewrite Hbit. destruct (Z.eqb_spec k i) as [->|Hne]; cbn [orb andb].
    + destruct (Z.testbit (lp_slots_used st) i), (i <? 8),
        (is_sentinel bytes i), (existsb (Z.eqb i) l); reflexivity.
    + rewrite orb_false_r. reflexivity.
Qed.

(** **** The slots the loop visits *)

Lemma in_slots_below j n : In j (slots_below n) <-> 0 <= j < n.
Proof.
  unfold slots_below. rewrite in_map_iff. split.
  - intros [x [<- Hx]]. apply in_seq in Hx. lia.
  - intros H. exists (Z.to_nat j). split; [lia|]. apply in_seq. lia.
Qed.

Lemma slots_below_split n i :
  0 <= i < n ->
  exists l2, slots_below n = slots_below i ++ i :: l2 /\ ~ In i l2.
Proof.
  intros H. unfold slots_below.
  replace (Z.to_nat n) with (Z.to_nat i + S (Z.to_nat n - Z.to_nat i - 1))%nat by lia.
  rewrite seq_app, map_app. cbn [seq map Nat.add].
  exists (map Z.of_nat (seq (S (Z.to_nat i)) (Z.to_nat n - Z.to_nat i - 1))).
  split; [f_equal; f_equal; lia|].
  rewrite in_map_iff. intros [x [Hx Hin]]. apply in_seq in Hin. lia.
Qed.

Lemma existsb_slots_below k n :
  0 <= k -> existsb (Z.eqb k) (slots_below n) = (k <? n).
Proof.
  intros Hk. destruct (Z.ltb_spec k n) as [Hlt|Hge].
  - apply existsb_exists. exists k. split; [apply in_slots_below; lia|apply Z.eqb_refl].
  - destruct (existsb (Z.eqb k) (slots_below n)) eqn:E; [|reflexivity].
    apply existsb_exists in E. destruct E as [x [Hx Heq]].
    apply in_slots_below in Hx. apply Z.eqb_eq in Heq. lia.
Qed.

(** **** [emit_fingers], slot by slot *)

(** What reaches slot [i] is what the round for slot [i] sent. *)
Lemma emit_fingers_slot fd bytes cur i :
  0 <= i < max_fingers (tp_info fd) ->
  slot_events cur i (snd (emit_fingers fd bytes))
  = finger_events (set_next_tracking_id fd (next_at fd bytes i)) bytes i.
Proof.
  intros Hi. unfold emit_fingers. cbn [snd].
  rewrite InputFacts.slot_events_app.
  match goal with |- _ ++ ?t = _ => replace t with (@nil input_ev) end.
  2:{ cbn [slot_events is_slot_ev andb]. reflexivity. }
  rewrite app_nil_r. unfold slot_range.
  destruct (slots_below_split _ _ Hi) as [l2 [-> Hl2]].
  rewrite loop_out_slot; [| rewrite in_slots_below; lia | exact Hl2].
  rewrite loop_fd. reflexivity.
Qed.

Lemma emit_fingers_slot_other fd bytes cur i :
  ~ (0 <= i < max_fingers (tp_info fd)) ->
  slot_events cur i (snd (emit_fingers fd bytes)) = [].
Proof.
  intros Hi. unfold emit_fingers. cbn [snd].
  rewrite InputFacts.slot_events_app, loop_out_other.
  - reflexivity.
  - unfold slot_range. rewrite in_slots_below. exact Hi.
Qed.

Lemma emit_fingers_fd fd bytes :
  fst (emit_fingers fd bytes)
  = set_prev_slots_used
      (set_next_tracking_id fd (next_at fd bytes (max_fingers (tp_info fd))))
      (prev_slots_used (fst (emit_fingers fd bytes))).
Proof. unfold emit_fingers. cbn [fst]. rewrite loop_fd. reflexivity. Qed.

Lemma emit_fingers_used fd bytes k :
  max_fingers (tp_info fd) <= 32 ->
  0 <= k ->
  slot_used (prev_slots_used (fst (emit_fingers fd bytes))) k
  = (k <? max_fingers (tp_info fd)) && (k <? 8) && negb (is_sentinel bytes k).
Proof.
  intros Hmax Hk. unfold emit_fingers, slot_used. cbn [fst].
  change (prev_slots_used (set_prev_slots_used ?a ?b)) with b.
  rewrite loop_slots_used.
  - cbn [lp_slots_used]. rewrite Z.bits_0. cbn [orb].
    unfold slot_range. rewrite existsb_slots_below by exact Hk. reflexivity.
  - exact Hk.
  - intros j Hj. apply in_slots_below in Hj. lia.
Qed.

Lemma emit_fingers_allocated fd bytes :
  valid_tracking_id (next_tracking_id fd) ->
  allocated_ids (snd (emit_fingers fd bytes))
  = id_seq (news fd bytes (slot_range fd)) (next_tracking_id fd).
Proof.
  intros Hv. unfold emit_fingers. cbn [snd].
  rewrite InputFacts.allocated_ids_app, loop_allocated by exact Hv.
  cbn. apply app_nil_r.
Qed.

Lemma slots_below_succ i : 0 <= i -> slots_below (i + 1) = slots_below i ++ [i].
Proof.
  intros Hi. unfold slots_below.
  replace (Z.to_nat (i + 1)) with (Z.to_nat i + 1)%nat by lia.
  rewrite seq_app, map_app. cbn [seq map Nat.add]. f_equal. f_equal. lia.
Qed.

Lemma next_at_succ fd bytes i :
  0 <= i ->
  next_at fd bytes (i + 1)
  = if is_new fd bytes i then advance_tracking_id (next_at fd bytes i)
    else next_at fd bytes i.
Proof.
  intros Hi. unfold next_at, news. rewrite slots_below_succ by exact Hi.
  rewrite List.filter_app, length_app. cbn [List.filter].
  destruct (is_new fd bytes i); cbn [length].
  - rewrite Nat.add_1_r. reflexivity.
  - rewrite Nat.add_0_r. reflexivity.
Qed.

Lemma is_sentinel_bytes bytes i :
  is_sentinel bytes i = true
  <-> rec_byte bytes i 0 = 0xff /\ rec_byte bytes i 1 = 0xff
      /\ rec_byte bytes i 2 = 0xff /\ rec_byte bytes i 3 = 0xff.
Proof.
  unfold is_sentinel. rewrite !andb_true_iff, !Z.eqb_eq. tauto.
Qed.



(** C7: The position sent for a contact in slot [i] is the raw pair,
    with x mirrored in [x_size] exactly when the origin is on the right
    and y mirrored in [y_size] exactly when the origin is at the bottom;
    in particular both are mirrored for a lower-right origin and neither
    for an upper-left one. *)
Theorem origin_decides_flip fd bytes cur i :
  0 <= i < max_fingers (tp_info fd) ->
  is_sentinel bytes i = false ->
  let origin := origin_position (tp_info fd) in
  let ex := emitted_x fd bytes i in
  let ey := emitted_y fd bytes i in
  (exists pre,
     slot_events cur i (snd (emit_fingers fd bytes))
     = pre ++ [input_event EV_ABS ABS_MT_POSITION_X ex;
               input_event EV_ABS ABS_MT_POSITION_Y ey;
               input_event EV_ABS ABS_MT_PRESSURE (pressure bytes i)]
     /\ (pre = [] \/ exists id, pre = [input_event EV_ABS ABS_MT_TRACKING_ID id]))
  /\ (origin = ORIGIN_LOWER_RIGHT ->
      ex = x_size (tp_info fd) - raw_x bytes i
      /\ ey = y_size (tp_info fd) - raw_y bytes i)
  /\ (origin = ORIGIN_UPPER_LEFT -> ex = raw_x bytes i /\ ey = raw_y bytes i)
  /\ (origin = ORIGIN_LOWER_RIGHT \/ origin = ORIGIN_UPPER_RIGHT ->
      ex = x_size (tp_info fd) - raw_x bytes i)
  /\ (~ (origin = ORIGIN_LOWER_RIGHT \/ origin = ORIGIN_UPPER_RIGHT) ->
      ex = raw_x bytes i)
  /\ (origin = ORIGIN_LOWER_LEFT \/ origin = ORIGIN_LOWER_RIGHT ->
      ey = y_size (tp_info fd) - raw_y bytes i)
  /\ (~ (origin = ORIGIN_LOWER_LEFT \/ origin = ORIGIN_LOWER_RIGHT) ->
      ey = raw_y bytes i).
Proof.
  intros Hi Hs origin ex ey. split.
  - rewrite emit_fingers_slot by exact Hi. unfold finger_events. rewrite Hs.
    eexists. split; [reflexivity|].
    destruct (is_new _ bytes i); [right; eexists; reflexivity | left; reflexivity].
  - subst origin ex ey. unfold emitted_x, emitted_y, swap_x, swap_y.
    unfold ORIGIN_LOWER_LEFT, ORIGIN_LOWER_RIGHT, ORIGIN_UPPER_LEFT,
      ORIGIN_UPPER_RIGHT.
    repeat split; intros;
      destruct (Z.eqb_spec (origin_position (tp_info fd)) 1),
               (Z.eqb_spec (origin_position (tp_info fd)) 2),
               (Z.eqb_spec (origin_position (tp_info fd)) 4);
      cbn [orb]; try reflexivity; try lia; tauto.
Qed.

Lemma origin_decides_flip_witness :
  exists pre,
    slot_events 0 1 (snd (emit_fingers sample_fd two_fingers))
    = pre ++ [input_event EV_ABS ABS_MT_POSITION_X (1000 - 0x115);
              input_event EV_ABS ABS_MT_POSITION_Y (800 - 0x213);
              input_event EV_ABS ABS_MT_PRESSURE 30].
Proof.
  destruct (origin_decides_flip sample_fd two_fingers 0 1) as [[pre [H _]] _];
    [cbn; lia | reflexivity |].
  exists pre. exact H.
Defined.

(** C4: Two contacts, in slots 0 and 1: the mask of used slots is
    [0b11], which [emit_fingers] compares with the finger counts, so it
    reports three fingers and denies two. *)
Theorem two_fingers_reported_as_three :
  count_used (prev_slots_used (fst (emit_fingers sample_fd two_fingers))) = 2
  /\ In (input_event EV_KEY BTN_TOOL_TRIPLETAP 1)
        (snd (emit_fingers sample_fd two_fingers))
  /\ In (input_event EV_KEY BTN_TOOL_DOUBLETAP 0)
        (snd (emit_fingers sample_fd two_fingers)).
Proof.
  vm_compute. split; [reflexivity|].
  split; repeat (first [left; reflexivity | right]).
Qed.

(** **** [tm_raw_event] *)

Lemma tm_raw_event_eq fd r :
  tm_raw_event fd r
  = if negb (hid_hw_started fd) then (1, fd, [])
    else
      let p := if is_touch_frame fd r then emit_fingers fd (rap_params r)
               else (fd, if report_id r =? 0x02 then rel_motion r else []) in
      (1, fst (emit_buttons (fst p) r),
       snd p ++ snd (emit_buttons (fst p) r) ++ [input_sync]).
Proof.
  unfold tm_raw_event, is_touch_frame.
  destruct (hid_hw_started fd); cbn [negb andb]; [|reflexivity].
  destruct (report_id r =? 2); cbn [negb andb].
  { cbn [fst snd]. destruct (emit_buttons fd r); reflexivity. }
  destruct (report_id r =? 17); cbn [andb].
  2:{ cbn [fst snd]. destruct (emit_buttons fd r); reflexivity. }
  destruct (rap_sub_id r =? mt_feature_index fd); cbn [andb].
  2:{ cbn [fst snd]. destruct (emit_buttons fd r); reflexivity. }
  destruct (Z.shiftr (rap_reg_address r) 4 =? 0).
  2:{ cbn [fst snd]. destruct (emit_buttons fd r); reflexivity. }
  destruct (emit_fingers fd (rap_params r)) as [fd1 ev1]. cbn [fst snd].
  destruct (emit_buttons fd1 r); reflexivity.
Qed.

Lemma emit_buttons_fd fd r :
  exists d, fst (emit_buttons fd r) = set_button_depressor fd d.
Proof. unfold emit_buttons. cbn [fst]. eexists. reflexivity. Qed.

Lemma emit_buttons_inert fd r cur i :
  slot_events cur i (snd (emit_buttons fd r) ++ [input_sync]) = []
  /\ allocated_ids (snd (emit_buttons fd r) ++ [input_sync]) = [].
Proof. split; reflexivity. Qed.

Lemma rel_motion_inert r cur i :
  slot_events cur i (if report_id r =? 2 then rel_motion r else []) = []
  /\ allocated_ids (if report_id r =? 2 then rel_motion r else []) = [].
Proof. destruct (report_id r =? 2); split; reflexivity. Qed.

Lemma is_touch_frame_started fd r :
  hid_hw_started fd = false -> is_touch_frame fd r = false.
Proof. intros H. unfold is_touch_frame. rewrite H. reflexivity. Qed.

(** Only a frame of raw touch points sends anything to the slots. *)
Lemma tm_events_slot fd r cur i :
  slot_events cur i (tm_events fd r)
  = if is_touch_frame fd r
    then slot_events cur i (snd (emit_fingers fd (rap_params r)))
    else [].
Proof.
  unfold tm_events. rewrite tm_raw_event_eq.
  destruct (hid_hw_started fd) eqn:Hw; cbn [negb].
  - cbn zeta. cbn [snd]. rewrite InputFacts.slot_events_app.
    match goal with |- _ ++ ?t = _ =>
      replace t with (@nil input_ev) by (symmetry; apply emit_buttons_inert)
    end.
    rewrite app_nil_r.
    destruct (is_touch_frame fd r); [reflexivity|].
    cbn [snd]. apply rel_motion_inert.
  - rewrite is_touch_frame_started by exact Hw. reflexivity.
Qed.

Lemma tm_events_allocated fd r :
  allocated_ids (tm_events fd r)
  = if is_touch_frame fd r
    then allocated_ids (snd (emit_fingers fd (rap_params r)))
    else [].
Proof.
  unfold tm_events. rewrite tm_raw_event_eq.
  destruct (hid_hw_started fd) eqn:Hw; cbn [negb].
  - cbn zeta. cbn [snd]. rewrite InputFacts.allocated_ids_app.
    match goal with |- _ ++ ?t = _ =>
      replace t with (@nil Z) by (symmetry; apply (emit_buttons_inert fd r 0 0))
    end.
    rewrite app_nil_r.
    destruct (is_touch_frame fd r); [reflexivity|].
    cbn [snd]. apply (rel_motion_inert r 0 0).
  - rewrite is_touch_frame_started by exact Hw. reflexivity.
Qed.

Lemma tm_after_config fd r :
  tp_info (tm_after fd r) = tp_info fd
  /\ mt_feature_index (tm_after fd r) = mt_feature_index fd
  /\ feature_1b03 (tm_after fd r) = feature_1b03 fd
  /\ ignore_mouse_report_buttons (tm_after fd r) = ignore_mouse_report_buttons fd
  /\ hid_hw_started (tm_after fd r) = hid_hw_started fd.
Proof.
  unfold tm_after. rewrite tm_raw_event_eq.
  destruct (hid_hw_started fd) eqn:Hw; cbn [negb]; [|cbn; rewrite Hw; auto].
  cbn zeta. cbn [fst snd].
  destruct (emit_buttons_fd
              (fst (if is_touch_frame fd r then emit_fingers fd (rap_params r)
                    else (fd, if report_id r =? 2 then rel_motion r else []))) r)
    as [d ->].
  destruct (is_touch_frame fd r); cbn [fst].
  - rewrite emit_fingers_fd. cbn. auto.
  - cbn. auto.
Qed.

Lemma tm_after_tracking fd r :
  next_tracking_id (tm_after fd r)
  = (if is_touch_frame fd r
     then next_at fd (rap_params r) (max_fingers (tp_info fd))
     else next_tracking_id fd)
  /\ prev_slots_used (tm_after fd r)
     = (if is_touch_frame fd r
        then prev_slots_used (fst (emit_fingers fd (rap_params r)))
        else prev_slots_used fd).
Proof.
  unfold tm_after. rewrite tm_raw_event_eq.
  destruct (hid_hw_started fd) eqn:Hw; cbn [negb].
  2:{ rewrite is_touch_frame_started by exact Hw. auto. }
  cbn zeta. cbn [fst snd].
  destruct (emit_buttons_fd
              (fst (if is_touch_frame fd r then emit_fingers fd (rap_params r)
                    else (fd, if report_id r =? 2 then rel_motion r else []))) r)
    as [d ->].
  destruct (is_touch_frame fd r); cbn [fst].
  - rewrite emit_fingers_fd at 1. cbn. auto.
  - cbn. auto.
Qed.

(** **** Sequences of reports *)

Lemma tm_run_cons fd r rs :
  fst (tm_run fd (r :: rs)) = fst (tm_run (tm_after fd r) rs)
  /\ snd (tm_run fd (r :: rs))
     = tm_events fd r ++ snd (tm_run (tm_after fd r) rs).
Proof.
  cbn [tm_run]. unfold tm_after, tm_events.
  destruct (tm_raw_event fd r) as [[ret fd1] e1]. cbn [fst snd].
  destruct (tm_run fd1 rs). auto.
Qed.

Lemma tm_run_config fd rs :
  tp_info (fst (tm_run fd rs)) = tp_info fd.
Proof.
  revert fd. induction rs as [|r rs IH]; intros fd; [reflexivity|].
  rewrite (proj1 (tm_run_cons fd r rs)), IH. apply tm_after_config.
Qed.

(** The ids a sequence of reports assigns are the next ones of the
    counter, in order, and the counter ends up past them. *)
Lemma tm_run_allocated fd rs :
  valid_tracking_id (next_tracking_id fd) ->
  exists m,
    allocated_ids (snd (tm_run fd rs)) = id_seq m (next_tracking_id fd)
    /\ next_tracking_id (fst (tm_run fd rs))
       = Nat.iter m advance_tracking_id (next_tracking_id fd).
Proof.
  revert fd. induction rs as [|r rs IH]; intros fd Hv.
  - exists O. split; reflexivity.
  - destruct (tm_run_cons fd r rs) as [-> ->].
    rewrite InputFacts.allocated_ids_app, tm_events_allocated.
    destruct (tm_after_tracking fd r) as [Hn _].
    set (m1 := if is_touch_frame fd r
               then news fd (rap_params r) (slot_range fd) else O).
    assert (Hm1 : next_tracking_id (tm_after fd r)
                  = Nat.iter m1 advance_tracking_id (next_tracking_id fd)).
    { rewrite Hn. subst m1. destruct (is_touch_frame fd r); reflexivity. }
    assert (Ha : (if is_touch_frame fd r
                  then allocated_ids (snd (emit_fingers fd (rap_params r)))
                  else []) = id_seq m1 (next_tracking_id fd)).
    { subst m1. destruct (is_touch_frame fd r); [|reflexivity].
      apply emit_fingers_allocated, Hv. }
    destruct (IH (tm_after fd r)) as [m2 [Hids Hnext]].
    { rewrite Hm1. apply iter_advance_valid, Hv. }
    exists (m1 + m2)%nat. rewrite Ha, Hids, Hnext, Hm1. split.
    + symmetry. apply id_seq_app.
    + rewrite (Nat.add_comm m1 m2). symmetry. apply Nat.iter_add.
Qed.

Lemma id_seq_head m n a : nth_error (id_seq m n) 0 = Some a -> a = n.
Proof. destruct m; cbn; congruence. Qed.

Lemma id_seq_next m n k a b :
  nth_error (id_seq m n) k = Some a ->
  nth_error (id_seq m n) (S k) = Some b ->
  b = advance_tracking_id a.
Proof.
  revert m n. induction k as [|k IH]; intros m n Ha Hb.
  - destruct m as [|[|m]]; cbn in *; congruence.
  - destruct m as [|m]; [discriminate|]. cbn [id_seq nth_error] in Ha, Hb.
    exact (IH _ _ Ha Hb).
Qed.

Lemma tm_run_valid fd rs :
  valid_tracking_id (next_tracking_id fd) ->
  valid_tracking_id (next_tracking_id (fst (tm_run fd rs))).
Proof.
  intros Hv. destruct (tm_run_allocated fd rs Hv) as [m [_ ->]].
  apply iter_advance_valid, Hv.
Qed.

Lemma next_at_valid fd bytes i :
  valid_tracking_id (next_tracking_id fd) ->
  valid_tracking_id (next_at fd bytes i).
Proof. apply iter_advance_valid. Qed.

(** A tracking id goes to slot [i] exactly when the slot was not used in
    the previous frame and is used in this one. *)
Lemma tm_events_slot_allocated fd r cur i :
  max_fingers (tp_info fd) <= 8 ->
  valid_tracking_id (next_tracking_id fd) ->
  allocated_ids (slot_events cur i (tm_events fd r))
  = if negb (slot_used (prev_slots_used fd) i)
       && slot_used (prev_slots_used (tm_after fd r)) i
    then [next_at fd (rap_params r) i] else [].
Proof.
  intros Hmax Hv. destruct (Z.lt_ge_cases i 0) as [Hneg|Hi].
  { rewrite tm_events_slot.
    replace (slot_used (prev_slots_used (tm_after fd r)) i) with false
      by (unfold slot_used; rewrite Z.testbit_neg_r by lia; reflexivity).
    rewrite andb_false_r.
    destruct (is_touch_frame fd r);
      [rewrite emit_fingers_slot_other by lia|]; reflexivity. }
  rewrite tm_events_slot.
  destruct (tm_after_tracking fd r) as [_ ->].
  destruct (is_touch_frame fd r).
  2:{ destruct (slot_used (prev_slots_used fd) i); reflexivity. }
  rewrite emit_fingers_used by lia.
  destruct (Z.ltb_spec i (max_fingers (tp_info fd))) as [Hlt|Hge].
  - rewrite emit_fingers_slot by lia.
    rewrite finger_events_allocated.
    2:{ pose proof (next_at_valid fd (rap_params r) i Hv) as Hv'.
        cbn. unfold valid_tracking_id in Hv'. lia. }
    rewrite is_new_set_next. unfold is_new.
    rewrite land_slot_mask_eqb by lia.
    replace (i <? 8) with true by (symmetry; apply Z.ltb_lt; lia).
    cbn [andb].
    destruct (is_sentinel (rap_params r) i),
      (slot_used (prev_slots_used fd) i); reflexivity.
  - rewrite emit_fingers_slot_other by lia. cbn [andb].
    rewrite andb_false_r. reflexivity.
Qed.

(** **** The contacts, read from the reports *)

Lemma tm_run_session fd rs :
  mt_feature_index (fst (tm_run fd rs)) = mt_feature_index fd
  /\ hid_hw_started (fst (tm_run fd rs)) = hid_hw_started fd.
Proof.
  revert fd. induction rs as [|r rs IH]; intros fd; [split; reflexivity|].
  rewrite (proj1 (tm_run_cons fd r rs)).
  destruct (IH (tm_after fd r)) as [-> ->].
  destruct (tm_after_config fd r) as (_ & Hm & _ & _ & Hw). auto.
Qed.

Lemma is_touch_frame_run fd rs r :
  is_touch_frame (fst (tm_run fd rs)) r = is_touch_frame fd r.
Proof.
  unfold is_touch_frame. destruct (tm_run_session fd rs) as [-> ->].
  reflexivity.
Qed.

Lemma tm_run_snoc fd rs r :
  fst (tm_run fd (rs ++ [r])) = tm_after (fst (tm_run fd rs)) r
  /\ snd (tm_run fd (rs ++ [r]))
     = snd (tm_run fd rs) ++ tm_events (fst (tm_run fd rs)) r.
Proof.
  revert fd. induction rs as [|r' rs IH]; intros fd.
  - cbn [app]. destruct (tm_run_cons fd r []) as [-> ->]. cbn [tm_run fst snd].
    rewrite app_nil_r. auto.
  - cbn [app]. destruct (tm_run_cons fd r' (rs ++ [r])) as [-> ->].
    destruct (tm_run_cons fd r' rs) as [-> ->].
    destruct (IH (tm_after fd r')) as [-> ->].
    rewrite app_assoc. auto.
Qed.

Lemma last_frame_snoc fd rs r :
  last_frame fd (rs ++ [r])
  = if is_touch_frame fd r then Some r else last_frame fd rs.
Proof. unfold last_frame. rewrite fold_left_app. reflexivity. Qed.

Lemma in_contact_snoc fd rs r i :
  in_contact fd (rs ++ [r]) i
  = if is_touch_frame fd r
    then (0 <=? i) && (i <? max_fingers (tp_info fd))
         && negb (is_sentinel (rap_params r) i)
    else in_contact fd rs i.
Proof.
  unfold in_contact. rewrite last_frame_snoc.
  destruct (is_touch_frame fd r); reflexivity.
Qed.

(** The mask of used slots is the contacts of the last frame. *)
Lemma in_contact_run fd rs i :
  max_fingers (tp_info fd) <= 8 -> prev_slots_used fd = 0 ->
  slot_used (prev_slots_used (fst (tm_run fd rs))) i = in_contact fd rs i.
Proof.
  intros Hmax H0. induction rs as [|r rs IH] using rev_ind.
  - cbn [tm_run fst]. rewrite H0. unfold slot_used, in_contact.
    rewrite Z.bits_0. cbn [last_frame fold_left]. symmetry. apply andb_false_r.
  - rewrite (proj1 (tm_run_snoc fd rs r)), in_contact_snoc.
    rewrite (proj2 (tm_after_tracking _ r)), is_touch_frame_run.
    destruct (is_touch_frame fd r); [|exact IH].
    destruct (Z.leb_spec 0 i) as [Hi|Hi]; cbn [andb].
    + rewrite emit_fingers_used by (rewrite ?tm_run_config; lia).
      rewrite tm_run_config.
      destruct (Z.ltb_spec i (max_fingers (tp_info fd))); cbn [andb];
        [|reflexivity].
      replace (i <? 8) with true by (symmetry; apply Z.ltb_lt; lia).
      reflexivity.
    + unfold slot_used. apply Z.testbit_neg_r. lia.
Qed.

Lemma appears_is_new fd rs r i :
  max_fingers (tp_info fd) <= 8 -> prev_slots_used fd = 0 ->
  is_touch_frame fd r = true ->
  0 <= i < max_fingers (tp_info fd) ->
  is_new (fst (tm_run fd rs)) (rap_params r) i = appears fd rs r i.
Proof.
  intros Hmax H0 Hf Hi. unfold is_new, appears.
  rewrite land_slot_mask_eqb by lia.
  rewrite in_contact_run, in_contact_snoc, Hf by assumption.
  replace (0 <=? i) with true by (symmetry; apply Z.leb_le; lia).
  replace (i <? max_fingers (tp_info fd)) with true
    by (symmetry; apply Z.ltb_lt; lia).
  cbn [andb]. apply andb_comm.
Qed.

Lemma appears_other fd rs r i :
  is_touch_frame fd r = false -> appears fd rs r i = false.
Proof.
  intros Hf. unfold appears. rewrite in_contact_snoc, Hf.
  destruct (in_contact fd rs i); reflexivity.
Qed.



(** **** The sink's view of a frame *)

Lemma finger_events_last fd bytes i t :
  last_tracking t (finger_events fd bytes i)
  = if is_sentinel bytes i then -1
    else if is_new fd bytes i then next_tracking_id fd else t.
Proof.
  unfold finger_events.
  destruct (is_sentinel bytes i); [reflexivity|].
  destruct (is_new fd bytes i); reflexivity.
Qed.

Lemma in_step_after fd s r :
  max_fingers (tp_info fd) <= 8 ->
  in_step fd s -> in_step (tm_after fd r) (sink_run s (tm_events fd r)).
Proof.
  intros Hmax (Hv & Hdev & Hcpl).
  destruct (tm_after_tracking fd r) as [Hn Hp].
  destruct (tm_after_config fd r) as [Hinfo _].
  unfold in_step. rewrite Hn, Hp, Hinfo.
  destruct (is_touch_frame fd r) eqn:F.
  - split; [apply next_at_valid, Hv|]. split.
    + intros i Hu. destruct (Z.lt_ge_cases i 0) as [Hneg|Hpos].
      { unfold slot_used in Hu. rewrite Z.testbit_neg_r in Hu by lia. discriminate. }
      rewrite emit_fingers_used in Hu by lia.
      apply andb_true_iff in Hu. destruct Hu as [Hu _].
      apply andb_true_iff in Hu. destruct Hu as [Hu _].
      apply Z.ltb_lt in Hu. lia.
    + intros i. rewrite InputFacts.tracking_sink_run, tm_events_slot, F.
      destruct (Z.lt_ge_cases i 0) as [Hneg|Hpos].
      { rewrite emit_fingers_slot_other by lia. cbn [last_tracking fold_left].
        rewrite Hcpl. unfold slot_used. rewrite !Z.testbit_neg_r by lia. tauto. }
      rewrite emit_fingers_used by lia.
      destruct (Z.ltb_spec i (max_fingers (tp_info fd))) as [Hlt|Hge].
      * rewrite emit_fingers_slot by lia. rewrite finger_events_last.
        rewrite is_new_set_next. unfold is_new.
        rewrite land_slot_mask_eqb by lia.
        replace (i <? 8) with true by (symmetry; apply Z.ltb_lt; lia).
        cbn [andb]. destruct (is_sentinel (rap_params r) i); cbn [negb andb].
        -- split; [congruence | discriminate].
        -- destruct (slot_used (prev_slots_used fd) i) eqn:Hu; cbn [negb].
           ++ split; [reflexivity|]. intros _. apply Hcpl. exact Hu.
           ++ split; [reflexivity|]. intros _. cbn.
              pose proof (next_at_valid fd (rap_params r) i Hv) as Hv'.
              unfold valid_tracking_id in Hv'. lia.
      * rewrite emit_fingers_slot_other by lia. cbn [last_tracking fold_left andb].
        rewrite Hcpl. split; [|discriminate].
        intros Hu. apply Hdev in Hu. lia.
  - split; [exact Hv|]. split; [exact Hdev|].
    intros i. rewrite InputFacts.tracking_sink_run, tm_events_slot, F.
    apply Hcpl.
Qed.

Lemma in_step_run rs : forall fd s,
  max_fingers (tp_info fd) <= 8 ->
  in_step fd s ->
  in_step (fst (tm_run fd rs)) (sink_run s (snd (tm_run fd rs))).
Proof.
  induction rs as [|r rs IH]; intros fd s Hmax Hin; [exact Hin|].
  destruct (tm_run_cons fd r rs) as [-> ->].
  rewrite InputFacts.sink_run_app. apply IH.
  - destruct (tm_after_config fd r) as [-> _]. exact Hmax.
  - apply in_step_after; assumption.
Qed.

Lemma in_step_probe info mt_idx idx_1b03 is_t620 :
  in_step (tm_probe info mt_idx idx_1b03 is_t620) sink_init.
Proof.
  split; [unfold valid_tracking_id; cbn; lia|]. split.
  - intros i H. unfold slot_used in H. cbn in H. rewrite Z.bits_0 in H. discriminate.
  - intros i. unfold slot_used. cbn. rewrite Z.bits_0. split; [congruence|discriminate].
Qed.

(** A slot in contact keeps its tracking id through a report, unless the
    report retires it. *)
Lemma tracking_id_kept fd s r i :
  max_fingers (tp_info fd) <= 8 ->
  in_step fd s ->
  tracking s i <> -1 ->
  (tracking (sink_run s (tm_events fd r)) i = tracking s i
   /\ forall v, ~ In (input_event EV_ABS ABS_MT_TRACKING_ID v)
                     (slot_events (cur_slot s) i (tm_events fd r)))
  \/ (tracking (sink_run s (tm_events fd r)) i = -1
      /\ slot_events (cur_slot s) i (tm_events fd r)
         = [input_event EV_ABS ABS_MT_TRACKING_ID (-1)]).
Proof.
  intros Hmax (Hv & Hdev & Hcpl) Hact.
  assert (Hu : slot_used (prev_slots_used fd) i = true) by (apply Hcpl, Hact).
  pose proof (Hdev i Hu) as Hi.
  rewrite InputFacts.tracking_sink_run, tm_events_slot.
  destruct (is_touch_frame fd r); [|left; split; [reflexivity|intros v []]].
  rewrite emit_fingers_slot by lia. rewrite finger_events_last.
  unfold finger_events. rewrite is_new_set_next. unfold is_new.
  rewrite land_slot_mask_eqb by lia. rewrite Hu.
  destruct (is_sentinel (rap_params r) i); cbn [negb andb app].
  - right. split; reflexivity.
  - left. split; [reflexivity|]. intros v [H|[H|[H|[]]]]; discriminate.
Qed.

Lemma id_seq_nth m n k v :
  valid_tracking_id n ->
  nth_error (id_seq m n) k = Some v ->
  v = (n - 1 + Z.of_nat k) mod 0xfffe + 1.
Proof.
  revert m n. induction k as [|k IH]; intros m n Hv Hk.
  - apply id_seq_head in Hk. subst v. unfold valid_tracking_id in Hv.
    rewrite Z.add_0_r, Z.mod_small by lia. lia.
  - destruct m as [|m]; [discriminate|]. cbn [id_seq nth_error] in Hk.
    rewrite (IH _ _ (advance_tracking_id_valid _ Hv) Hk).
    rewrite advance_tracking_id_spec by exact Hv.
    unfold valid_tracking_id in Hv.
    destruct (Z.eqb_spec n 65534) as [->|Hne].
    + replace (65534 - 1 + Z.of_nat (S k)) with (Z.of_nat k + 1 * 65534) by lia.
      rewrite Z.mod_add by lia.
      replace (1 - 1 + Z.of_nat k) with (Z.of_nat k) by lia. reflexivity.
    + replace (n + 1 - 1 + Z.of_nat k) with (n - 1 + Z.of_nat (S k)) by lia.
      reflexivity.
Qed.

Lemma id_seq_prefix m n a b : id_seq m n = a ++ b -> a = id_seq (length a) n.
Proof.
  intros H.
  assert (Hm : m = (length a + length b)%nat).
  { rewrite <- (id_seq_length m n), H. apply length_app. }
  rewrite Hm, id_seq_app in H. symmetry.
  apply (app_inj_1 _ _ _ _ (id_seq_length _ _) H).
Qed.

(** Ids assigned fewer than 0xFFFE positions apart are different. *)
Lemma id_seq_window m k1 k2 v1 v2 :
  nth_error (id_seq m 1) k1 = Some v1 ->
  nth_error (id_seq m 1) k2 = Some v2 ->
  k1 <> k2 ->
  Z.of_nat (m - k1) <= 0xfffe -> Z.of_nat (m - k2) <= 0xfffe ->
  v1 <> v2.
Proof.
  intros H1 H2 Hne Ha1 Ha2.
  assert (Hv : valid_tracking_id 1) by (unfold valid_tracking_id; lia).
  assert (L1 : (k1 < m)%nat).
  { rewrite <- (id_seq_length m 1). apply nth_error_Some. congruence. }
  assert (L2 : (k2 < m)%nat).
  { rewrite <- (id_seq_length m 1). apply nth_error_Some. congruence. }
  rewrite (id_seq_nth _ _ _ _ Hv H1), (id_seq_nth _ _ _ _ Hv H2).
  replace (1 - 1 + Z.of_nat k1) with (Z.of_nat k1) by lia.
  replace (1 - 1 + Z.of_nat k2) with (Z.of_nat k2) by lia.
  intros Heq.
  assert (Hmod : Z.of_nat k1 mod 65534 = Z.of_nat k2 mod 65534) by lia.
  pose proof (Z.div_mod (Z.of_nat k1) 65534 ltac:(lia)) as D1.
  pose proof (Z.div_mod (Z.of_nat k2) 65534 ltac:(lia)) as D2.
  pose proof (Z.mod_pos_bound (Z.of_nat k1) 65534 ltac:(lia)).
  lia.
Qed.

(** C1: (as amended) On a device of at most eight slots, a slot in
    contact keeps its tracking id through every report: either no
    tracking-id event reaches it, or the one event that does is the "no
    contact" that retires it.  And at every point of the trace of a
    sequence of reports, two slots in contact hold different ids unless
    the counter has come round under one of them, that is unless 0xFFFE
    or more ids have been assigned after its own. *)
Theorem tracking_id_stable_unique info mt_idx idx_1b03 is_t620 reports report i :
  max_fingers info <= 8 ->
  let fd0 := tm_probe info mt_idx idx_1b03 is_t620 in
  let fd := fst (tm_run fd0 reports) in
  let evs := snd (tm_run fd0 reports) in
  let s := sink_run sink_init evs in
  let evs' := tm_events fd report in
  let s' := sink_run s evs' in
  (tracking s i <> -1 ->
   (tracking s' i = tracking s i
    /\ forall v, ~ In (input_event EV_ABS ABS_MT_TRACKING_ID v)
                      (slot_events (cur_slot s) i evs'))
   \/ (tracking s' i = -1
       /\ slot_events (cur_slot s) i evs'
          = [input_event EV_ABS ABS_MT_TRACKING_ID (-1)]))
  /\ (forall pre j k,
        pre `prefix_of` evs -> j <> k ->
        tracking (sink_run sink_init pre) j <> -1 ->
        tracking (sink_run sink_init pre) k <> -1 ->
        age (history pre) j <= 0xfffe -> age (history pre) k <= 0xfffe ->
        tracking (sink_run sink_init pre) j
        <> tracking (sink_run sink_init pre) k).
Proof.
  intros Hmax fd0 fd evs s evs' s'. split.
  - apply tracking_id_kept.
    + subst fd. rewrite tm_run_config. exact Hmax.
    + apply in_step_run; [exact Hmax | apply in_step_probe].
  - intros pre j k [rest Hpre] Hjk.
    assert (Hv0 : valid_tracking_id (next_tracking_id fd0))
      by (unfold valid_tracking_id; cbn; lia).
    destruct (tm_run_allocated fd0 reports Hv0) as [m [Hids _]].
    fold evs in Hids. change (next_tracking_id fd0) with 1 in Hids.
    rewrite Hpre, InputFacts.allocated_ids_app in Hids.
    symmetry in Hids. apply id_seq_prefix in Hids.
    destruct (InputFacts.history_spec pre) as (Hs & Hn & Hid & Hb).
    cbn zeta in Hs, Hn, Hid, Hb. rewrite <- Hs.
    intros Hj Hk Haj Hak. unfold age in Haj, Hak.
    rewrite Hn in Haj, Hak.
    pose proof (Hid j Hj) as Nj. pose proof (Hid k Hk) as Nk.
    rewrite Hids in Nj, Nk.
    exact (id_seq_window _ _ _ _ _ Nj Nk (Hb j k Hjk Hj Hk) Haj Hak).
Qed.

Lemma tracking_id_stable_unique_witness :
  tracking (sink_run sink_init
              (snd (tm_run sample_fd [touch_report two_fingers]))) 0
  <> tracking (sink_run sink_init
                 (snd (tm_run sample_fd [touch_report two_fingers]))) 1.
Proof.
  refine (proj2 (tracking_id_stable_unique sample_info 5 7 false
                   [touch_report two_fingers] (touch_report two_fingers) 0
                   ltac:(cbn; lia))
                (snd (tm_run sample_fd [touch_report two_fingers])) 0 1
                _ _ _ _ _ _).
  - exists []. symmetry. apply app_nil_r.
  - lia.
  - vm_compute. discriminate.
  - vm_compute. discriminate.
  - vm_compute. discriminate.
  - vm_compute. discriminate.
Defined.

(** **** A finger at rest while another taps *)

Lemma iter_advance_small m k :
  1 <= k -> k + Z.of_nat m <= 0xfffe ->
  Nat.iter m advance_tracking_id k = k + Z.of_nat m.
Proof.
  induction m as [|m IH]; intros Hk Hm; [cbn; lia|].
  rewrite Nat.iter_succ, IH by lia.
  rewrite advance_tracking_id_spec by (unfold valid_tracking_id; lia).
  destruct (Z.eqb_spec (k + Z.of_nat m) 65534); lia.
Qed.

Lemma tm_run_app fd a b :
  fst (tm_run fd (a ++ b)) = fst (tm_run (fst (tm_run fd a)) b)
  /\ snd (tm_run fd (a ++ b))
     = snd (tm_run fd a) ++ snd (tm_run (fst (tm_run fd a)) b).
Proof.
  revert fd. induction a as [|r a IH]; intros fd; [split; reflexivity|].
  cbn [app]. destruct (tm_run_cons fd r (a ++ b)) as [-> ->].
  destruct (tm_run_cons fd r a) as [-> ->].
  destruct (IH (tm_after fd r)) as [-> ->].
  split; [reflexivity | apply app_assoc].
Qed.

(** Lifting the second finger and putting it down again costs one id. *)
Lemma one_tap k s :
  fst (tm_run (tapping k) [hold_only; hold_and_tap])
  = tapping (advance_tracking_id k)
  /\ tracking (sink_run s (snd (tm_run (tapping k) [hold_only; hold_and_tap]))) 0
     = tracking s 0
  /\ tracking (sink_run s (snd (tm_run (tapping k) [hold_only; hold_and_tap]))) 1
     = k.
Proof. repeat split; reflexivity. Qed.

Lemma many_taps n : forall k s,
  let run := tm_run (tapping k) (concat (replicate n [hold_only; hold_and_tap])) in
  fst run = tapping (Nat.iter n advance_tracking_id k)
  /\ tracking (sink_run s (snd run)) 0 = tracking s 0
  /\ tracking (sink_run s (snd run)) 1
     = match n with
       | O => tracking s 1
       | S p => Nat.iter p advance_tracking_id k
       end.
Proof.
  induction n as [|n IH]; intros k s run; subst run.
  - repeat split.
  - cbn [replicate concat].
    destruct (tm_run_app (tapping k) [hold_only; hold_and_tap]
                (concat (replicate n [hold_only; hold_and_tap]))) as [-> ->].
    rewrite InputFacts.sink_run_app.
    destruct (one_tap k s) as (Hfd & H0 & H1). rewrite Hfd.
    generalize dependent (sink_run s (snd (tm_run (tapping k) [hold_only; hold_and_tap]))).
    intros s1 H0 H1.
    destruct (IH (advance_tracking_id k) s1) as (IHfd & IH0 & IH1).
    rewrite IHfd, IH0, IH1, H0. split; [|split].
    + rewrite Nat.iter_succ_r. reflexivity.
    + reflexivity.
    + destruct n as [|n']; [exact H1|]. rewrite Nat.iter_succ_r. reflexivity.
Qed.

Lemma first_touch :
  tm_after hold_fd hold_and_tap = tapping 3
  /\ tracking (sink_run sink_init (tm_events hold_fd hold_and_tap)) 0 = 1.
Proof. split; reflexivity. Qed.

(** C1: (as stated) One finger rests in slot 0, holding id 1, while a
    second finger taps in slot 1.  The second finger first gets id 2; its
    65533 further taps get 3, ..., 0xFFFE and then 1 again: both slots
    are in contact and both hold id 1. *)
Lemma wrapped_id_is_shared :
  ~ unique_ids (sink_run sink_init
                  (snd (tm_run hold_fd (taps (Z.to_nat 65533))))).
Proof.
  unfold taps.
  destruct (tm_run_cons hold_fd hold_and_tap
              (concat (replicate (Z.to_nat 65533) [hold_only; hold_and_tap])))
    as [_ ->].
  destruct first_touch as [-> H0].
  rewrite InputFacts.sink_run_app.
  set (s1 := sink_run sink_init (tm_events hold_fd hold_and_tap)) in *.
  destruct (many_taps (Z.to_nat 65533) 3 s1) as (_ & Hs0 & Hs1).
  replace (Z.to_nat 65533) with (S (S (Z.to_nat 65531))) in Hs1 at 2 by lia.
  rewrite Nat.iter_succ, iter_advance_small in Hs1 by lia.
  rewrite Z2Nat.id in Hs1 by lia.
  change (advance_tracking_id (3 + 65531)) with 1 in Hs1.
  rewrite H0 in Hs0.
  intros Huniq. apply (Huniq 0 1); [lia | lia | lia | congruence].
Qed.

End TmFacts.

(** ** The button arbiter *)
Module ButtonFacts.
Import Tm.

(** **** The three report kinds, button by button *)

Lemma depressor_insert d i j v :
  (i < length d)%nat ->
  depressor (<[i := v]> d) j = if (j =? i)%nat then v else depressor d j.
Proof.
  unfold depressor. revert i j.
  induction d as [|a d IH]; intros [|i] [|j] H; cbn in H |- *;
    try lia; try reflexivity.
  apply IH. lia.
Qed.

(** What one report kind does to the button it speaks about. *)
Lemma arbitrate_insert kind (m : bool) d i j :
  (i < length d)%nat ->
  depressor
    (if (depressor d i =? 0) && negb m then <[i := kind]> d
     else if (depressor d i =? kind) && m then <[i := DEPRESSOR_NONE]> d
     else d) j
  = if (j =? i)%nat then arbitrate kind (negb m) (depressor d i)
    else depressor d j.
Proof.
  intros Hi. unfold arbitrate, DEPRESSOR_NONE. rewrite negb_involutive.
  destruct ((depressor d i =? 0) && negb m);
    [|destruct ((depressor d i =? kind) && m)];
    rewrite ?depressor_insert by exact Hi;
    destruct (Nat.eqb_spec j i); subst; reflexivity.
Qed.

Lemma arbitrate_insert_length kind (m : bool) (d : list Z) i :
  length (if (depressor d i =? 0) && negb m then <[i := kind]> d
          else if (depressor d i =? kind) && m then <[i := DEPRESSOR_NONE]> d
          else d)
  = length d.
Proof.
  destruct (_ && _); [|destruct (_ && _)]; rewrite ?length_insert; reflexivity.
Qed.

Lemma mouse_button_length b1 d i : length (mouse_button b1 d i) = length d.
Proof. apply arbitrate_insert_length. Qed.

Lemma mouse_button_at b1 d i j :
  (i < length d)%nat ->
  depressor (mouse_button b1 d i) j
  = if (j =? i)%nat
    then arbitrate DEPRESSOR_MOUSE
           (negb (Z.land b1 (u8 (Z.shiftl 1 (Z.of_nat i))) =? 0))
           (depressor d i)
    else depressor d j.
Proof. apply arbitrate_insert. Qed.

Lemma mouse_report_buttons_length fd r d :
  length (mouse_report_buttons fd r d) = length d.
Proof.
  unfold mouse_report_buttons. destruct (_ && _); [|reflexivity].
  unfold idx_left, idx_middle. cbn [seq fold_left Nat.sub].
  rewrite !mouse_button_length. reflexivity.
Qed.

Lemma feature_1b03_button_length fd r d :
  length (feature_1b03_button fd r d) = length d.
Proof.
  unfold feature_1b03_button. destruct (_ && _); [|reflexivity].
  apply arbitrate_insert_length.
Qed.

Lemma raw_points_button_length fd r d :
  length (raw_points_button fd r d) = length d.
Proof.
  unfold raw_points_button. destruct (_ && _); [|reflexivity].
  apply arbitrate_insert_length.
Qed.

Lemma mouse_report_buttons_button fd r d i :
  length d = 3%nat -> (i < 3)%nat -> hid_hw_started fd = true ->
  depressor (mouse_report_buttons fd r d) i
  = arbitrate_report fd r DEPRESSOR_MOUSE i (depressor d i).
Proof.
  intros Hlen Hi Hw.
  unfold arbitrate_report, observation, mouse_report_buttons.
  rewrite Hw, Z.eqb_refl. cbn [negb andb].
  replace (i <=? idx_middle)%nat with true
    by (symmetry; apply Nat.leb_le; unfold idx_middle; lia).
  rewrite andb_true_r.
  destruct ((byte_at r 0 =? 2) && negb (ignore_mouse_report_buttons fd)).
  - unfold idx_left, idx_middle. cbn [seq fold_left Nat.sub].
    rewrite !mouse_button_at by (rewrite ?mouse_button_length; lia).
    destruct i as [|[|[|]]]; try lia; reflexivity.
  - change (DEPRESSOR_MOUSE =? DEPRESSOR_1B03) with false.
    change (DEPRESSOR_MOUSE =? DEPRESSOR_RAWPTS) with false. reflexivity.
Qed.

Lemma feature_1b03_button_button fd r d i :
  length d = 3%nat -> (i < 3)%nat -> hid_hw_started fd = true ->
  depressor (feature_1b03_button fd r d) i
  = arbitrate_report fd r DEPRESSOR_1B03 i (depressor d i).
Proof.
  intros Hlen Hi Hw.
  unfold arbitrate_report, observation, feature_1b03_button.
  rewrite Hw, Z.eqb_refl. cbn [negb andb].
  change (DEPRESSOR_1B03 =? DEPRESSOR_MOUSE) with false.
  change (DEPRESSOR_1B03 =? DEPRESSOR_RAWPTS) with false. cbn [andb].
  destruct ((byte_at r 0 =? 17) && (byte_at r 2 =? feature_1b03 fd));
    cbn [andb]; [|reflexivity].
  rewrite arbitrate_insert by (unfold idx_middle; lia).
  destruct (i =? idx_middle)%nat eqn:E; [|reflexivity].
  apply Nat.eqb_eq in E. subst i. reflexivity.
Qed.

Lemma raw_points_button_button fd r d i :
  length d = 3%nat -> (i < 3)%nat -> hid_hw_started fd = true ->
  depressor (raw_points_button fd r d) i
  = arbitrate_report fd r DEPRESSOR_RAWPTS i (depressor d i).
Proof.
  intros Hlen Hi Hw.
  unfold arbitrate_report, observation, raw_points_button.
  rewrite Hw, Z.eqb_refl. cbn [negb andb].
  change (DEPRESSOR_RAWPTS =? DEPRESSOR_MOUSE) with false.
  change (DEPRESSOR_RAWPTS =? DEPRESSOR_1B03) with false. cbn [andb].
  destruct ((byte_at r 0 =? 17) && (byte_at r 2 =? mt_feature_index fd)
            && (Z.shiftr (byte_at r 3) 4 =? 1));
    cbn [andb]; [|reflexivity].
  rewrite arbitrate_insert by (unfold idx_left; lia).
  destruct (i =? idx_left)%nat eqn:E; [|reflexivity].
  apply Nat.eqb_eq in E. subst i. reflexivity.
Qed.

(** [emit_buttons] runs one arbiter per button, fed by the three report
    kinds in turn. *)
Lemma emit_buttons_button fd r i :
  length (button_depressor fd) = 3%nat -> (i < 3)%nat ->
  hid_hw_started fd = true ->
  depressor (button_depressor (fst (emit_buttons fd r))) i
  = arbitrate_report fd r DEPRESSOR_RAWPTS i
      (arbitrate_report fd r DEPRESSOR_1B03 i
         (arbitrate_report fd r DEPRESSOR_MOUSE i
            (depressor (button_depressor fd) i))).
Proof.
  intros Hlen Hi Hw. unfold emit_buttons.
  cbn [fst button_depressor set_button_depressor].
  rewrite raw_points_button_button, feature_1b03_button_button,
    mouse_report_buttons_button;
    rewrite ?feature_1b03_button_length, ?mouse_report_buttons_length; auto.
Qed.

Lemma tm_after_button fd r i :
  length (button_depressor fd) = 3%nat -> (i < 3)%nat ->
  depressor (button_depressor (tm_after fd r)) i
  = arbitrate_report fd r DEPRESSOR_RAWPTS i
      (arbitrate_report fd r DEPRESSOR_1B03 i
         (arbitrate_report fd r DEPRESSOR_MOUSE i
            (depressor (button_depressor fd) i))).
Proof.
  intros Hlen Hi. unfold tm_after. rewrite TmFacts.tm_raw_event_eq.
  destruct (hid_hw_started fd) eqn:Hw; cbn [negb].
  - cbn zeta. cbn [fst snd]. destruct (is_touch_frame fd r); cbn [fst].
    + rewrite TmFacts.emit_fingers_fd.
      rewrite emit_buttons_button; [reflexivity | exact Hlen | exact Hi | exact Hw].
    + apply emit_buttons_button; assumption.
  - cbn [fst snd]. unfold arbitrate_report, observation. rewrite Hw. reflexivity.
Qed.

Lemma tm_after_button_length fd r :
  length (button_depressor (tm_after fd r)) = length (button_depressor fd).
Proof.
  unfold tm_after. rewrite TmFacts.tm_raw_event_eq.
  destruct (hid_hw_started fd); cbn [negb]; [|reflexivity].
  cbn zeta. cbn [fst snd]. unfold emit_buttons.
  cbn [fst button_depressor set_button_depressor].
  rewrite raw_points_button_length, feature_1b03_button_length,
    mouse_report_buttons_length.
  destruct (is_touch_frame fd r); cbn [fst]; [|reflexivity].
  rewrite TmFacts.emit_fingers_fd. reflexivity.
Qed.

(** A report speaks for at most one kind about a given button. *)
Lemma observation_kind fd r k i o :
  observation fd r k i = Some o ->
  (k = DEPRESSOR_MOUSE /\ byte_at r 0 = 2)
  \/ (k = DEPRESSOR_1B03 /\ byte_at r 0 = 17 /\ i = idx_middle)
  \/ (k = DEPRESSOR_RAWPTS /\ byte_at r 0 = 17 /\ i = idx_left).
Proof.
  unfold observation. destruct (hid_hw_started fd); cbn [negb]; [|discriminate].
  match goal with |- (if ?c then _ else _) = _ -> _ => destruct c eqn:E1 end.
  { intros _. left. rewrite !andb_true_iff, !Z.eqb_eq in E1. tauto. }
  match goal with |- (if ?c then _ else _) = _ -> _ => destruct c eqn:E2 end.
  { intros _. right. left.
    rewrite !andb_true_iff, !Z.eqb_eq, Nat.eqb_eq in E2. tauto. }
  match goal with |- (if ?c then _ else _) = _ -> _ => destruct c eqn:E3 end;
    [|discriminate].
  intros _. right. right.
  rewrite !andb_true_iff, !Z.eqb_eq, Nat.eqb_eq in E3. tauto.
Qed.

Lemma observation_exclusive fd r k1 k2 i o1 o2 :
  observation fd r k1 i = Some o1 -> observation fd r k2 i = Some o2 -> k1 = k2.
Proof.
  intros H1 H2. apply observation_kind in H1, H2.
  unfold idx_left, idx_middle in *.
  destruct H1 as [[-> ?]|[(-> & ? & ?)|(-> & ? & ?)]];
    destruct H2 as [[-> ?]|[(-> & ? & ?)|(-> & ? & ?)]];
    try reflexivity; lia.
Qed.

Lemma button_observed fd r k i o :
  length (button_depressor fd) = 3%nat -> (i < 3)%nat ->
  observation fd r k i = Some o ->
  depressor (button_depressor (tm_after fd r)) i
  = arbitrate k o (depressor (button_depressor fd) i).
Proof.
  intros Hlen Hi Hobs. rewrite tm_after_button by assumption.
  unfold arbitrate_report.
  destruct (observation_kind _ _ _ _ _ Hobs) as [[-> _]|[[-> _]|[-> _]]].
  - rewrite Hobs.
    destruct (observation fd r DEPRESSOR_1B03 i) eqn:O2;
      [discriminate (observation_exclusive _ _ _ _ _ _ _ Hobs O2)|].
    destruct (observation fd r DEPRESSOR_RAWPTS i) eqn:O3;
      [discriminate (observation_exclusive _ _ _ _ _ _ _ Hobs O3)|].
    reflexivity.
  - rewrite Hobs.
    destruct (observation fd r DEPRESSOR_MOUSE i) eqn:O1;
      [discriminate (observation_exclusive _ _ _ _ _ _ _ Hobs O1)|].
    destruct (observation fd r DEPRESSOR_RAWPTS i) eqn:O3;
      [discriminate (observation_exclusive _ _ _ _ _ _ _ Hobs O3)|].
    reflexivity.
  - rewrite Hobs.
    destruct (observation fd r DEPRESSOR_MOUSE i) eqn:O1;
      [discriminate (observation_exclusive _ _ _ _ _ _ _ Hobs O1)|].
    destruct (observation fd r DEPRESSOR_1B03 i) eqn:O2;
      [discriminate (observation_exclusive _ _ _ _ _ _ _ Hobs O2)|].
    reflexivity.
Qed.

Lemma button_changed fd r i :
  length (button_depressor fd) = 3%nat -> (i < 3)%nat ->
  depressor (button_depressor (tm_after fd r)) i
  <> depressor (button_depressor fd) i ->
  exists k o, observation fd r k i = Some o
              /\ depressor (button_depressor (tm_after fd r)) i
                 = arbitrate k o (depressor (button_depressor fd) i).
Proof.
  intros Hlen Hi Hne.
  destruct (observation fd r DEPRESSOR_MOUSE i) eqn:O1;
    [eexists _, _; split; [exact O1 | apply button_observed; assumption]|].
  destruct (observation fd r DEPRESSOR_1B03 i) eqn:O2;
    [eexists _, _; split; [exact O2 | apply button_observed; assumption]|].
  destruct (observation fd r DEPRESSOR_RAWPTS i) eqn:O3;
    [eexists _, _; split; [exact O3 | apply button_observed; assumption]|].
  exfalso. apply Hne. rewrite tm_after_button by assumption.
  unfold arbitrate_report. rewrite O1, O2, O3. reflexivity.
Qed.

Lemma observation_after fd r r' k i :
  observation (tm_after fd r) r' k i = observation fd r' k i.
Proof.
  destruct (TmFacts.tm_after_config fd r) as (_ & Hm & Hf & Hig & Hw).
  unfold observation. rewrite Hm, Hf, Hig, Hw. reflexivity.
Qed.

Lemma arbitrate_cases k o d :
  arbitrate k o d = d
  \/ (d = DEPRESSOR_NONE /\ o = true /\ arbitrate k o d = k)
  \/ (d = k /\ o = false /\ arbitrate k o d = DEPRESSOR_NONE).
Proof.
  unfold arbitrate.
  destruct (Z.eqb_spec d DEPRESSOR_NONE), (Z.eqb_spec d k), o;
    cbn [andb negb]; auto.
Qed.

(** A button held by one kind stays with it while that kind does not
    report it up. *)
Lemma button_held fd reports i :
  length (button_depressor fd) = 3%nat -> (i < 3)%nat ->
  depressor (button_depressor fd) i <> DEPRESSOR_NONE ->
  (forall r, In r reports ->
             observation fd r (depressor (button_depressor fd) i) i
             <> Some false) ->
  depressor (button_depressor (fst (tm_run fd reports))) i
  = depressor (button_depressor fd) i.
Proof.
  revert fd. induction reports as [|r rs IH]; intros fd Hlen Hi Hd Hup;
    [reflexivity|].
  rewrite (proj1 (TmFacts.tm_run_cons fd r rs)).
  assert (Hstep : depressor (button_depressor (tm_after fd r)) i
                  = depressor (button_depressor fd) i).
  { destruct (Z.eq_dec (depressor (button_depressor (tm_after fd r)) i)
                       (depressor (button_depressor fd) i)) as [|Hne]; [assumption|].
    destruct (button_changed fd r i Hlen Hi Hne) as (k & o & Hobs & Hd').
    destruct (arbitrate_cases k o (depressor (button_depressor fd) i))
      as [E|[(E & _)|(E & -> & _)]]; [congruence | contradiction |].
    exfalso. apply (Hup r); [left; reflexivity|]. rewrite E. exact Hobs. }
  rewrite <- Hstep. apply IH.
  - rewrite tm_after_button_length. exact Hlen.
  - exact Hi.
  - rewrite Hstep. exact Hd.
  - intros r' Hr'. rewrite Hstep, observation_after.
    apply Hup. right. exact Hr'.
Qed.

(** C3: For each button, through every report: the depressor becomes
    a report kind only from [DEPRESSOR_NONE], and then it is the kind
    that saw the button down; it is cleared only by the kind that holds
    it, seeing the button up.  So while kind [d] holds the button, another
    kind seeing it down changes nothing, the holder seeing it up frees
    it, and over any sequence of reports in which the holder never sees
    it up the button stays with the holder. *)
Theorem button_depressor_rule fd reports report i B :
  length (button_depressor fd) = 3%nat -> (i < 3)%nat ->
  let d := depressor (button_depressor fd) i in
  let d' := depressor (button_depressor (tm_after fd report)) i in
  (d' <> d -> d' <> DEPRESSOR_NONE ->
   d = DEPRESSOR_NONE /\ observation fd report d' i = Some true)
  /\ (d' <> d -> d' = DEPRESSOR_NONE ->
      d <> DEPRESSOR_NONE /\ observation fd report d i = Some false)
  /\ (d <> DEPRESSOR_NONE -> B <> d ->
      observation fd report B i = Some true -> d' = d)
  /\ (d <> DEPRESSOR_NONE ->
      observation fd report d i = Some false -> d' = DEPRESSOR_NONE)
  /\ (d <> DEPRESSOR_NONE ->
      (forall r, In r reports -> observation fd r d i <> Some false) ->
      depressor (button_depressor (fst (tm_run fd reports))) i = d).
Proof.
  intros Hlen Hi d d'. split; [|split; [|split; [|split]]].
  - intros Hne Hset.
    destruct (button_changed fd report i Hlen Hi Hne) as (k & o & Hobs & Hd').
    fold d d' in Hd'.
    destruct (arbitrate_cases k o d) as [E|[(E & -> & E')|(E & _ & E')]];
      [congruence | | congruence].
    split; [exact E|]. rewrite Hd', E'. exact Hobs.
  - intros Hne Hclr.
    destruct (button_changed fd report i Hlen Hi Hne) as (k & o & Hobs & Hd').
    fold d d' in Hd'.
    destruct (arbitrate_cases k o d) as [E|[(E & -> & E')|(E & -> & E')]];
      [congruence | congruence |].
    split; [congruence|]. rewrite E. exact Hobs.
  - intros Hd HB Hobs. subst d'.
    rewrite (button_observed fd report B i true Hlen Hi Hobs). fold d.
    unfold arbitrate, DEPRESSOR_NONE in *.
    destruct (Z.eqb_spec d 0); [contradiction|]. cbn [andb negb].
    rewrite andb_false_r. reflexivity.
  - intros Hd Hobs. subst d'.
    rewrite (button_observed fd report d i false Hlen Hi Hobs). fold d.
    unfold arbitrate, DEPRESSOR_NONE in *.
    destruct (Z.eqb_spec d 0); [contradiction|]. cbn [andb negb].
    rewrite Z.eqb_refl. reflexivity.
  - intros Hd Hup. apply button_held; assumption.
Qed.

Lemma button_depressor_rule_witness :
  depressor (button_depressor
               (tm_after (tm_after sample_fd mouse_left_down) rawpts_left_down))
            0
  = DEPRESSOR_MOUSE.
Proof.
  refine (proj1 (proj2 (proj2
            (button_depressor_rule (tm_after sample_fd mouse_left_down) []
               rawpts_left_down 0%nat DEPRESSOR_RAWPTS
               ltac:(reflexivity) ltac:(lia)))) _ _ _).
  - vm_compute. discriminate.
  - vm_compute. discriminate.
  - reflexivity.
Defined.

End ButtonFacts.

(** ** The wireless touchpad *)
Module WtpFacts.
Import Wtp.

(** **** One touch record *)

Lemma wtp_touch_event_in fd t :
  in_slots t ->
  wtp_touch_event fd t
  = Done (set_slots fd
            (<[Z.to_nat (finger_id t - 1) :=
                 {| touch_state := negb (contact_status t =? 0);
                    seen_in_this_frame := true |}]> (slots fd)),
          [input_mt_slot (finger_id t - 1);
           input_mt_report_slot_state (negb (contact_status t =? 0))]
          ++ (if negb (contact_status t =? 0)
              then [input_event EV_ABS ABS_MT_POSITION_X (x t);
                    input_event EV_ABS ABS_MT_POSITION_Y (y t);
                    input_event EV_ABS ABS_MT_PRESSURE (area t)]
              else [])).
Proof.
  unfold in_slots, ARRAY_SIZE_slots, wtp_touch_event. intros H.
  replace (0 <=? finger_id t - 1) with true by (symmetry; apply Z.leb_le; lia).
  replace (finger_id t - 1 <? ARRAY_SIZE_slots) with true
    by (symmetry; apply Z.ltb_lt; unfold ARRAY_SIZE_slots; lia).
  reflexivity.
Qed.

Lemma wtp_touch_event_out fd t :
  ~ in_slots t -> wtp_touch_event fd t = OutOfBounds (finger_id t - 1).
Proof.
  unfold wtp_touch_event, in_slots, ARRAY_SIZE_slots. intros H.
  destruct (Z.leb_spec 0 (finger_id t - 1)), (Z.ltb_spec (finger_id t - 1) 5);
    cbn [andb]; try reflexivity; exfalso; lia.
Qed.

Lemma touch_at_insert fd k s i :
  (k < length (slots fd))%nat ->
  touch_at (set_slots fd (<[k := s]> (slots fd))) i
  = if (i =? k)%nat then touch_state s else touch_at fd i.
Proof.
  intros Hk. unfold touch_at. cbn [slots set_slots].
  destruct (Nat.eqb_spec i k) as [->|Hne].
  - rewrite list_lookup_insert_eq by exact Hk. reflexivity.
  - rewrite list_lookup_insert_ne by congruence. reflexivity.
Qed.

Lemma seen_at_insert fd k s i :
  (k < length (slots fd))%nat ->
  seen_at (set_slots fd (<[k := s]> (slots fd))) i
  = if (i =? k)%nat then seen_in_this_frame s else seen_at fd i.
Proof.
  intros Hk. unfold seen_at. cbn [slots set_slots].
  destruct (Nat.eqb_spec i k) as [->|Hne].
  - rewrite list_lookup_insert_eq by exact Hk. reflexivity.
  - rewrite list_lookup_insert_ne by congruence. reflexivity.
Qed.

(** A touch record writes the slot it names and no other. *)
Lemma wtp_touch_event_slots fd t :
  length (slots fd) = 5%nat -> in_slots t ->
  exists fd1 ev,
    wtp_touch_event fd t = Done (fd1, ev)
    /\ length (slots fd1) = 5%nat
    /\ forall i,
         touch_at fd1 i
         = (if (i =? Z.to_nat (finger_id t - 1))%nat
            then negb (contact_status t =? 0) else touch_at fd i)
         /\ seen_at fd1 i
            = (if (i =? Z.to_nat (finger_id t - 1))%nat
               then true else seen_at fd i).
Proof.
  intros Hlen Hin. rewrite wtp_touch_event_in by exact Hin.
  eexists _, _. split; [reflexivity|].
  assert (Hk : (Z.to_nat (finger_id t - 1) < length (slots fd))%nat).
  { unfold in_slots, ARRAY_SIZE_slots in Hin. lia. }
  split; [cbn [slots set_slots]; rewrite length_insert; exact Hlen|].
  intros i. rewrite touch_at_insert, seen_at_insert by exact Hk. auto.
Qed.

(** **** The touch records of a report *)

Lemma slot_of_finger t i :
  in_slots t ->
  (i =? Z.to_nat (finger_id t - 1))%nat = true <-> finger_id t - 1 = Z.of_nat i.
Proof. unfold in_slots. intros H. rewrite Nat.eqb_eq. lia. Qed.

Lemma apply_touches_slots fd raw :
  length (slots fd) = 5%nat -> touches_in_slots raw ->
  exists fd1 ev1,
    apply_touches fd raw = Done (fd1, ev1)
    /\ length (slots fd1) = 5%nat
    /\ forall i,
         (~ addressed raw i ->
          touch_at fd1 i = touch_at fd i /\ seen_at fd1 i = seen_at fd i)
         /\ (addressed raw i -> seen_at fd1 i = true)
         /\ (touch_at fd i = true -> touch_at fd1 i = false -> lifted raw i).
Proof.
  intros Hlen [Hin0 Hin1]. unfold apply_touches, addressed, lifted.
  destruct (Z.eqb_spec (finger_count raw) 0) as [Hc|Hc]; cbn [negb].
  { exists fd, []. split; [reflexivity|]. split; [exact Hlen|].
    intros i. split; [auto|]. split; [tauto|]. congruence. }
  specialize (Hin0 Hc). specialize (Hin1 Hc).
  destruct (wtp_touch_event_slots fd _ Hlen Hin0) as (fda & eva & -> & Hlena & Ha).
  cbn [bind].
  destruct (second_touch (negb (end_of_frame raw =? 0)) (finger_count raw)) eqn:E2.
  - specialize (Hin1 eq_refl).
    destruct (wtp_touch_event_slots fda _ Hlena Hin1)
      as (fdb & evb & -> & Hlenb & Hb).
    cbn [bind]. eexists _, _. split; [reflexivity|]. split; [exact Hlenb|].
    intros i. destruct (Ha i) as [Hta Hsa], (Hb i) as [Htb Hsb].
    pose proof (slot_of_finger _ i Hin0) as S0.
    pose proof (slot_of_finger _ i Hin1) as S1.
    rewrite Htb, Hsb, Hta, Hsa.
    destruct (i =? Z.to_nat (finger_id (fingers_1 raw) - 1))%nat;
      destruct (i =? Z.to_nat (finger_id (fingers_0 raw) - 1))%nat.
    all: split; [intros Hna; try (exfalso; apply Hna; tauto); auto|].
    all: split; [reflexivity || (intros [_ [H|[_ H]]]; [apply S0 in H|apply S1 in H]; discriminate)|].
    all: intros Hact Hoff; try congruence.
    all: split; [exact Hc|].
    all: try (right; split; [reflexivity|]; split; [tauto|];
              apply negb_false_iff, Z.eqb_eq in Hoff; exact Hoff).
    left. split; [tauto|]. apply negb_false_iff, Z.eqb_eq in Hoff. exact Hoff.
  - eexists _, _. split; [reflexivity|]. split; [exact Hlena|].
    intros i. destruct (Ha i) as [Hta Hsa].
    pose proof (slot_of_finger _ i Hin0) as S0.
    rewrite Hta, Hsa.
    destruct (i =? Z.to_nat (finger_id (fingers_0 raw) - 1))%nat.
    + split; [intros Hna; exfalso; apply Hna; tauto|].
      split; [reflexivity|]. intros _ Hoff. split; [exact Hc|].
      left. split; [tauto|]. apply negb_false_iff, Z.eqb_eq in Hoff. exact Hoff.
    + split; [auto|]. split; [|congruence].
      intros [_ [H|[H _]]]; [apply S0 in H|]; discriminate.
Qed.

(** **** The frame boundary *)

Lemma flush_frame_five s0 s1 s2 s3 s4 :
  flush_frame [s0; s1; s2; s3; s4]
  = ([flushed s0; flushed s1; flushed s2; flushed s3; flushed s4],
     stale_events 0 s0 ++ stale_events 1 s1 ++ stale_events 2 s2
     ++ stale_events 3 s3 ++ stale_events 4 s4).
Proof.
  unfold flush_frame, ARRAY_SIZE_slots, flushed, stale_events.
  change (Z.to_nat 5) with 5%nat. cbn [seq fold_left].
  unfold flush_slot. cbn [lookup list_lookup].
  destruct (stale s0); cbn [insert list_insert lookup list_lookup];
  destruct (stale s1); cbn [insert list_insert lookup list_lookup];
  destruct (stale s2); cbn [insert list_insert lookup list_lookup];
  destruct (stale s3); cbn [insert list_insert lookup list_lookup];
  destruct (stale s4); cbn [insert list_insert lookup list_lookup app];
  reflexivity.
Qed.

Lemma flush_frame_slot sl i s cur count :
  length sl = 5%nat -> sl !! i = Some s ->
  fst (flush_frame sl) !! i = Some (flushed s)
  /\ slot_events cur (Z.of_nat i) (snd (flush_frame sl) ++ frame_summary count)
     = if stale s then [input_mt_report_slot_state false] else [].
Proof.
  intros Hlen Hs.
  destruct sl as [|s0 [|s1 [|s2 [|s3 [|s4 [|]]]]]]; try discriminate.
  rewrite flush_frame_five. cbn [fst snd]. unfold stale_events, frame_summary.
  destruct i as [|[|[|[|[|]]]]]; try discriminate;
    cbn [lookup list_lookup] in Hs; injection Hs as <-;
    (split; [reflexivity|]);
    destruct (stale s0), (stale s1), (stale s2), (stale s3), (stale s4);
    reflexivity.
Qed.

Lemma frame_boundary_iff raw :
  frame_boundary raw = true <-> end_of_frame raw <> 0 \/ finger_count raw <= 2.
Proof.
  unfold frame_boundary. rewrite orb_true_iff, negb_true_iff, Z.eqb_neq, Z.leb_le.
  tauto.
Qed.

Lemma slot_of_finger_eqb t i :
  in_slots t ->
  (i =? Z.to_nat (finger_id t - 1))%nat = (finger_id t - 1 =? Z.of_nat i).
Proof.
  unfold in_slots. intros H.
  destruct (Nat.eqb_spec i (Z.to_nat (finger_id t - 1))),
    (Z.eqb_spec (finger_id t - 1) (Z.of_nat i)); try reflexivity; lia.
Qed.

(** The calls the touch records of a report make, and what reaches a
    slot that they take out of contact. *)
Lemma apply_touches_events fd raw fd1 ev1 :
  length (slots fd) = 5%nat -> touches_in_slots raw ->
  apply_touches fd raw = Done (fd1, ev1) ->
  ev1 = flat_map WtpRun.touch_events (WtpRun.records raw)
  /\ forall i cur,
       touch_at fd i = true -> touch_at fd1 i = false ->
       last (slot_events cur (Z.of_nat i) ev1)
       = Some (input_mt_report_slot_state false).
Proof.
  intros Hlen [Hin0 Hin1]. unfold apply_touches, WtpRun.records.
  destruct (Z.eqb_spec (finger_count raw) 0) as [Hc|Hc]; cbn [negb].
  { intros H. injection H as <- <-. split; [reflexivity|]. congruence. }
  specialize (Hin0 Hc). specialize (Hin1 Hc).
  assert (Hk0 : (Z.to_nat (finger_id (fingers_0 raw) - 1) < length (slots fd))%nat).
  { unfold in_slots, ARRAY_SIZE_slots in Hin0. lia. }
  rewrite wtp_touch_event_in by exact Hin0. cbn [bind].
  destruct (second_touch (negb (end_of_frame raw =? 0)) (finger_count raw)) eqn:E2.
  - specialize (Hin1 eq_refl).
    rewrite wtp_touch_event_in by exact Hin1. cbn [bind].
    intros H. injection H as <- <-.
    split; [cbn [flat_map]; rewrite app_nil_r; reflexivity|].
    intros i cur Hon Hoff.
    rewrite touch_at_insert in Hoff
      by (cbn [slots set_slots]; rewrite length_insert;
          unfold in_slots, ARRAY_SIZE_slots in Hin1; lia).
    rewrite touch_at_insert in Hoff by exact Hk0.
    rewrite (slot_of_finger_eqb _ i Hin0), (slot_of_finger_eqb _ i Hin1) in Hoff.
    cbn [touch_state] in Hoff.
    destruct (negb (contact_status (fingers_0 raw) =? 0)),
      (negb (contact_status (fingers_1 raw) =? 0));
      cbn [app slot_events is_slot_ev andb];
      destruct (finger_id (fingers_1 raw) - 1 =? Z.of_nat i),
        (finger_id (fingers_0 raw) - 1 =? Z.of_nat i);
      cbn [app slot_events is_slot_ev andb last];
      congruence.
  - intros H. injection H as <- <-.
    split; [cbn [flat_map]; rewrite app_nil_r; reflexivity|].
    intros i cur Hon Hoff.
    rewrite touch_at_insert in Hoff by exact Hk0.
    rewrite (slot_of_finger_eqb _ i Hin0) in Hoff.
    cbn [touch_state] in Hoff.
    destruct (negb (contact_status (fingers_0 raw) =? 0));
      cbn [app slot_events is_slot_ev andb];
      destruct (finger_id (fingers_0 raw) - 1 =? Z.of_nat i);
      cbn [app slot_events is_slot_ev andb last];
      congruence.
Qed.

(** C2: (as amended) With every finger identifier in range, a report
    first applies its own touch records, making for each the calls of
    [wtp_touch_event]: they write the slots they name and no other, so a
    slot in contact goes out of contact only if one of them reports it
    lifted, and the last call that reaches it is then "no contact".  With
    [end_of_frame] clear and three or more fingers that is all the report
    does, no slot is flushed.  With [end_of_frame] set or at most two
    fingers the frame is closed: each slot that is then still in contact
    but was not seen in the frame gets "no contact" and loses its
    contact, every other slot keeps its state, and every
    [seen_in_this_frame] flag is cleared. *)
Theorem frame_boundary_retires_unseen fd raw :
  length (slots fd) = 5%nat -> touches_in_slots raw ->
  exists fd1 ev1,
    apply_touches fd raw = Done (fd1, ev1)
    /\ ev1 = flat_map WtpRun.touch_events (WtpRun.records raw)
    /\ (forall i,
          (~ addressed raw i ->
           touch_at fd1 i = touch_at fd i /\ seen_at fd1 i = seen_at fd i)
          /\ (addressed raw i -> seen_at fd1 i = true)
          /\ (touch_at fd i = true -> touch_at fd1 i = false ->
              lifted raw i
              /\ forall cur,
                   last (slot_events cur (Z.of_nat i) ev1)
                   = Some (input_mt_report_slot_state false)))
    /\ (end_of_frame raw = 0 -> 3 <= finger_count raw ->
        wtp_touchpad_raw_xy_event true fd raw = Done (1, fd1, ev1))
    /\ (end_of_frame raw <> 0 \/ finger_count raw <= 2 ->
        exists fd2 ev2,
          wtp_touchpad_raw_xy_event true fd raw
          = Done (1, fd2, ev1 ++ ev2 ++ frame_summary (finger_count raw))
          /\ forall i cur, (i < 5)%nat ->
               touch_at fd2 i = touch_at fd1 i && seen_at fd1 i
               /\ seen_at fd2 i = false
               /\ slot_events cur (Z.of_nat i)
                    (ev2 ++ frame_summary (finger_count raw))
                  = if touch_at fd1 i && negb (seen_at fd1 i)
                    then [input_mt_report_slot_state false] else []).
Proof.
  intros Hlen Hin.
  destruct (apply_touches_slots fd raw Hlen Hin) as (fd1 & ev1 & Happ & Hlen1 & H1).
  destruct (apply_touches_events fd raw fd1 ev1 Hlen Hin Happ) as [Hev1 Hoff].
  exists fd1, ev1. split; [exact Happ|]. split; [exact Hev1|]. split.
  { intros i. destruct (H1 i) as (Ha & Hb & Hc).
    split; [exact Ha|]. split; [exact Hb|].
    intros Hon Hoff'. split; [exact (Hc Hon Hoff')|].
    intros cur. exact (Hoff i cur Hon Hoff'). }
  unfold wtp_touchpad_raw_xy_event. cbn [negb]. rewrite Happ. cbn [bind]. split.
  - intros Heof Hc.
    destruct (frame_boundary raw) eqn:Eb; [|reflexivity].
    apply frame_boundary_iff in Eb. lia.
  - intros Hb. apply frame_boundary_iff in Hb. rewrite Hb.
    destruct (flush_frame (slots fd1)) as [sl ev2] eqn:Ef.
    exists (set_slots fd1 sl), ev2. split; [reflexivity|].
    intros i cur Hi.
    destruct (slots fd1 !! i) as [s|] eqn:Es.
    2:{ apply lookup_ge_None in Es. lia. }
    destruct (flush_frame_slot (slots fd1) i s cur (finger_count raw) Hlen1 Es)
      as [Hl Hev].
    rewrite Ef in Hl, Hev. cbn [fst snd] in Hl, Hev.
    unfold touch_at, seen_at. cbn [slots set_slots]. rewrite Hl, Es, Hev.
    unfold flushed, stale. cbn [touch_state seen_in_this_frame].
    destruct (touch_state s), (seen_in_this_frame s); auto.
Qed.

(** A pad with finger 1 down gets a frame made of finger 2 alone: the
    frame is closed, slot 0 was not seen in it and is retired with "no
    contact", slot 1 is in contact. *)
Lemma frame_boundary_retires_unseen_witness :
  touch_at touching 0 = true
  /\ exists fd2 evs,
       wtp_touchpad_raw_xy_event true touching WtpRun.second_finger_alone
       = Done (1, fd2, evs)
       /\ touch_at fd2 0 = false
       /\ touch_at fd2 1 = true
       /\ seen_at fd2 1 = false
       /\ slot_events 0 0 evs = [input_mt_report_slot_state false].
Proof.
  split; [reflexivity|].
  destruct (frame_boundary_retires_unseen touching WtpRun.second_finger_alone)
    as (fd1 & ev1 & Happ & Hev1 & _ & _ & Hb).
  - reflexivity.
  - split; [intros _; unfold in_slots, ARRAY_SIZE_slots; cbn; lia|].
    intros _ H. vm_compute in H. discriminate.
  - destruct Hb as (fd2 & ev2 & Hrun & Hslots); [left; cbn; lia|].
    vm_compute in Happ. injection Happ as <- <-.
    eexists fd2, _. split; [exact Hrun|].
    destruct (Hslots 0%nat 1 ltac:(lia)) as (Ht0 & _ & Hs0).
    destruct (Hslots 1%nat 1 ltac:(lia)) as (Ht1 & Hn1 & _).
    split; [exact Ht0|]. split; [exact Ht1|]. split; [exact Hn1|].
    exact Hs0.
Defined.

(** C2: (as stated) A slot is in contact; a report with [end_of_frame]
    clear and a finger count of three carries a record for it with its
    contact status cleared: the slot gets "no contact" and is out of
    contact afterwards, though the frame is not over. *)
Lemma lift_off_inside_frame :
  wtp_touchpad_raw_xy_event true wtp_probe one_finger_down
  = Done (1, touching,
          [input_mt_slot 0; input_mt_report_slot_state true;
           input_event EV_ABS ABS_MT_POSITION_X 100;
           input_event EV_ABS ABS_MT_POSITION_Y 200;
           input_event EV_ABS ABS_MT_PRESSURE 9]
          ++ frame_summary 1)
  /\ touch_at touching 0 = true
  /\ end_of_frame lift_first_finger = 0
  /\ finger_count lift_first_finger = 3
  /\ exists fd evs,
       wtp_touchpad_raw_xy_event true touching lift_first_finger
       = Done (1, fd, evs)
       /\ touch_at fd 0 = false
       /\ slot_events 0 0 evs = [input_mt_report_slot_state false].
Proof.
  repeat split. eexists _, _. repeat split.
Qed.

(** C5: Nothing keeps the slot index inside [fd->slots]: a first
    touch record with finger identifier 0 goes to index [-1], one with
    identifier 6 to index 5, whatever the stack held. *)
Theorem finger_id_indexes_outside_slots stack :
  hidpp_touchpad_raw_xy_event true stack wtp_probe
    (dual_touch (touch 0 0x40 0x00) (touch 0 0 0x01))
  = OutOfBounds (-1)
  /\ hidpp_touchpad_raw_xy_event true stack wtp_probe
       (dual_touch (touch 0 0x40 0x60) (touch 0 0 0x01))
     = OutOfBounds 5.
Proof. split; reflexivity. Qed.

(** **** The wire codec *)

Lemma land_one_bit a : Z.land a 1 = Z.b2z (Z.testbit a 0).
Proof.
  change 1 with (Z.ones 1). rewrite Z.land_ones by lia.
  rewrite Z.bit0_mod. reflexivity.
Qed.

(** C8: (as amended) Decoding takes end-of-frame from bit 0 and the
    spurious-data flag from bit 1 of the first sub-record's id byte, the
    finger count from the low nibble of the second sub-record's id byte,
    and the finger identifier of each sub-record it decodes from the high
    four bits of that sub-record's id byte. *)
Theorem dual_touch_id_bytes stack report :
  let raw := decode_raw_xy stack report in
  let id0 := id (touches_0 report) in
  let id1 := id (touches_1 report) in
  end_of_frame raw = Z.b2z (Z.testbit id0 0)
  /\ spurious_flag raw = Z.b2z (Z.testbit id0 1)
  /\ finger_count raw = id1 mod 16
  /\ (forall t k, 0 <= k ->
        Z.testbit (finger_id (hidpp_touchpad_touch_event t)) k
        = Z.testbit (id t) (k + 4))
  /\ (finger_count raw <> 0 -> finger_id (fingers_0 raw) = id0 / 16)
  /\ (finger_count raw <> 0 ->
      second_touch (negb (end_of_frame raw =? 0)) (finger_count raw) = true ->
      finger_id (fingers_1 raw) = id1 / 16).
Proof.
  intros raw id0 id1. subst raw. unfold decode_raw_xy.
  cbn [end_of_frame spurious_flag finger_count fingers_0 fingers_1].
  split; [apply land_one_bit|].
  split; [rewrite land_one_bit, Z.shiftr_spec by lia; reflexivity|].
  split; [change 15 with (Z.ones 4); rewrite Z.land_ones by lia; reflexivity|].
  split; [intros t k Hk; cbn [hidpp_touchpad_touch_event finger_id];
          apply Z.shiftr_spec; exact Hk|].
  split.
  - intros Hc. apply Z.eqb_neq in Hc. rewrite Hc. cbn [negb finger_id
      hidpp_touchpad_touch_event]. apply Z.shiftr_div_pow2. lia.
  - intros Hc H2. apply Z.eqb_neq in Hc. rewrite Hc, H2. cbn [negb andb finger_id
      hidpp_touchpad_touch_event]. apply Z.shiftr_div_pow2. lia.
Qed.

Lemma dual_touch_id_bytes_witness :
  finger_id (fingers_0 (decode_raw_xy zero_raw_xy
                          (dual_touch (touch 0 0x40 0x21) (touch 0 0 0x01))))
  = 2.
Proof.
  refine (proj1 (proj2 (proj2 (proj2 (proj2
            (dual_touch_id_bytes zero_raw_xy
               (dual_touch (touch 0 0x40 0x21) (touch 0 0 0x01))))))) _).
  vm_compute. discriminate.
Defined.

(** C8: (as stated) An id byte of [0x21] is decoded as finger 2; its
    low four bits say 1. *)
Lemma finger_id_is_not_low_nibble :
  let report := dual_touch (touch 0 0x40 0x21) (touch 0 0 0x01) in
  finger_id (fingers_0 (decode_raw_xy zero_raw_xy report))
  <> Z.land (id (touches_0 report)) 0x0f.
Proof. vm_compute. discriminate. Qed.

(** **** Which records a report carries *)

Lemma second_touch_iff (eof : bool) count :
  second_touch eof count = true
  <-> (eof = false /\ 2 <= count) \/ (eof = true /\ count = 4).
Proof.
  unfold second_touch.
  rewrite orb_true_iff, !andb_true_iff, negb_true_iff, Z.eqb_eq, Z.geb_le.
  tauto.
Qed.

Lemma decode_fields stack report :
  let raw := decode_raw_xy stack report in
  end_of_frame raw = Z.land (id (touches_0 report)) 0x01
  /\ finger_count raw = Z.land (id (touches_1 report)) 0x0f
  /\ fingers_0 raw
     = (if negb (finger_count raw =? 0)
        then hidpp_touchpad_touch_event (touches_0 report)
        else fingers_0 stack)
  /\ fingers_1 raw
     = (if negb (finger_count raw =? 0)
           && second_touch (negb (end_of_frame raw =? 0)) (finger_count raw)
        then hidpp_touchpad_touch_event (touches_1 report)
        else fingers_1 stack).
Proof. repeat split. Qed.

(** C10: The second sub-record of a report is decoded and applied
    exactly when [end_of_frame] is clear and the finger count is at least
    two, or [end_of_frame] is set and the count is four.  Otherwise the
    report is handled as if the second sub-record held anything else
    (only the count in its id byte matters); in particular, with
    [end_of_frame] set and a count of 2 or 3 the touch records applied
    are the first one alone, which writes no slot but its own. *)
Theorem second_touch_when stack stack' fd report t1' :
  let raw := decode_raw_xy stack report in
  let eof := negb (end_of_frame raw =? 0) in
  let count := finger_count raw in
  (second_touch eof count = true
   <-> (eof = false /\ 2 <= count) \/ (eof = true /\ count = 4))
  /\ (count <> 0 -> second_touch eof count = true ->
      fingers_1 raw = hidpp_touchpad_touch_event (touches_1 report)
      /\ apply_touches fd raw
         = bind (wtp_touch_event fd
                   (hidpp_touchpad_touch_event (touches_0 report)))
             (fun '(fd1, ev1) =>
                bind (wtp_touch_event fd1
                        (hidpp_touchpad_touch_event (touches_1 report)))
                  (fun '(fd2, ev2) => Done (fd2, ev1 ++ ev2))))
  /\ (second_touch eof count = false ->
      Z.land (id t1') 0x0f = Z.land (id (touches_1 report)) 0x0f ->
      hidpp_touchpad_raw_xy_event true stack' fd
        (dual_touch (touches_0 report) t1')
      = hidpp_touchpad_raw_xy_event true stack fd report)
  /\ (eof = true -> count = 2 \/ count = 3 ->
      apply_touches fd raw
      = wtp_touch_event fd (hidpp_touchpad_touch_event (touches_0 report))
      /\ forall fd1 ev1 i,
           apply_touches fd raw = Done (fd1, ev1) ->
           Z.of_nat i <> finger_id (fingers_0 raw) - 1 ->
           slots fd1 !! i = slots fd !! i).
Proof.
  intros raw eof count. unfold hidpp_touchpad_raw_xy_event. fold raw.
  destruct (decode_fields stack report) as (Heof & Hcnt & Hf0 & Hf1).
  destruct (decode_fields stack' (dual_touch (touches_0 report) t1'))
    as (Heof' & Hcnt' & Hf0' & _).
  cbn [touches_0 touches_1 dual_touch] in Heof', Hcnt', Hf0'.
  fold raw in Heof, Hcnt, Hf0, Hf1.
  set (raw' := decode_raw_xy stack' (dual_touch (touches_0 report) t1')) in *.
  clearbody raw raw'. subst eof count.
  split; [apply second_touch_iff|].
  assert (Hfirst : finger_count raw <> 0 ->
            second_touch (negb (end_of_frame raw =? 0)) (finger_count raw) = false ->
            apply_touches fd raw
            = wtp_touch_event fd (hidpp_touchpad_touch_event (touches_0 report))).
  { intros Hc H2. unfold apply_touches. rewrite H2, Hf0.
    apply Z.eqb_neq in Hc. rewrite Hc. cbn [negb].
    destruct (wtp_touch_event fd _) as [[fd1 ev1]|]; reflexivity. }
  split; [|split].
  - intros Hc H2. apply Z.eqb_neq in Hc.
    assert (E1 : fingers_1 raw = hidpp_touchpad_touch_event (touches_1 report)).
    { rewrite Hf1, H2, Hc. reflexivity. }
    split; [exact E1|].
    unfold apply_touches. rewrite H2, Hf0, E1, Hc. reflexivity.
  - intros H2 Hid.
    assert (Ec : finger_count raw' = finger_count raw) by congruence.
    assert (Ee : end_of_frame raw' = end_of_frame raw) by congruence.
    unfold wtp_touchpad_raw_xy_event, apply_touches, frame_boundary.
    rewrite Ec, Ee, H2, Hf0, Hf0', Ec.
    destruct (finger_count raw =? 0); reflexivity.
  - intros He Hc.
    assert (H2 : second_touch (negb (end_of_frame raw =? 0)) (finger_count raw)
                 = false).
    { rewrite He. unfold second_touch. cbn [andb negb orb].
      rewrite orb_false_r. apply Z.eqb_neq. lia. }
    assert (Hc0 : finger_count raw <> 0) by lia.
    split; [apply Hfirst; assumption|].
    intros fd1 ev1 i Happ Hi. rewrite (Hfirst Hc0 H2) in Happ.
    rewrite Hf0 in Hi. apply Z.eqb_neq in Hc0. rewrite Hc0 in Hi. cbn [negb] in Hi.
    unfold wtp_touch_event in Happ.
    destruct (_ && _) eqn:Er in Happ; [|discriminate].
    injection Happ as <- _. cbn [slots set_slots].
    apply list_lookup_insert_ne.
    apply andb_true_iff in Er. destruct Er as [Er _]. apply Z.leb_le in Er.
    cbn [finger_id hidpp_touchpad_touch_event] in Er, Hi. lia.
Qed.

Lemma second_touch_when_witness :
  hidpp_touchpad_raw_xy_event true zero_raw_xy wtp_probe
    (dual_touch (touch 0 0x40 0x11) (touch 0x15 0x47 0x23))
  = hidpp_touchpad_raw_xy_event true zero_raw_xy wtp_probe
      (dual_touch (touch 0 0x40 0x11) (touch 0 0 0x03)).
Proof.
  refine (proj1 (proj2 (proj2
            (second_touch_when zero_raw_xy zero_raw_xy wtp_probe
               (dual_touch (touch 0 0x40 0x11) (touch 0 0 0x03))
               (touch 0x15 0x47 0x23)))) _ _); reflexivity.
Defined.

End WtpFacts.

(** ** The wire codec, both ways *)
Module WireFacts.
Import Tm Wire.

Lemma byte_at_range bytes i : 0 <= byte_at bytes i < 256.
Proof.
  unfold byte_at. pose proof (Byte.to_N_bounded (nth i bytes x00)). lia.
Qed.

Lemma byte_of_value z : Z.of_N (Byte.to_N (byte_of z)) = z mod 256.
Proof.
  unfold byte_of. pose proof (Z.mod_pos_bound z 256 ltac:(lia)) as Hr.
  destruct (Byte.of_N (Z.to_N (z mod 256))) as [b|] eqn:E.
  - apply Byte.to_of_N in E. rewrite E. lia.
  - apply Byte.of_N_None_iff in E. lia.
Qed.

(** Packing a field above another is adding it. *)
Lemma lor_shiftl_low a b n :
  0 <= n -> 0 <= b < 2 ^ n -> Z.lor (Z.shiftl a n) b = a * 2 ^ n + b.
Proof.
  intros Hn Hb. rewrite <- Z.shiftl_mul_pow2 by exact Hn.
  rewrite <- Z.lxor_lor, <- Z.add_nocarry_lxor; try reflexivity.
  all: apply Z.bits_inj'; intros k Hk; rewrite Z.land_spec, Z.bits_0.
  all: destruct (Z.lt_ge_cases k n) as [Hlt|Hge].
  all: try (rewrite Z.shiftl_spec_low by exact Hlt; reflexivity).
  all: replace (Z.testbit b k) with false; [apply andb_false_r|].
  all: symmetry; destruct (Z.eq_dec b 0) as [->|Hnz]; [apply Z.bits_0|].
  all: apply Z.bits_above_log2; [lia|].
  all: assert (Z.log2 b < n) by (apply Z.log2_lt_pow2; lia); lia.
Qed.

Lemma land_ones_mod a n : 0 <= n -> Z.land a (Z.ones n) = a mod 2 ^ n.
Proof. apply Z.land_ones. Qed.

Lemma land_15 a : Z.land a 0xf = a mod 16.
Proof. change 15 with (Z.ones 4). apply Z.land_ones. lia. Qed.

Lemma shiftr_4 a : Z.shiftr a 4 = a / 16.
Proof. apply Z.shiftr_div_pow2. lia. Qed.

Lemma shiftr_8 a : Z.shiftr a 8 = a / 256.
Proof. apply Z.shiftr_div_pow2. lia. Qed.

Lemma lor_high_nibble a b :
  0 <= a < 16 -> Z.lor a (Z.shiftl b 4) = b * 16 + a.
Proof. intros H. rewrite Z.lor_comm. apply (lor_shiftl_low b a 4); lia. Qed.

(** **** Relative motion *)

(** [(value << 20) >> 20] reads a twelve-bit field as two's complement. *)
Lemma sign_extend12_spec v :
  0 <= v < 4096 ->
  sign_extend12 v = if v <? 2048 then v else v - 4096.
Proof.
  intros Hv. unfold sign_extend12, int32. change (4 * 8 - 12) with 20.
  rewrite Z.shiftl_mul_pow2, Z.shiftr_div_pow2 by lia.
  change (2 ^ 20) with 1048576.
  destruct (Z.ltb_spec v 2048); Z.div_mod_to_equations; lia.
Qed.

(** X1: Relative motion survives the wire: once the hardware is started,
    a mouse report written for the motion [dx], [dy], each a twelve-bit
    two's complement number, is handled by sending exactly that motion,
    then the three button states and the frame marker, whatever the
    buttons say; it returns 1. *)
Theorem rel_motion_round_trip fd btn dx dy :
  hid_hw_started fd = true ->
  -2048 <= dx < 2048 -> -2048 <= dy < 2048 ->
  tm_raw_event fd (mouse_report btn dx dy)
  = (1, fst (emit_buttons fd (mouse_report btn dx dy)),
     [input_report_rel REL_X dx; input_report_rel REL_Y dy]
     ++ snd (emit_buttons fd (mouse_report btn dx dy)) ++ [input_sync]).
Proof.
  intros Hw Hx Hy. rewrite TmFacts.tm_raw_event_eq, Hw. cbn [negb].
  replace (is_touch_frame fd (mouse_report btn dx dy)) with false
    by (unfold is_touch_frame; rewrite Hw; reflexivity).
  cbn zeta. cbn [fst snd].
  change (report_id (mouse_report btn dx dy) =? 2) with true. cbn iota.
  f_equal. f_equal.
  unfold rel_motion, mouse_report, rap_reg_address, rap_params.
  cbn [drop]. unfold byte_at. cbn [nth].
  rewrite !byte_of_value, !land_15, !shiftr_4, !shiftr_8.
  assert (Hb4 : Z.lor ((dx / 256) mod 16) (Z.shiftl (dy mod 16) 4) mod 256
                = (dy mod 16) * 16 + (dx / 256) mod 16).
  { rewrite lor_high_nibble by (apply Z.mod_pos_bound; lia).
    apply Z.mod_small. Z.div_mod_to_equations. lia. }
  rewrite Hb4.
  assert (Hvx : Z.lor (dx mod 256)
                  (Z.shiftl (((dy mod 16) * 16 + (dx / 256) mod 16) mod 16) 8)
                = dx mod 4096).
  { rewrite Z.lor_comm, lor_shiftl_low by (try apply Z.mod_pos_bound; lia).
    Z.div_mod_to_equations. lia. }
  assert (Hvy : Z.lor (Z.shiftl ((dy / 16) mod 256) 4)
                  (((dy mod 16) * 16 + (dx / 256) mod 16) / 16)
                = dy mod 4096).
  { rewrite lor_shiftl_low by (Z.div_mod_to_equations; lia).
    Z.div_mod_to_equations. lia. }
  rewrite Hvx, Hvy.
  rewrite !sign_extend12_spec by (apply Z.mod_pos_bound; lia).
  f_equal; [|f_equal]; f_equal.
  - destruct (Z.ltb_spec (dx mod 4096) 2048); Z.div_mod_to_equations; lia.
  - destruct (Z.ltb_spec (dy mod 4096) 2048); Z.div_mod_to_equations; lia.
Qed.

Lemma rel_motion_round_trip_witness :
  tm_raw_event sample_fd (mouse_report 1 (-3) 2047)
  = (1, fst (emit_buttons sample_fd (mouse_report 1 (-3) 2047)),
     [input_report_rel REL_X (-3); input_report_rel REL_Y 2047]
     ++ snd (emit_buttons sample_fd (mouse_report 1 (-3) 2047)) ++ [input_sync]).
Proof. apply rel_motion_round_trip; [reflexivity | lia | lia]. Defined.

Lemma is_sentinel_iff bytes i :
  is_sentinel bytes i = true
  <-> rec_byte bytes i 0 = 0xff /\ rec_byte bytes i 1 = 0xff
      /\ rec_byte bytes i 2 = 0xff /\ rec_byte bytes i 3 = 0xff.
Proof. apply TmFacts.is_sentinel_bytes. Qed.

(** **** Touch records *)

Lemma rec_byte_range bytes i k : 0 <= rec_byte bytes i k < 256.
Proof. apply byte_at_range. Qed.

Lemma raw_x_value bytes i :
  raw_x bytes i = rec_byte bytes i 0 * 16 + rec_byte bytes i 2 mod 16.
Proof.
  unfold raw_x. rewrite land_15.
  apply (lor_shiftl_low _ _ 4); [lia|]. apply Z.mod_pos_bound. lia.
Qed.

Lemma raw_y_value bytes i :
  raw_y bytes i = rec_byte bytes i 1 * 16 + rec_byte bytes i 2 / 16.
Proof.
  unfold raw_y. rewrite shiftr_4.
  pose proof (rec_byte_range bytes i 2).
  apply (lor_shiftl_low _ _ 4); [lia|]. Z.div_mod_to_equations. lia.
Qed.

Lemma pressure_value bytes i :
  pressure bytes i
  = clamp_pressure ((rec_byte bytes i 3 / 16 + 1)
                    * (rec_byte bytes i 3 mod 16 + 1) * 3).
Proof.
  unfold pressure, clamp_pressure, MIN, MAX. rewrite land_15, shiftr_4.
  repeat match goal with
    | |- context [?a >? ?b] => destruct (Z.gtb_spec a b)
    | |- context [?a <? ?b] => destruct (Z.ltb_spec a b)
    end; lia.
Qed.

Lemma raw_x_range bytes i : 0 <= raw_x bytes i <= 4095.
Proof.
  rewrite raw_x_value.
  pose proof (rec_byte_range bytes i 0). pose proof (rec_byte_range bytes i 2).
  Z.div_mod_to_equations. lia.
Qed.

Lemma raw_y_range bytes i : 0 <= raw_y bytes i <= 4095.
Proof.
  rewrite raw_y_value.
  pose proof (rec_byte_range bytes i 1). pose proof (rec_byte_range bytes i 2).
  Z.div_mod_to_equations. lia.
Qed.

Lemma pressure_range bytes i : 30 <= pressure bytes i <= 255.
Proof. rewrite pressure_value. unfold clamp_pressure. lia. Qed.

(** X2: Whatever bytes a touch record holds, the position read from it
    lies in [0, 4095] on both axes and the pressure made up from its
    widths lies in [30, 255]. *)
Theorem touch_record_ranges bytes i :
  0 <= raw_x bytes i <= 4095 /\ 0 <= raw_y bytes i <= 4095
  /\ 30 <= pressure bytes i <= 255.
Proof.
  split; [apply raw_x_range|]. split; [apply raw_y_range|apply pressure_range].
Qed.

Lemma touch_records_byte recs i k :
  (k < 4)%nat ->
  nth (4 * i + k) (touch_records recs) x00
  = match nth_error recs i with
    | Some (x, y, wx, wy) => nth k (touch_record x y wx wy) x00
    | None => x00
    end.
Proof.
  intros Hk. revert i. induction recs as [|[[[x y] wx] wy] recs IH]; intros i.
  - cbn. destruct i, k; reflexivity.
  - destruct i as [|i].
    + cbn [nth_error Nat.mul Nat.add touch_records flat_map].
      destruct k as [|[|[|[|]]]]; try lia; reflexivity.
    + cbn [nth_error touch_records flat_map].
      replace (4 * S i + k)%nat with (4 + (4 * i + k))%nat by lia.
      change (nth (4 + (4 * i + k))
                (touch_record x y wx wy ++ touch_records recs) x00)
        with (nth (4 * i + k) (touch_records recs) x00).
      apply IH.
Qed.

Lemma touch_records_rec_byte recs i x y wx wy k :
  nth_error recs i = Some (x, y, wx, wy) -> (k < 4)%nat ->
  rec_byte (touch_records recs) (Z.of_nat i) (Z.of_nat k)
  = Z.of_N (Byte.to_N (nth k (touch_record x y wx wy) x00)).
Proof.
  intros Hi Hk. unfold rec_byte, byte_at.
  replace (Z.to_nat (4 * Z.of_nat i + Z.of_nat k)) with (4 * i + k)%nat by lia.
  rewrite touch_records_byte, Hi by exact Hk. reflexivity.
Qed.

(** X3: Touch records survive the wire, with one exception.  A frame
    written slot by slot from positions below 4096 and widths from 1 to
    16 is read back slot by slot as the same position, and the width
    product times 3 clamped to [30, 255] as pressure.  The record is
    taken for "no contact" exactly when it is the position (4095, 4095)
    with both widths 16: that contact cannot be reported. *)
Theorem touch_record_round_trip recs i x y wx wy :
  nth_error recs i = Some (x, y, wx, wy) ->
  0 <= x < 4096 -> 0 <= y < 4096 -> 1 <= wx <= 16 -> 1 <= wy <= 16 ->
  let bytes := touch_records recs in
  raw_x bytes (Z.of_nat i) = x
  /\ raw_y bytes (Z.of_nat i) = y
  /\ pressure bytes (Z.of_nat i) = clamp_pressure (wx * wy * 3)
  /\ (is_sentinel bytes (Z.of_nat i) = true
      <-> x = 4095 /\ y = 4095 /\ wx = 16 /\ wy = 16).
Proof.
  intros Hi Hx Hy Hwx Hwy bytes. subst bytes.
  pose proof (touch_records_rec_byte recs i x y wx wy 0 Hi ltac:(lia)) as B0.
  pose proof (touch_records_rec_byte recs i x y wx wy 1 Hi ltac:(lia)) as B1.
  pose proof (touch_records_rec_byte recs i x y wx wy 2 Hi ltac:(lia)) as B2.
  pose proof (touch_records_rec_byte recs i x y wx wy 3 Hi ltac:(lia)) as B3.
  change (Z.of_nat 0) with 0 in B0. change (Z.of_nat 1) with 1 in B1.
  change (Z.of_nat 2) with 2 in B2. change (Z.of_nat 3) with 3 in B3.
  cbn [touch_record nth] in B0, B1, B2, B3.
  rewrite byte_of_value in B0, B1, B2, B3.
  rewrite !land_15, !shiftr_4 in *.
  rewrite lor_high_nibble in B2 by (apply Z.mod_pos_bound; lia).
  rewrite (lor_shiftl_low (wx - 1) (wy - 1) 4) in B3 by lia.
  change (2 ^ 4) with 16 in B3.
  assert (E0 : rec_byte (touch_records recs) (Z.of_nat i) 0 = x / 16).
  { rewrite B0. apply Z.mod_small. Z.div_mod_to_equations. lia. }
  assert (E1 : rec_byte (touch_records recs) (Z.of_nat i) 1 = y / 16).
  { rewrite B1. apply Z.mod_small. Z.div_mod_to_equations. lia. }
  assert (E2 : rec_byte (touch_records recs) (Z.of_nat i) 2
               = y mod 16 * 16 + x mod 16).
  { rewrite B2. apply Z.mod_small. Z.div_mod_to_equations. lia. }
  assert (E3 : rec_byte (touch_records recs) (Z.of_nat i) 3
               = (wx - 1) * 16 + (wy - 1)).
  { rewrite B3. apply Z.mod_small. lia. }
  rewrite raw_x_value, raw_y_value, pressure_value, is_sentinel_iff.
  rewrite E0, E1, E2, E3.
  split; [Z.div_mod_to_equations; lia|].
  split; [Z.div_mod_to_equations; lia|].
  split.
  - f_equal. f_equal. f_equal; [f_equal|]; Z.div_mod_to_equations; lia.
  - split; intros H; Z.div_mod_to_equations; lia.
Qed.

Lemma touch_record_round_trip_witness :
  raw_x (touch_records [(10, 20, 1, 1); (4095, 7, 3, 4)]) 1 = 4095
  /\ raw_y (touch_records [(10, 20, 1, 1); (4095, 7, 3, 4)]) 1 = 7
  /\ pressure (touch_records [(10, 20, 1, 1); (4095, 7, 3, 4)]) 1 = 36.
Proof.
  destruct (touch_record_round_trip [(10, 20, 1, 1); (4095, 7, 3, 4)]
              1%nat 4095 7 3 4 eq_refl
              ltac:(lia) ltac:(lia) ltac:(lia) ltac:(lia))
    as (Hx & Hy & Hp & _).
  exact (conj Hx (conj Hy Hp)).
Defined.

End WireFacts.

(** ** More on the touch mice: what reports leave alone *)
Module TmMoreFacts.
Import Tm.

(** X4: Over any sequence of reports from probe, a button is free or
    held by a report kind that can speak about it: the mouse report (never
    on a device whose mouse-report buttons are ignored), the raw touch
    points feature for the left button only, feature 0x1b03 for the middle
    button only.  The array keeps its three entries. *)
Theorem button_depressor_domain info mt_idx idx_1b03 is_t620 reports i :
  (i < 3)%nat ->
  let fd := fst (tm_run (tm_probe info mt_idx idx_1b03 is_t620) reports) in
  let d := depressor (button_depressor fd) i in
  length (button_depressor fd) = 3%nat
  /\ (d = DEPRESSOR_NONE
      \/ (d = DEPRESSOR_MOUSE /\ is_t620 = false)
      \/ (d = DEPRESSOR_RAWPTS /\ i = idx_left)
      \/ (d = DEPRESSOR_1B03 /\ i = idx_middle)).
Proof.
  intros Hi.
  assert (Hgen : forall rs fd,
            ignore_mouse_report_buttons fd = is_t620 ->
            length (button_depressor fd) = 3%nat ->
            (let d := depressor (button_depressor fd) i in
             d = DEPRESSOR_NONE
             \/ (d = DEPRESSOR_MOUSE /\ is_t620 = false)
             \/ (d = DEPRESSOR_RAWPTS /\ i = idx_left)
             \/ (d = DEPRESSOR_1B03 /\ i = idx_middle)) ->
            let fd' := fst (tm_run fd rs) in
            let d := depressor (button_depressor fd') i in
            length (button_depressor fd') = 3%nat
            /\ (d = DEPRESSOR_NONE
                \/ (d = DEPRESSOR_MOUSE /\ is_t620 = false)
                \/ (d = DEPRESSOR_RAWPTS /\ i = idx_left)
                \/ (d = DEPRESSOR_1B03 /\ i = idx_middle))).
  { induction rs as [|r rs IH]; intros fd Hig Hlen Hd; [split; assumption|].
    cbn zeta. rewrite (proj1 (TmFacts.tm_run_cons fd r rs)). apply IH.
    - destruct (TmFacts.tm_after_config fd r) as (_ & _ & _ & -> & _). exact Hig.
    - rewrite ButtonFacts.tm_after_button_length. exact Hlen.
    - cbn zeta in *.
      destruct (Z.eq_dec (depressor (button_depressor (tm_after fd r)) i)
                         (depressor (button_depressor fd) i)) as [->|Hne];
        [exact Hd|].
      destruct (ButtonFacts.button_changed fd r i Hlen Hi Hne)
        as (k & o & Hobs & ->).
      destruct (ButtonFacts.arbitrate_cases k o (depressor (button_depressor fd) i))
        as [E|[(_ & _ & ->)|(_ & _ & ->)]]; [congruence | | left; reflexivity].
      right. unfold observation in Hobs.
      destruct (hid_hw_started fd); cbn [negb] in Hobs; [|discriminate].
      rewrite Hig in Hobs.
      match type of Hobs with (if ?c then _ else _) = _ =>
        destruct c eqn:E1 end.
      { left. rewrite !andb_true_iff, negb_true_iff, Z.eqb_eq in E1. tauto. }
      match type of Hobs with (if ?c then _ else _) = _ =>
        destruct c eqn:E2 end.
      { right. right. rewrite !andb_true_iff, Z.eqb_eq, Nat.eqb_eq in E2. tauto. }
      match type of Hobs with (if ?c then _ else _) = _ =>
        destruct c eqn:E3 end; [|discriminate].
      right. left. rewrite !andb_true_iff, Z.eqb_eq, Nat.eqb_eq in E3. tauto. }
  intros fd d. apply (Hgen reports); [reflexivity | reflexivity |].
  left. destruct i as [|[|[|]]]; try lia; reflexivity.
Qed.

Lemma button_depressor_domain_witness :
  depressor
    (button_depressor
       (fst (tm_run (tm_probe sample_info 5 7 true)
               [mouse_left_down; rawpts_left_down]))) 0
  <> DEPRESSOR_MOUSE.
Proof.
  destruct (button_depressor_domain sample_info 5 7 true
              [mouse_left_down; rawpts_left_down] 0%nat ltac:(lia))
    as [_ [H|[[_ H]|[[H _]|[H _]]]]]; try rewrite H; try discriminate.
Defined.

(** X5: A report that is not a frame of raw touch points (another
    report id, another feature index, another sub-event, or any report
    before the hardware is started) leaves the contact tracker alone: the
    id counter and the mask of used slots are unchanged, no event reaches
    any slot, and every slot of the sink keeps its tracking id. *)
Theorem other_reports_keep_contacts fd report s i :
  (hid_hw_started fd = false
   \/ report_id report <> 0x11
   \/ rap_sub_id report <> mt_feature_index fd
   \/ Z.shiftr (rap_reg_address report) 4 <> 0) ->
  next_tracking_id (tm_after fd report) = next_tracking_id fd
  /\ prev_slots_used (tm_after fd report) = prev_slots_used fd
  /\ slot_events (cur_slot s) i (tm_events fd report) = []
  /\ tracking (sink_run s (tm_events fd report)) i = tracking s i.
Proof.
  intros H.
  assert (F : is_touch_frame fd report = false).
  { unfold is_touch_frame.
    destruct (hid_hw_started fd); [|reflexivity]. cbn [andb].
    destruct (Z.eqb_spec (report_id report) 17);
      [|rewrite andb_false_r; reflexivity].
    destruct (Z.eqb_spec (rap_sub_id report) (mt_feature_index fd));
      [|rewrite andb_false_r; reflexivity].
    destruct (Z.eqb_spec (Z.shiftr (rap_reg_address report) 4) 0);
      [|rewrite andb_false_r; reflexivity].
    exfalso. destruct H as [H|[H|[H|H]]]; congruence. }
  destruct (TmFacts.tm_after_tracking fd report) as [-> ->].
  rewrite InputFacts.tracking_sink_run, TmFacts.tm_events_slot, F. auto.
Qed.

Lemma other_reports_keep_contacts_witness :
  prev_slots_used
    (tm_after (tm_after sample_fd (touch_report two_fingers)) mouse_left_down)
  = prev_slots_used (tm_after sample_fd (touch_report two_fingers)).
Proof.
  refine (proj1 (proj2
    (other_reports_keep_contacts
       (tm_after sample_fd (touch_report two_fingers)) mouse_left_down
       sink_init 0 _))).
  right. left. vm_compute. discriminate.
Defined.

Lemma lor_u8 a b :
  0 <= a < 256 -> 0 <= b < 256 -> 0 <= Z.lor a b < 256.
Proof.
  intros Ha Hb.
  assert (Hnn : 0 <= Z.lor a b) by (apply Z.lor_nonneg; lia).
  split; [exact Hnn|].
  destruct (Z.eq_dec (Z.lor a b) 0) as [->|Hnz]; [lia|].
  assert (Hla : Z.log2 a < 8).
  { destruct (Z.eq_dec a 0) as [->|]; [cbn; lia|].
    apply Z.log2_lt_pow2; lia. }
  assert (Hlb : Z.log2 b < 8).
  { destruct (Z.eq_dec b 0) as [->|]; [cbn; lia|].
    apply Z.log2_lt_pow2; lia. }
  change 256 with (2 ^ 8). apply Z.log2_lt_pow2; [lia|].
  rewrite Z.log2_lor by lia. lia.
Qed.

Lemma loop_mask_range bytes l : forall st,
  0 <= lp_slots_used st < 256 ->
  0 <= lp_slots_used (fold_left (emit_finger bytes) l st) < 256.
Proof.
  induction l as [|i l IH]; intros st Hst; [exact Hst|].
  cbn [fold_left]. apply IH. rewrite TmFacts.emit_finger_slots_used.
  destruct (is_sentinel bytes i); [exact Hst|].
  apply lor_u8; [exact Hst|]. unfold slot_mask, u8.
  apply Z.mod_pos_bound. lia.
Qed.



(** X7: Handling the same frame of raw touch points twice in a row, on
    a device of at most eight slots: the second time no tracking id is
    assigned, and the id counter and the mask of used slots stay as the
    first time left them. *)
Theorem repeated_frame_assigns_nothing info mt_idx idx_1b03 is_t620 reports report :
  max_fingers info <= 8 ->
  let fd := fst (tm_run (tm_probe info mt_idx idx_1b03 is_t620) reports) in
  let fd1 := tm_after fd report in
  allocated_ids (tm_events fd1 report) = []
  /\ next_tracking_id (tm_after fd1 report) = next_tracking_id fd1
  /\ prev_slots_used (tm_after fd1 report) = prev_slots_used fd1.
Proof.
  intros Hmax fd fd1.
  assert (Hinfo : tp_info fd = info) by (subst fd; apply TmFacts.tm_run_config).
  assert (Hv : valid_tracking_id (next_tracking_id fd)).
  { subst fd. apply TmFacts.tm_run_valid. unfold valid_tracking_id. cbn. lia. }
  destruct (TmFacts.tm_after_config fd report) as (Hi1 & Hm1 & _ & _ & Hw1).
  fold fd1 in Hi1, Hm1, Hw1.
  assert (F1 : is_touch_frame fd1 report = is_touch_frame fd report).
  { unfold is_touch_frame. rewrite Hm1, Hw1. reflexivity. }
  destruct (TmFacts.tm_after_tracking fd1 report) as [-> ->].
  rewrite TmFacts.tm_events_allocated, F1.
  destruct (is_touch_frame fd report) eqn:F; [|auto].
  assert (Hv1 : valid_tracking_id (next_tracking_id fd1)).
  { subst fd1. rewrite (proj1 (TmFacts.tm_after_tracking fd report)), F.
    apply TmFacts.next_at_valid, Hv. }
  assert (Hused : forall k, 0 <= k ->
            slot_used (prev_slots_used fd1) k
            = (k <? max_fingers info) && (k <? 8)
              && negb (is_sentinel (rap_params report) k)).
  { intros k Hk. subst fd1.
    rewrite (proj2 (TmFacts.tm_after_tracking fd report)), F.
    rewrite TmFacts.emit_fingers_used by (rewrite ?Hinfo; lia). rewrite Hinfo. reflexivity. }
  assert (Hnew : forall l, (forall k, In k l -> 0 <= k < max_fingers info) ->
            news fd1 (rap_params report) l = O).
  { induction l as [|k l IH]; intros Hl; [reflexivity|].
    unfold news in *. cbn [List.filter].
    assert (Hk : 0 <= k < max_fingers info) by (apply Hl; left; reflexivity).
    replace (is_new fd1 (rap_params report) k) with false.
    - apply IH. intros j Hj. apply Hl. right. exact Hj.
    - symmetry. unfold is_new. rewrite TmFacts.land_slot_mask_eqb by lia.
      rewrite Hused by lia.
      replace (k <? max_fingers info) with true by (symmetry; apply Z.ltb_lt; lia).
      replace (k <? 8) with true by (symmetry; apply Z.ltb_lt; lia).
      destruct (is_sentinel (rap_params report) k); reflexivity. }
  assert (Hrange : forall n, n <= max_fingers info ->
            news fd1 (rap_params report) (slots_below n) = O).
  { intros n Hn. apply Hnew. intros k Hk.
    apply TmFacts.in_slots_below in Hk. lia. }
  split; [|split].
  - rewrite TmFacts.emit_fingers_allocated by exact Hv1.
    unfold slot_range. rewrite Hi1, Hinfo, Hrange by lia. reflexivity.
  - unfold next_at. rewrite Hi1, Hinfo, Hrange by lia. reflexivity.
  - apply Z.bits_inj'. intros k Hk.
    fold (slot_used (prev_slots_used (fst (emit_fingers fd1 (rap_params report)))) k).
    fold (slot_used (prev_slots_used fd1) k).
    rewrite TmFacts.emit_fingers_used by (rewrite ?Hi1, ?Hinfo; lia).
    rewrite Hused, Hi1, Hinfo by lia.
    reflexivity.
Qed.

Lemma repeated_frame_assigns_nothing_witness :
  allocated_ids
    (tm_events (tm_after sample_fd (touch_report two_fingers))
               (touch_report two_fingers)) = [].
Proof.
  exact (proj1 (repeated_frame_assigns_nothing sample_info 5 7 false []
                  (touch_report two_fingers) ltac:(cbn; lia))).
Defined.

(** X8: The driver and the sink agree on the contacts.  Over any
    sequence of reports from probe, on a device of at most eight slots,
    a slot holds a tracking id in the sink exactly when the driver's mask
    counts it as used; the mask counts slots of the device only, and the
    id counter stays within [1, 0xFFFE]. *)
Theorem driver_and_sink_agree info mt_idx idx_1b03 is_t620 reports i :
  max_fingers info <= 8 ->
  let run := tm_run (tm_probe info mt_idx idx_1b03 is_t620) reports in
  (tracking (sink_run sink_init (snd run)) i <> -1
   <-> slot_used (prev_slots_used (fst run)) i = true)
  /\ (slot_used (prev_slots_used (fst run)) i = true -> 0 <= i < max_fingers info)
  /\ 1 <= next_tracking_id (fst run) <= 0xfffe.
Proof.
  intros Hmax run. subst run.
  destruct (TmFacts.in_step_run reports
              (tm_probe info mt_idx idx_1b03 is_t620) sink_init Hmax
              (TmFacts.in_step_probe info mt_idx idx_1b03 is_t620))
    as (Hv & Hdev & Hcpl).
  rewrite TmFacts.tm_run_config in Hdev.
  split; [apply Hcpl|]. split; [apply Hdev | exact Hv].
Qed.

Lemma driver_and_sink_agree_witness :
  tracking (sink_run sink_init
              (snd (tm_run sample_fd [touch_report two_fingers]))) 2 <> -1
  <-> slot_used (prev_slots_used
                   (fst (tm_run sample_fd [touch_report two_fingers]))) 2
      = true.
Proof.
  exact (proj1 (driver_and_sink_agree sample_info 5 7 false
                  [touch_report two_fingers] 2 ltac:(cbn; lia))).
Defined.

End TmMoreFacts.

(** ** Switching the touch mice to raw mode *)
Module TmSetupFacts.
Import Tm Hidpp TmSetup.

Lemma neg_ret_zero : neg_ret 0 = 0.
Proof. reflexivity. Qed.

Lemma neg_ret_nonzero r : int_range r -> r <> 0 -> neg_ret r <> 0.
Proof.
  unfold int_range, neg_ret, int32. intros Hr Hn.
  rewrite Z.mod_small by lia. lia.
Qed.

(** The five ways [tm_set_raw_report_state] can end. *)
Lemma negotiation_cases dev sent fd :
  let r k := a_ret (dev (length sent + k)%nat) in
  let p k := a_params (dev (length sent + k)%nat) in
  let f := byte_at (p 1%nat) 0 in
  let fd2 := set_mt_feature_index fd f in
  let fd3 := set_feature_1b03 fd2 (byte_at (p 2%nat) 0) in
  let fd4 := set_tp_info fd3 (read_tp_info (p 3%nat)) in
  let res := tm_set_raw_report_state dev sent fd in
  (r 0%nat <> 0
   /\ res = (neg_ret (r 0%nat), fd, sent ++ take 1 (handshake f)))
  \/ (r 0%nat = 0 /\ r 1%nat <> 0
      /\ res = (neg_ret (r 1%nat), fd, sent ++ take 2 (handshake f)))
  \/ (r 0%nat = 0 /\ r 1%nat = 0 /\ r 2%nat <> 0
      /\ res = (neg_ret (r 2%nat), fd2, sent ++ take 3 (handshake f)))
  \/ (r 0%nat = 0 /\ r 1%nat = 0 /\ r 2%nat = 0 /\ r 3%nat <> 0
      /\ res = (neg_ret (r 3%nat), fd3, sent ++ take 4 (handshake f)))
  \/ (r 0%nat = 0 /\ r 1%nat = 0 /\ r 2%nat = 0 /\ r 3%nat = 0
      /\ res = (neg_ret (r 4%nat), fd4, sent ++ handshake f)).
Proof.
  intros r p f fd2 fd3 fd4 res. subst res.
  unfold tm_set_raw_report_state, tm_hidpp_send_sync,
    hidpp_send_rap_command_sync.
  repeat rewrite length_app. cbn [length].
  replace (length sent + 1 + 1 + 1 + 1)%nat with (length sent + 4)%nat by lia.
  replace (length sent + 1 + 1 + 1)%nat with (length sent + 3)%nat by lia.
  replace (length sent + 1 + 1)%nat with (length sent + 2)%nat by lia.
  replace (dev (length sent)) with (dev (length sent + 0)%nat)
    by (f_equal; lia).
  fold (r 0%nat) (r 1%nat) (r 2%nat) (r 3%nat) (r 4%nat).
  fold (p 1%nat) (p 2%nat) (p 3%nat). fold f. fold fd2. fold fd3. fold fd4.
  destruct (Z.eqb_spec (r 0%nat) 0) as [E0|E0]; cbn [negb];
    [|left; split; [exact E0|reflexivity]].
  right.
  destruct (Z.eqb_spec (r 1%nat) 0) as [E1|E1]; cbn [negb];
    [|left; repeat split; try assumption; rewrite <- app_assoc; reflexivity].
  right.
  destruct (Z.eqb_spec (r 2%nat) 0) as [E2|E2]; cbn [negb];
    [|left; repeat split; try assumption; rewrite <- !app_assoc; reflexivity].
  right.
  destruct (Z.eqb_spec (r 3%nat) 0) as [E3|E3]; cbn [negb];
    [|left; repeat split; try assumption; rewrite <- !app_assoc; reflexivity].
  right. repeat split; try assumption.
  destruct (Z.eqb_spec (r 4%nat) 0) as [E4|E4]; cbn [negb];
    rewrite <- !app_assoc; [rewrite E4|]; reflexivity.
Qed.

(** The switch returns 0 exactly when the device accepted all five
    commands. *)
Lemma negotiation_zero_iff dev sent fd :
  (forall k, (k < 5)%nat -> int_range (a_ret (dev (length sent + k)%nat))) ->
  fst (fst (tm_set_raw_report_state dev sent fd)) = 0
  <-> forall k, (k < 5)%nat -> a_ret (dev (length sent + k)%nat) = 0.
Proof.
  intros Hint. set (r k := a_ret (dev (length sent + k)%nat)).
  pose proof (negotiation_cases dev sent fd) as HC. cbv zeta in HC.
  fold r in HC.
  assert (Hno : forall k, (k < 5)%nat -> r k <> 0 -> neg_ret (r k) = 0 ->
                (forall j, (j < 5)%nat -> r j = 0)).
  { intros k Hk Hne H. exfalso. revert H.
    apply neg_ret_nonzero; [apply Hint; exact Hk|exact Hne]. }
  destruct HC
    as [(E0 & ->)|[(E0 & E1 & ->)|[(E0 & E1 & E2 & ->)
       |[(E0 & E1 & E2 & E3 & ->)|(E0 & E1 & E2 & E3 & ->)]]]];
    cbn [fst snd].
  - split; [apply (Hno 0%nat); [lia|exact E0]|].
    intros H. specialize (H 0%nat ltac:(lia)). contradiction.
  - split; [apply (Hno 1%nat); [lia|exact E1]|].
    intros H. specialize (H 1%nat ltac:(lia)). contradiction.
  - split; [apply (Hno 2%nat); [lia|exact E2]|].
    intros H. specialize (H 2%nat ltac:(lia)). contradiction.
  - split; [apply (Hno 3%nat); [lia|exact E3]|].
    intros H. specialize (H 3%nat ltac:(lia)). contradiction.
  - split.
    + intros H.
      destruct (Z.eq_dec (r 4%nat) 0) as [E4|E4];
        [|apply (Hno 4%nat); [lia|exact E4|exact H]].
      intros k Hk. destruct k as [|[|[|[|[|]]]]]; try lia; assumption.
    + intros H. pose proof (H 4%nat ltac:(lia)) as H4.
      unfold r in *. rewrite H4. reflexivity.
Qed.

(** The switch leaves alone what the report path keeps. *)
Lemma negotiation_keeps dev sent fd :
  let fd' := snd (fst (tm_set_raw_report_state dev sent fd)) in
  next_tracking_id fd' = next_tracking_id fd
  /\ prev_slots_used fd' = prev_slots_used fd
  /\ button_depressor fd' = button_depressor fd
  /\ ignore_mouse_report_buttons fd' = ignore_mouse_report_buttons fd
  /\ hid_hw_started fd' = hid_hw_started fd.
Proof.
  intros fd'. subst fd'.
  destruct (negotiation_cases dev sent fd)
    as [(E0 & ->)|[(E0 & E1 & ->)|[(E0 & E1 & E2 & ->)
       |[(E0 & E1 & E2 & E3 & ->)|(E0 & E1 & E2 & E3 & ->)]]]];
    cbn [fst snd]; repeat split.
Qed.

(** X9: The switch to raw mode sends the commands of the handshake in
    order and stops at the first one the device refuses: between one and
    five commands go out, all but the last were answered 0, and the
    return value is the negated answer to the last one sent.  So, the
    answers being [int]s, it returns 0 exactly when the device accepted
    all five. *)
Theorem negotiation_stops_at_first_refusal dev sent fd :
  (forall k, (k < 5)%nat -> int_range (a_ret (dev (length sent + k)%nat))) ->
  let r k := a_ret (dev (length sent + k)%nat) in
  let f := byte_at (a_params (dev (length sent + 1)%nat)) 0 in
  let ret := fst (fst (tm_set_raw_report_state dev sent fd)) in
  let sent' := snd (tm_set_raw_report_state dev sent fd) in
  (exists n,
     (1 <= n <= 5)%nat
     /\ sent' = sent ++ take n (handshake f)
     /\ (forall k, (S k < n)%nat -> r k = 0)
     /\ ret = neg_ret (r (n - 1)%nat)
     /\ ((n < 5)%nat -> r (n - 1)%nat <> 0))
  /\ (ret = 0 <-> forall k, (k < 5)%nat -> r k = 0).
Proof.
  intros Hint r f ret sent'. subst ret sent'.
  split; [|exact (negotiation_zero_iff dev sent fd Hint)].
  pose proof (negotiation_cases dev sent fd) as HC. cbv zeta in HC.
  fold r in HC. fold f in HC.
  destruct HC
    as [(E0 & ->)|[(E0 & E1 & ->)|[(E0 & E1 & E2 & ->)
       |[(E0 & E1 & E2 & E3 & ->)|(E0 & E1 & E2 & E3 & ->)]]]];
    cbn [fst snd].
  - exists 1%nat.
    split; [lia|]. split; [reflexivity|]. split; [intros k Hk; lia|].
    split; [reflexivity|]. intros _. exact E0.
  - exists 2%nat.
    split; [lia|]. split; [reflexivity|].
    split; [intros k Hk; assert (k = 0)%nat as -> by lia; exact E0|].
    split; [reflexivity|]. intros _. exact E1.
  - exists 3%nat.
    split; [lia|]. split; [reflexivity|].
    split; [intros k Hk; destruct k as [|[|]]; try lia; assumption|].
    split; [reflexivity|]. intros _. exact E2.
  - exists 4%nat.
    split; [lia|]. split; [reflexivity|].
    split; [intros k Hk; destruct k as [|[|[|]]]; try lia; assumption|].
    split; [reflexivity|]. intros _. exact E3.
  - exists 5%nat.
    split; [lia|]. split; [reflexivity|].
    split; [intros k Hk; destruct k as [|[|[|[|]]]]; try lia; assumption|].
    split; [reflexivity|]. intros Hlt. lia.
Qed.

Lemma negotiation_stops_at_first_refusal_witness :
  fst (fst (tm_set_raw_report_state fading_device [] blank_fd)) = 0
  <-> forall k, (k < 5)%nat -> a_ret (fading_device (0 + k)%nat) = 0.
Proof.
  refine (proj2 (negotiation_stops_at_first_refusal fading_device [] blank_fd _)).
  intros k Hk. unfold int_range.
  destruct k as [|[|[|[|[|]]]]]; try lia; cbn; lia.
Defined.

(** X10: What the switch to raw mode writes.  It never touches the
    contact tracker, the buttons or the started flag, and neither does a
    connect change.  If the first or second command is refused the driver
    data is unchanged; the geometry is written once the first four
    commands are accepted, and then it is the one the device answered,
    even if the request for raw mode itself is refused. *)
Theorem negotiation_writes dev sent fd connected :
  let r k := a_ret (dev (length sent + k)%nat) in
  let p k := a_params (dev (length sent + k)%nat) in
  let fd' := snd (fst (tm_set_raw_report_state dev sent fd)) in
  let fd'' := fst (tm_connect_change dev sent fd connected) in
  (next_tracking_id fd' = next_tracking_id fd
   /\ prev_slots_used fd' = prev_slots_used fd
   /\ button_depressor fd' = button_depressor fd
   /\ ignore_mouse_report_buttons fd' = ignore_mouse_report_buttons fd
   /\ hid_hw_started fd' = hid_hw_started fd)
  /\ (next_tracking_id fd'' = next_tracking_id fd
      /\ prev_slots_used fd'' = prev_slots_used fd
      /\ button_depressor fd'' = button_depressor fd
      /\ hid_hw_started fd'' = hid_hw_started fd)
  /\ (connected = false \/ hid_hw_started fd = false ->
      tm_connect_change dev sent fd connected = (fd, sent))
  /\ (r 0%nat <> 0 \/ r 1%nat <> 0 -> fd' = fd)
  /\ (r 0%nat <> 0 \/ r 1%nat <> 0 \/ r 2%nat <> 0 \/ r 3%nat <> 0 ->
      tp_info fd' = tp_info fd)
  /\ (r 0%nat = 0 -> r 1%nat = 0 -> r 2%nat = 0 -> r 3%nat = 0 ->
      tp_info fd' = read_tp_info (p 3%nat)
      /\ mt_feature_index fd' = byte_at (p 1%nat) 0
      /\ feature_1b03 fd' = byte_at (p 2%nat) 0).
Proof.
  intros r p fd' fd''.
  pose proof (negotiation_keeps dev sent fd) as Hkeep. cbv zeta in Hkeep.
  fold fd' in Hkeep.
  split; [exact Hkeep|]. split; [|split].
  - subst fd''. unfold tm_connect_change.
    destruct (connected && hid_hw_started fd); [|cbn; auto].
    subst fd'.
    destruct (tm_set_raw_report_state dev sent fd) as [[ret fd1] sent1].
    cbn [fst snd] in *. tauto.
  - intros H. unfold tm_connect_change.
    destruct H as [-> | ->]; [reflexivity|]. rewrite andb_false_r. reflexivity.
  - subst fd'.
    pose proof (negotiation_cases dev sent fd) as HC. cbv zeta in HC.
    fold r in HC. fold p in HC.
    destruct HC
      as [(E0 & ->)|[(E0 & E1 & ->)|[(E0 & E1 & E2 & ->)
         |[(E0 & E1 & E2 & E3 & ->)|(E0 & E1 & E2 & E3 & ->)]]]];
      cbn [fst snd].
    all: split; [intros [H|H]; try reflexivity; contradiction|].
    all: split; [intros [H|[H|[H|H]]]; try reflexivity; contradiction|].
    all: intros H0 H1 H2 H3; try contradiction.
    repeat split.
Qed.

Lemma negotiation_writes_witness :
  tp_info (snd (fst (tm_set_raw_report_state sample_device [] blank_fd)))
  = read_tp_info (a_params (sample_device 3%nat)).
Proof.
  refine (proj1 (proj2 (proj2 (proj2 (proj2 (proj2
            (negotiation_writes sample_device [] blank_fd true))))) _ _ _ _));
    reflexivity.
Defined.

(** X11: The geometry survives the wire: a device that answers the
    geometry query with [x_size], [y_size] and [resolution] as big-endian
    16-bit numbers followed by the origin, the finger count and the width
    is read as having exactly that geometry. *)
Theorem geometry_round_trip info :
  0 <= x_size info < 65536 -> 0 <= y_size info < 65536 ->
  0 <= resolution info < 65536 -> 0 <= origin_position info < 256 ->
  0 <= max_fingers info < 256 -> 0 <= max_width info < 256 ->
  read_tp_info (write_tp_info info) = info.
Proof.
  intros Hx Hy Hr Ho Hf Hw. destruct info as [xs ys rs o f w].
  cbn [x_size y_size resolution origin_position max_fingers max_width] in *.
  unfold read_tp_info, write_tp_info, byte_at.
  cbn [nth x_size y_size resolution origin_position max_fingers max_width].
  rewrite !WireFacts.byte_of_value, !WireFacts.shiftr_8. unfold u16.
  assert (Hbe : forall v, 0 <= v < 65536 ->
            Z.lor (Z.shiftl (((v / 256) mod 256) mod 65536) 8) (v mod 256)
            mod 65536 = v).
  { intros v Hv. rewrite (WireFacts.lor_shiftl_low _ _ 8)
      by (try apply Z.mod_pos_bound; lia).
    Z.div_mod_to_equations. lia. }
  rewrite !Hbe by assumption.
  rewrite !Z.mod_small by lia. reflexivity.
Qed.

Lemma geometry_round_trip_witness :
  read_tp_info (write_tp_info sample_info) = sample_info.
Proof.
  apply geometry_round_trip; unfold sample_info, ORIGIN_LOWER_RIGHT; cbn; lia.
Defined.

(** X12: The deferred switch.  Once in raw mode it does nothing at all.
    Otherwise it runs the handshake, always clears the request flag, and
    enters raw mode exactly when the device accepted all five commands
    and the hardware is started, which it starts itself if need be; a
    started device is never stopped, and raw mode is never entered with
    the hardware not started.  The contact tracker and the buttons are
    left alone. *)
Theorem deferred_switch dev sent hw fd mode :
  (forall k, (k < 5)%nat -> int_range (a_ret (dev (length sent + k)%nat))) ->
  let accepted :=
    forall k, (k < 5)%nat -> a_ret (dev (length sent + k)%nat) = 0 in
  let res := delayedwork_callback dev sent hw fd mode in
  let fd' := fst (fst res) in
  let mode' := snd (fst res) in
  (in_raw_mode mode = true -> res = (fd, mode, sent))
  /\ (in_raw_mode mode = false ->
      raw_switch_requested mode' = false
      /\ snd res = snd (tm_set_raw_report_state dev sent fd)
      /\ (in_raw_mode mode' = true
          <-> accepted /\ (hid_hw_started fd = true \/ hw = 0))
      /\ (hid_hw_started fd' = true
          <-> hid_hw_started fd = true \/ (accepted /\ hw = 0)))
  /\ (in_raw_mode mode' = true ->
      in_raw_mode mode = true \/ hid_hw_started fd' = true)
  /\ next_tracking_id fd' = next_tracking_id fd
  /\ prev_slots_used fd' = prev_slots_used fd
  /\ button_depressor fd' = button_depressor fd.
Proof.
  intros Hint accepted res fd' mode'. subst res fd' mode'.
  unfold delayedwork_callback.
  pose proof (negotiation_zero_iff dev sent fd Hint) as Hz. fold accepted in Hz.
  pose proof (negotiation_keeps dev sent fd) as Hk. cbv zeta in Hk.
  destruct (in_raw_mode mode) eqn:Em.
  { cbn [fst snd]. split; [reflexivity|]. split; [discriminate|].
    split; [intros _; left; reflexivity|]. repeat split. }
  destruct (tm_set_raw_report_state dev sent fd) as [[ret fd1] sent1].
  cbn [fst snd] in Hz, Hk. destruct Hk as (K1 & K2 & K3 & _ & K5).
  split; [discriminate|].
  destruct (Z.eqb_spec ret 0) as [Er|Er]; cbn [negb].
  - assert (Hacc : accepted) by (apply Hz; exact Er).
    rewrite K5. destruct (hid_hw_started fd) eqn:Eh; cbn [negb].
    + cbn [fst snd in_raw_mode raw_switch_requested]. rewrite Er. cbn [Z.eqb].
      rewrite K5, K1, K2, K3. intuition.
    + destruct (Z.eqb_spec hw 0) as [Ew|Ew]; cbn [negb].
      * subst hw.
        cbn [fst snd in_raw_mode raw_switch_requested Z.eqb
             set_hid_hw_started hid_hw_started next_tracking_id
             prev_slots_used button_depressor].
        rewrite K1, K2, K3. intuition.
      * cbn [fst snd in_raw_mode raw_switch_requested].
        destruct (Z.eqb_spec hw 0) as [Ew'|_]; [contradiction|].
        rewrite K5, K1, K2, K3. intuition congruence.
  - assert (Hacc : ~ accepted) by (intros H; apply Er, Hz, H).
    cbn [fst snd in_raw_mode raw_switch_requested].
    destruct (Z.eqb_spec ret 0) as [Er'|_]; [contradiction|].
    rewrite K5, K1, K2, K3. intuition congruence.
Qed.

Lemma deferred_switch_witness :
  hid_hw_started
    (fst (fst (delayedwork_callback sample_device [] 0
                 (set_hid_hw_started blank_fd false)
                 {| in_raw_mode := false; raw_switch_requested := true |})))
  = true.
Proof.
  refine (proj2 (proj2 (proj2 (proj2 (proj1 (proj2
            (deferred_switch sample_device [] 0
               (set_hid_hw_started blank_fd false)
               {| in_raw_mode := false; raw_switch_requested := true |} _))
            eq_refl)))) _).
  - intros k Hk. unfold int_range. cbn. lia.
  - right. split; [intros k Hk; reflexivity|reflexivity].
Defined.

End TmSetupFacts.

(** ** Probing a touch mouse *)
Module TmProbeFacts.
Import Tm Hidpp TmSetup.

(** X13: Probing a touch mouse.  The probe succeeds exactly when every
    call it depends on does; the switch to raw mode is not one of them,
    its result is dropped.  In raw mode a failure is reported as -ENOMEM
    or -ENODEV and leaves no driver data behind.  On success the driver
    data has the hardware started, the id counter at 1, no slot in use, no
    button held, and is marked as being in raw mode whatever the device
    answered, so the deferred switch will not try again; if the device did
    accept the first four commands, the data is the one it described. *)
Theorem probe_outcome use_raw_mode alloc_hidpp_device alloc_fd is_t620
    hid_parse hidpp_init hid_hw_start dev sent :
  let res := TmProbe.tm_probe use_raw_mode alloc_hidpp_device alloc_fd is_t620
               hid_parse hidpp_init hid_hw_start dev sent in
  let ret := fst (fst res) in
  let r k := a_ret (dev (length sent + k)%nat) in
  let p k := a_params (dev (length sent + k)%nat) in
  (ret = 0
   <-> hid_parse = 0 /\ hid_hw_start = 0
       /\ (use_raw_mode = true ->
           alloc_hidpp_device = true /\ alloc_fd = true /\ hidpp_init = 0))
  /\ (use_raw_mode = true -> ret <> 0 ->
      (ret = - TmProbe.ENOMEM \/ ret = - TmProbe.ENODEV)
      /\ snd (fst res) = None)
  /\ (use_raw_mode = false -> snd res = sent /\ snd (fst res) = None)
  /\ (forall fd mode, snd (fst res) = Some (fd, mode) ->
        use_raw_mode = true /\ ret = 0
        /\ in_raw_mode mode = true
        /\ hid_hw_started fd = true
        /\ next_tracking_id fd = 1 /\ prev_slots_used fd = 0
        /\ button_depressor fd = [0; 0; 0]
        /\ ignore_mouse_report_buttons fd = is_t620
        /\ snd res = snd (tm_set_raw_report_state dev sent TmProbe.zeroed_fd)
        /\ (forall dev' sent' hw,
              delayedwork_callback dev' sent' hw fd mode = (fd, mode, sent'))
        /\ (r 0%nat = 0 -> r 1%nat = 0 -> r 2%nat = 0 -> r 3%nat = 0 ->
            fd = Tm.tm_probe (read_tp_info (p 3%nat)) (byte_at (p 1%nat) 0)
                   (byte_at (p 2%nat) 0) is_t620)
        /\ (r 0%nat <> 0 \/ r 1%nat <> 0 -> max_fingers (tp_info fd) = 0)).
Proof.
  intros res ret r p. subst ret res. unfold TmProbe.tm_probe.
  destruct use_raw_mode; cbn [negb].
  2:{ cbn [fst snd].
      split.
      { destruct (Z.eqb_spec hid_parse 0) as [E|E].
        - split; [intros H; split; [exact E|split; [exact H|discriminate]]|].
          intros (_ & H & _). exact H.
        - split; [intros H; contradiction|]. intros (H & _). contradiction. }
      split; [discriminate|]. split; [auto|]. intros fd mode H. discriminate H. }
  destruct alloc_hidpp_device; cbn [negb].
  2:{ cbn [fst snd]. unfold TmProbe.ENOMEM.
      split; [split; [discriminate|intros (_ & _ & H); destruct (H eq_refl) as (H1 & _); discriminate H1]|].
      split; [auto|]. split; [discriminate|]. intros fd mode H. discriminate H. }
  destruct alloc_fd; cbn [negb].
  2:{ cbn [fst snd]. unfold TmProbe.ENOMEM.
      split; [split; [discriminate|intros (_ & _ & H); destruct (H eq_refl) as (_ & H1 & _); discriminate H1]|].
      split; [auto|]. split; [discriminate|]. intros fd mode H. discriminate H. }
  destruct (Z.eqb_spec hid_parse 0) as [Ep|Ep]; cbn [negb].
  2:{ cbn [fst snd]. unfold TmProbe.ENODEV.
      split; [split; [discriminate|intros (H & _); contradiction]|].
      split; [auto|]. split; [discriminate|]. intros fd mode H. discriminate H. }
  destruct (Z.eqb_spec hidpp_init 0) as [Ei|Ei]; cbn [negb].
  2:{ cbn [fst snd]. unfold TmProbe.ENODEV.
      split; [split; [discriminate|intros (_ & _ & H); destruct (H eq_refl) as (_ & _ & H1); contradiction]|].
      split; [auto|]. split; [discriminate|]. intros fd mode H. discriminate H. }
  set (fd0 := TmProbe.set_ignore_mouse_report_buttons
                (set_next_tracking_id (set_prev_slots_used TmProbe.zeroed_fd 0) 1)
                is_t620).
  pose proof (TmSetupFacts.negotiation_cases dev sent fd0) as HC. cbv zeta in HC.
  fold r in HC. fold p in HC.
  pose proof (TmSetupFacts.negotiation_cases dev sent TmProbe.zeroed_fd) as HZ. cbv zeta in HZ.
  fold r in HZ. fold p in HZ.
  assert (Hsent : snd (tm_set_raw_report_state dev sent fd0)
                  = snd (tm_set_raw_report_state dev sent TmProbe.zeroed_fd)).
  { destruct HC as [(E0 & ->)|[(E0 & E1 & ->)|[(E0 & E1 & E2 & ->)
                   |[(E0 & E1 & E2 & E3 & ->)|(E0 & E1 & E2 & E3 & ->)]]]];
    destruct HZ as [(F0 & ->)|[(F0 & F1 & ->)|[(F0 & F1 & F2 & ->)
                   |[(F0 & F1 & F2 & F3 & ->)|(F0 & F1 & F2 & F3 & ->)]]]];
    try contradiction; reflexivity. }
  destruct (tm_set_raw_report_state dev sent fd0) as [[ret1 fd1] sent1] eqn:Es.
  cbn [snd] in Hsent.
  destruct (Z.eqb_spec hid_hw_start 0) as [Eh|Eh]; cbn [negb fst snd].
  2:{ unfold TmProbe.ENODEV.
      split; [split; [discriminate|intros (_ & H & _); contradiction]|].
      split; [auto|]. split; [discriminate|]. intros fd mode H. discriminate H. }
  split; [split; [intros _; auto|reflexivity]|].
  split; [intros _ H; contradiction|]. split; [discriminate|].
  intros fd mode H. injection H as <- <-.
  split; [reflexivity|]. split; [reflexivity|]. split; [reflexivity|].
  split; [reflexivity|].
  assert (Hfd : (next_tracking_id fd1 = 1 /\ prev_slots_used fd1 = 0
                 /\ button_depressor fd1 = [0; 0; 0]
                 /\ ignore_mouse_report_buttons fd1 = is_t620)
                /\ (r 0%nat = 0 -> r 1%nat = 0 -> r 2%nat = 0 -> r 3%nat = 0 ->
                    set_hid_hw_started fd1 true
                    = Tm.tm_probe (read_tp_info (p 3%nat)) (byte_at (p 1%nat) 0)
                        (byte_at (p 2%nat) 0) is_t620)
                /\ (r 0%nat <> 0 \/ r 1%nat <> 0 ->
                    max_fingers (tp_info fd1) = 0)).
  { destruct HC as [(E0 & HC)|[(E0 & E1 & HC)|[(E0 & E1 & E2 & HC)
                   |[(E0 & E1 & E2 & E3 & HC)|(E0 & E1 & E2 & E3 & HC)]]]];
      injection HC as _ -> _.
    all: split; [repeat split|].
    all: split; [intros F0 F1 F2 F3; try contradiction; reflexivity|].
    all: intros [F|F]; try contradiction; reflexivity. }
  destruct Hfd as ((H1 & H2 & H3 & H4) & Hok & Hno).
  cbn [set_hid_hw_started next_tracking_id prev_slots_used button_depressor
       ignore_mouse_report_buttons hid_hw_started tp_info].
  split; [exact H1|]. split; [exact H2|]. split; [exact H3|].
  split; [exact H4|]. split; [exact Hsent|].
  split; [intros dev' sent' hw; reflexivity|].
  split; [exact Hok|exact Hno].
Qed.

End TmProbeFacts.

(** ** What the touch mice declare, and what they report *)
Module TmMappingFacts.
Import Tm Setup TmSetup.

(** The calls of the loop of [emit_fingers]: a slot selection, or one of
    the events of a slot of the loop. *)
Lemma loop_out_in bytes l : forall st e,
  In e (lp_out (fold_left (emit_finger bytes) l st)) ->
  In e (lp_out st)
  \/ exists i fd', In i l /\ tp_info fd' = tp_info (lp_fd st)
                   /\ (e = input_mt_slot i \/ In e (finger_events fd' bytes i)).
Proof.
  induction l as [|j l IH]; intros st e H; [left; exact H|].
  cbn [fold_left] in H. apply IH in H.
  destruct H as [H|(i & fd' & Hi & Hfd & He)].
  - rewrite TmFacts.emit_finger_out in H. apply in_app_or in H.
    destruct H as [H|H]; [left; exact H|]. right.
    exists j, (lp_fd st). split; [left; reflexivity|]. split; [reflexivity|].
    destruct H as [H|H]; [left; symmetry; exact H|right; exact H].
  - right. exists i, fd'. split; [right; exact Hi|]. split; [|exact He].
    rewrite Hfd, TmFacts.emit_finger_fd.
    destruct (is_new (lp_fd st) bytes j); reflexivity.
Qed.

Lemma emit_fingers_in fd bytes e :
  In e (snd (emit_fingers fd bytes)) ->
  (exists i fd', 0 <= i < max_fingers (tp_info fd) /\ tp_info fd' = tp_info fd
                 /\ (e = input_mt_slot i \/ In e (finger_events fd' bytes i)))
  \/ (exists c v, e = input_event EV_KEY c v
                  /\ (c = BTN_TOOL_FINGER \/ c = BTN_TOOL_DOUBLETAP
                      \/ c = BTN_TOOL_TRIPLETAP \/ c = BTN_TOOL_QUADTAP)).
Proof.
  unfold emit_fingers. cbn [snd]. intros H. apply in_app_or in H.
  destruct H as [H|H].
  - apply loop_out_in in H. cbn [lp_out lp_fd] in H.
    destruct H as [[]|(i & fd' & Hi & Hfd & He)].
    left. exists i, fd'. split; [|split; assumption].
    apply TmFacts.in_slots_below. exact Hi.
  - right. cbn [In] in H.
    destruct H as [H|[H|[H|[H|[]]]]]; subst e; eexists _, _; split;
      try reflexivity; tauto.
Qed.

Lemma emit_fingers_tool_keys fd bytes c :
  c = BTN_TOOL_FINGER \/ c = BTN_TOOL_DOUBLETAP
  \/ c = BTN_TOOL_TRIPLETAP \/ c = BTN_TOOL_QUADTAP ->
  exists v, In (input_event EV_KEY c v) (snd (emit_fingers fd bytes)).
Proof.
  intros Hc. unfold emit_fingers. cbn [snd].
  destruct Hc as [-> | [-> | [-> | ->]]]; eexists; apply in_or_app; right;
    cbn [In]; eauto 6.
Qed.

Lemma finger_events_in fd bytes i e :
  In e (finger_events fd bytes i) ->
  (exists v, e = input_event EV_ABS ABS_MT_TRACKING_ID v)
  \/ (is_sentinel bytes i = false
      /\ (e = input_event EV_ABS ABS_MT_POSITION_X (emitted_x fd bytes i)
          \/ e = input_event EV_ABS ABS_MT_POSITION_Y (emitted_y fd bytes i)
          \/ e = input_event EV_ABS ABS_MT_PRESSURE (pressure bytes i))).
Proof.
  unfold finger_events. destruct (is_sentinel bytes i).
  - intros [H|[]]. left. eexists. symmetry. exact H.
  - intros H. apply in_app_or in H. destruct H as [H|H].
    + destruct (is_new fd bytes i); [|destruct H].
      destruct H as [H|[]]. left. eexists. symmetry. exact H.
    + right. split; [reflexivity|]. cbn [In] in H.
      destruct H as [H|[H|[H|[]]]]; symmetry in H; tauto.
Qed.

Lemma emitted_tp_info fd fd' bytes i :
  tp_info fd' = tp_info fd ->
  emitted_x fd' bytes i = emitted_x fd bytes i
  /\ emitted_y fd' bytes i = emitted_y fd bytes i.
Proof.
  intros H. unfold emitted_x, emitted_y, swap_x, swap_y. rewrite H. tauto.
Qed.

(** X14: Which tool keys a touch mouse declares.  The cases of the
    switch over the finger count fall through, so a device of [n]
    fingers declares the tool keys of one up to [n] fingers when [n] is 1
    to 4, and none at all otherwise; the three buttons are always
    declared.  A frame reports all four tool keys whatever the device, so
    a device declares every key its frames report exactly when it has
    four fingers. *)
Theorem tool_keys_declared fd bytes :
  let calls := snd (tm_input_mapping fd true) in
  let n := max_fingers (tp_info fd) in
  (key_declared calls BTN_TOOL_FINGER = true <-> 1 <= n <= 4)
  /\ (key_declared calls BTN_TOOL_DOUBLETAP = true <-> 2 <= n <= 4)
  /\ (key_declared calls BTN_TOOL_TRIPLETAP = true <-> 3 <= n <= 4)
  /\ (key_declared calls BTN_TOOL_QUADTAP = true <-> n = 4)
  /\ key_declared calls BTN_LEFT = true
  /\ key_declared calls BTN_RIGHT = true
  /\ key_declared calls BTN_MIDDLE = true
  /\ ((forall c v, In (input_event EV_KEY c v) (snd (emit_fingers fd bytes)) ->
                   key_declared calls c = true)
      <-> n = 4).
Proof.
  intros calls n.
  assert (Hq : key_declared calls BTN_TOOL_QUADTAP = true <-> n = 4).
  { subst calls. unfold tm_input_mapping, tool_bits. cbn [negb snd]. fold n.
    destruct (Z.eqb_spec n 4) as [E4|E4]; [cbn; tauto|].
    destruct (Z.eqb_spec n 3) as [E3|E3]; [cbn; split; [discriminate|lia]|].
    destruct (Z.eqb_spec n 2) as [E2|E2]; [cbn; split; [discriminate|lia]|].
    destruct (Z.eqb_spec n 1) as [E1|E1]; cbn; (split; [discriminate|lia]). }
  assert (Hrest :
    (key_declared calls BTN_TOOL_FINGER = true <-> 1 <= n <= 4)
    /\ (key_declared calls BTN_TOOL_DOUBLETAP = true <-> 2 <= n <= 4)
    /\ (key_declared calls BTN_TOOL_TRIPLETAP = true <-> 3 <= n <= 4)
    /\ key_declared calls BTN_LEFT = true
    /\ key_declared calls BTN_RIGHT = true
    /\ key_declared calls BTN_MIDDLE = true).
  { subst calls. unfold tm_input_mapping, tool_bits. cbn [negb snd]. fold n.
    destruct (Z.eqb_spec n 4) as [E4|E4];
      [cbn; repeat split; try reflexivity; try lia; discriminate|].
    destruct (Z.eqb_spec n 3) as [E3|E3];
      [cbn; repeat split; try reflexivity; try lia; discriminate|].
    destruct (Z.eqb_spec n 2) as [E2|E2];
      [cbn; repeat split; try reflexivity; try lia; discriminate|].
    destruct (Z.eqb_spec n 1) as [E1|E1];
      cbn; repeat split; try reflexivity; try lia; discriminate. }
  destruct Hrest as (Hf & Hd & Ht & Hl & Hr & Hm).
  split; [exact Hf|]. split; [exact Hd|]. split; [exact Ht|].
  split; [exact Hq|]. split; [exact Hl|]. split; [exact Hr|].
  split; [exact Hm|]. split.
  - intros H. apply Hq.
    destruct (emit_fingers_tool_keys fd bytes BTN_TOOL_QUADTAP) as [v Hv];
      [tauto|].
    exact (H _ _ Hv).
  - intros Hn c v Hin. apply emit_fingers_in in Hin.
    destruct Hin as [(i & fd' & _ & _ & [He|He])|(c' & v' & He & Hc)].
    + discriminate He.
    + apply finger_events_in in He.
      destruct He as [[w He]|(_ & [He|[He|He]])]; discriminate He.
    + injection He as -> ->.
      destruct Hc as [-> | [-> | [-> | ->]]];
        [apply Hf|apply Hd|apply Ht|apply Hq]; lia.
Qed.

(** X15: A frame stays within what was declared.  Every slot a frame
    selects is below the number of slots declared, and every pressure it
    reports is within the declared pressure range, whatever the device
    said about itself.  A position lies in its declared range exactly
    when the raw coordinate does not exceed the size the device gave,
    whether the axis is flipped or not. *)
Theorem frame_within_declared fd bytes :
  let calls := snd (tm_input_mapping fd true) in
  let evs := snd (emit_fingers fd bytes) in
  (forall s, In (input_mt_slot s) evs ->
     exists n, declared_slots calls = Some n /\ 0 <= s < n)
  /\ (forall v, In (input_event EV_ABS ABS_MT_PRESSURE v) evs ->
        exists lo hi, declared_range calls ABS_MT_PRESSURE = Some (lo, hi)
                      /\ lo <= v <= hi)
  /\ (forall v, In (input_event EV_ABS ABS_MT_POSITION_X v) evs ->
        exists i, 0 <= i < max_fingers (tp_info fd)
          /\ v = emitted_x fd bytes i
          /\ declared_range calls ABS_MT_POSITION_X
             = Some (0, x_size (tp_info fd))
          /\ (0 <= v <= x_size (tp_info fd)
              <-> raw_x bytes i <= x_size (tp_info fd)))
  /\ (forall v, In (input_event EV_ABS ABS_MT_POSITION_Y v) evs ->
        exists i, 0 <= i < max_fingers (tp_info fd)
          /\ v = emitted_y fd bytes i
          /\ declared_range calls ABS_MT_POSITION_Y
             = Some (0, y_size (tp_info fd))
          /\ (0 <= v <= y_size (tp_info fd)
              <-> raw_y bytes i <= y_size (tp_info fd))).
Proof.
  intros calls evs.
  assert (Hslots : declared_slots calls
                   = Some (MAX 2 (max_fingers (tp_info fd)))).
  { subst calls. unfold tm_input_mapping, declared_slots. cbn [negb snd].
    rewrite !fold_left_app. reflexivity. }
  assert (Hrange : forall a,
            declared_range calls a
            = match a with
              | ABS_MT_PRESSURE =>
                  Some (0, MAX 255 (max_width (tp_info fd)
                                    * max_width (tp_info fd)))
              | ABS_MT_POSITION_X => Some (0, x_size (tp_info fd))
              | ABS_MT_POSITION_Y => Some (0, y_size (tp_info fd))
              | _ => None
              end).
  { intros a. subst calls. unfold tm_input_mapping, declared_range, tool_bits.
    cbn [negb snd].
    destruct (max_fingers (tp_info fd) =? 4), (max_fingers (tp_info fd) =? 3),
      (max_fingers (tp_info fd) =? 2), (max_fingers (tp_info fd) =? 1);
      destruct a; reflexivity. }
  split; [|split; [|split]].
  - intros s Hin. subst evs. apply emit_fingers_in in Hin.
    destruct Hin as [(i & fd' & Hi & _ & [He|He])|(c' & v' & He & _)].
    + injection He as ->. eexists. split; [exact Hslots|].
      unfold MAX. destruct (2 >? max_fingers (tp_info fd)) eqn:E; lia.
    + apply finger_events_in in He.
      destruct He as [[w He]|(_ & [He|[He|He]])]; discriminate He.
    + discriminate He.
  - intros v Hin. subst evs. apply emit_fingers_in in Hin.
    destruct Hin as [(i & fd' & Hi & _ & [He|He])|(c' & v' & He & _)];
      try discriminate He.
    apply finger_events_in in He.
    destruct He as [[w He]|(_ & [He|[He|He]])]; try discriminate He.
    injection He as ->. eexists _, _. split; [exact (Hrange ABS_MT_PRESSURE)|].
    pose proof (WireFacts.pressure_range bytes i) as Hp.
    unfold MAX.
    destruct (255 >? max_width (tp_info fd) * max_width (tp_info fd)) eqn:E;
      lia.
  - intros v Hin. subst evs. apply emit_fingers_in in Hin.
    destruct Hin as [(i & fd' & Hi & Hfd & [He|He])|(c' & v' & He & _)];
      try discriminate He.
    apply finger_events_in in He.
    destruct He as [[w He]|(_ & [He|[He|He]])]; try discriminate He.
    injection He as ->. exists i. split; [exact Hi|].
    destruct (emitted_tp_info fd fd' bytes i Hfd) as [-> _].
    split; [reflexivity|]. split; [exact (Hrange ABS_MT_POSITION_X)|].
    pose proof (WireFacts.raw_x_range bytes i) as Hx.
    unfold emitted_x. destruct (swap_x fd); lia.
  - intros v Hin. subst evs. apply emit_fingers_in in Hin.
    destruct Hin as [(i & fd' & Hi & Hfd & [He|He])|(c' & v' & He & _)];
      try discriminate He.
    apply finger_events_in in He.
    destruct He as [[w He]|(_ & [He|[He|He]])]; try discriminate He.
    injection He as ->. exists i. split; [exact Hi|].
    destruct (emitted_tp_info fd fd' bytes i Hfd) as [_ ->].
    split; [reflexivity|]. split; [exact (Hrange ABS_MT_POSITION_Y)|].
    pose proof (WireFacts.raw_y_range bytes i) as Hy.
    unfold emitted_y. destruct (swap_y fd); lia.
Qed.

End TmMappingFacts.

(** ** Switching the touchpad to raw mode *)
Module WtpSetupFacts.
Import Wtp Hidpp Setup WtpSetup.

Lemma big_endian hi lo :
  0 <= hi < 256 -> 0 <= lo < 256 ->
  u16 (Z.lor (Z.shiftl hi 8) lo) = 256 * hi + lo.
Proof.
  intros Hh Hl. rewrite (WireFacts.lor_shiftl_low hi lo 8) by lia.
  unfold u16. change (2 ^ 8) with 256. rewrite Z.mod_small by lia. lia.
Qed.

(** X16: Setting up the touchpad.  The request for raw reports goes out
    first, with all three options set; if it is refused nothing else is
    sent and the size is left as it was.  Otherwise the size is asked
    for, and once the device answers it is stored, most significant byte
    first, whether or not it is the 3700 by 2480 the driver expects and
    complains about.  A refusal comes back as a nonzero return value.
    On a connect change the request for raw reports is repeated, provided
    the device has been initialised, and nothing else is sent. *)
Theorem pad_init dev sent geo :
  int_range (a_ret (dev (length sent))) ->
  int_range (a_ret (dev (length sent + 1)%nat)) ->
  let r0 := a_ret (dev (length sent)) in
  let r1 := a_ret (dev (length sent + 1)%nat) in
  let p := a_params (dev (length sent + 1)%nat) in
  let xs := 256 * byte_at p 0 + byte_at p 1 in
  let ys := 256 * byte_at p 2 + byte_at p 3 in
  let res := wtp_device_init dev sent geo in
  (r0 <> 0 ->
   res = (neg_ret r0, geo, sent ++ take 1 init_commands,
          [unable_to_set_raw_report_mode])
   /\ neg_ret r0 <> 0)
  /\ (r0 = 0 -> r1 <> 0 ->
      res = (neg_ret r1, geo, sent ++ init_commands, [])
      /\ neg_ret r1 <> 0)
  /\ (r0 = 0 -> r1 = 0 ->
      res = (0, {| fd_x_size := xs; fd_y_size := ys |}, sent ++ init_commands,
             if (xs =? 3700) && (ys =? 2480) then []
             else [error_getting_size xs ys]))
  /\ (forall initialized connected,
        wtp_connect_change dev sent initialized connected
        = if connected && initialized then sent ++ take 1 init_commands
          else sent).
Proof.
  intros Hi0 Hi1 r0 r1 p xs ys res.
  assert (Hcc : forall initialized connected,
            wtp_connect_change dev sent initialized connected
            = if connected && initialized then sent ++ take 1 init_commands
              else sent).
  { intros initialized connected. unfold wtp_connect_change.
    destruct (connected && initialized); [|reflexivity].
    unfold hidpp_touchpad_set_raw_report_state, hidpp_send_fap_command_sync.
    change (u8 _) with 7. cbv beta iota zeta.
    destruct (negb (a_ret (dev (length sent)) =? 0)); reflexivity. }
  cut ((r0 <> 0 ->
   res = (neg_ret r0, geo, sent ++ take 1 init_commands,
          [unable_to_set_raw_report_mode])
   /\ neg_ret r0 <> 0)
  /\ (r0 = 0 -> r1 <> 0 ->
      res = (neg_ret r1, geo, sent ++ init_commands, [])
      /\ neg_ret r1 <> 0)
  /\ (r0 = 0 -> r1 = 0 ->
      res = (0, {| fd_x_size := xs; fd_y_size := ys |}, sent ++ init_commands,
             if (xs =? 3700) && (ys =? 2480) then []
             else [error_getting_size xs ys])));
    [intros (HA & HB & HC); auto|].
  subst res.
  unfold wtp_device_init, hidpp_touchpad_set_raw_report_state,
    hidpp_touchpad_get_raw_info, hidpp_send_fap_command_sync.
  change (u8 _) with 7. cbn [take]. cbv beta iota zeta.
  fold r0.
  destruct (Z.eqb_spec r0 0) as [E0|E0]; cbn [negb]; cbv beta iota zeta;
    rewrite ?length_app; cbn [length]; fold r1 p.
  all: change WTP_RAW_XY_FEAT_INDEX with 0x0F.
  all: change CMD_TOUCHPAD_SET_RAW_REPORT_STATE with 0x21.
  all: change CMD_TOUCHPAD_GET_RAW_INFO with 0x01.
  all: unfold init_commands; cbn [take].
  - rewrite E0. cbn [Z.eqb negb].
    split; [intros H; contradiction|].
    destruct (Z.eqb_spec r1 0) as [E1|E1]; cbn [negb].
    + rewrite E1. cbn [Z.eqb x_size y_size].
      split; [intros _ H; contradiction|]. intros _ _.
      rewrite !big_endian by apply WireFacts.byte_at_range. fold xs ys.
      rewrite <- app_assoc. cbn [app].
      unfold X_SIZE, Y_SIZE. rewrite (Z.eqb_sym 3700), (Z.eqb_sym 2480).
      destruct (xs =? 3700), (ys =? 2480); reflexivity.
    + split; [|intros _ H; contradiction]. intros _ _.
      pose proof (TmSetupFacts.neg_ret_nonzero r1 Hi1 E1) as Hn.
      destruct (Z.eqb_spec (neg_ret r1) 0) as [H|_]; [contradiction|].
      rewrite <- app_assoc. split; [reflexivity|exact Hn].
  - pose proof (TmSetupFacts.neg_ret_nonzero r0 Hi0 E0) as Hn.
    destruct (Z.eqb_spec (neg_ret r0) 0) as [H|_]; [contradiction|].
    cbn [negb].
    split; [intros _; split; [reflexivity|exact Hn]|].
    split; intros H; contradiction.
Qed.

Lemma pad_init_witness :
  wtp_device_init sample_pad [] {| fd_x_size := 0; fd_y_size := 0 |}
  = (0, {| fd_x_size := 3700; fd_y_size := 2480 |}, init_commands, []).
Proof.
  refine (proj1 (proj2 (proj2 (pad_init sample_pad []
                                 {| fd_x_size := 0; fd_y_size := 0 |} _ _)))
            _ _);
    try reflexivity; unfold int_range; cbn; lia.
Defined.

End WtpSetupFacts.

(** ** The wire form of a touch *)
Module WtpWireFacts.
Import Wtp WtpRun.

Lemma coordinate hi lo :
  0 <= hi -> 0 <= lo < 256 ->
  u16 (Z.lor (Z.shiftl (u8 (Z.shiftl hi 2)) 6) lo) = (hi mod 64) * 256 + lo.
Proof.
  intros Hh Hl. unfold u8, u16.
  rewrite (Z.shiftl_mul_pow2 hi 2) by lia. change (2 ^ 2) with 4.
  replace ((hi * 4) mod 256) with ((hi mod 64) * 4)
    by (Z.div_mod_to_equations; lia).
  rewrite (Z.shiftl_mul_pow2 _ 6) by lia. change (2 ^ 6) with 64.
  replace (hi mod 64 * 4 * 64) with (Z.shiftl (hi mod 64) 8)
    by (rewrite Z.shiftl_mul_pow2 by lia; change (2 ^ 8) with 256; lia).
  rewrite (WireFacts.lor_shiftl_low _ lo 8) by lia. change (2 ^ 8) with 256.
  pose proof (Z.mod_pos_bound hi 64 ltac:(lia)).
  rewrite Z.mod_small by lia. reflexivity.
Qed.

Lemma shiftr_6 a : Z.shiftr a 6 = a / 64.
Proof. apply Z.shiftr_div_pow2. lia. Qed.

(** X17: What a touch sub-record decodes to.  The position is a 14-bit
    number on each axis, its six high bits being the low six of [x_m]
    (of [y_m]); the two bits above them are the contact type (the
    contact status), and the finger identifier is the high half of [id],
    so it lies in 0 to 15 while the driver has five slots. *)
Theorem touch_fields t :
  u8_fields t ->
  let f := hidpp_touchpad_touch_event t in
  x f = (x_m t mod 64) * 256 + x_l t /\ 0 <= x f < 16384
  /\ y f = (y_m t mod 64) * 256 + y_l t /\ 0 <= y f < 16384
  /\ contact_type f = x_m t / 64 /\ 0 <= contact_type f <= 3
  /\ contact_status f = y_m t / 64 /\ 0 <= contact_status f <= 3
  /\ finger_id f = id t / 16 /\ 0 <= finger_id f <= 15
  /\ z f = touch_z t /\ area f = touch_area t /\ 0 <= area f <= 255.
Proof.
  intros (Hxm & Hxl & Hym & Hyl & Hz & Ha & Hid) f. subst f.
  unfold hidpp_touchpad_touch_event.
  cbn [x y contact_type contact_status finger_id z area].
  rewrite !coordinate by lia. rewrite !shiftr_6, WireFacts.shiftr_4.
  pose proof (Z.mod_pos_bound (x_m t) 64 ltac:(lia)).
  pose proof (Z.mod_pos_bound (y_m t) 64 ltac:(lia)).
  repeat split; try lia; try (Z.div_mod_to_equations; lia).
Qed.

Lemma touch_fields_witness :
  finger_id (hidpp_touchpad_touch_event (touch 0x01 0x41 0x21)) = 0x21 / 16.
Proof.
  destruct (touch_fields (touch 0x01 0x41 0x21))
    as (_ & _ & _ & _ & _ & _ & _ & _ & H & _).
  - unfold u8_fields. cbn. lia.
  - exact H.
Defined.

(** X18: Decoding undoes encoding.  A finger whose position fits 14
    bits, whose contact type and status fit two and whose identifier fits
    four is read back unchanged from its wire form, whatever the low half
    of [id] carries; and that wire form is made of bytes. *)
Theorem touch_round_trip t low :
  0 <= contact_type t < 4 -> 0 <= contact_status t < 4 ->
  0 <= x t < 16384 -> 0 <= y t < 16384 ->
  0 <= z t < 256 -> 0 <= area t < 256 ->
  0 <= finger_id t < 16 -> 0 <= low < 16 ->
  hidpp_touchpad_touch_event (encode_touch t low) = t
  /\ u8_fields (encode_touch t low)
  /\ Z.land (id (encode_touch t low)) 0x0f = low.
Proof.
  intros Hct Hcs Hx Hy Hz Ha Hf Hl. destruct t as [ct cs tx ty tz ta tf].
  cbn [contact_type contact_status x y z area finger_id] in *.
  unfold encode_touch, hidpp_touchpad_touch_event, u8_fields.
  cbn [x_m x_l y_m y_l touch_z touch_area id
       contact_type contact_status x y z area finger_id].
  change 255 with (Z.ones 8). rewrite !Z.land_ones by lia.
  change (2 ^ 8) with 256. rewrite !WireFacts.shiftr_8.
  assert (Hxh : 0 <= tx / 256 < 2 ^ 6)
    by (change (2 ^ 6) with 64; Z.div_mod_to_equations; lia).
  assert (Hyh : 0 <= ty / 256 < 2 ^ 6)
    by (change (2 ^ 6) with 64; Z.div_mod_to_equations; lia).
  assert (Hlo : 0 <= low < 2 ^ 4) by (change (2 ^ 4) with 16; lia).
  rewrite (WireFacts.lor_shiftl_low ct (tx / 256) 6) by (exact Hxh || lia).
  rewrite (WireFacts.lor_shiftl_low cs (ty / 256) 6) by (exact Hyh || lia).
  rewrite (WireFacts.lor_shiftl_low tf low 4) by (exact Hlo || lia).
  change (2 ^ 6) with 64 in *. change (2 ^ 4) with 16 in *.
  pose proof (Z.mod_pos_bound tx 256 ltac:(lia)).
  pose proof (Z.mod_pos_bound ty 256 ltac:(lia)).
  rewrite !coordinate by lia.
  rewrite !shiftr_6, WireFacts.shiftr_4, WireFacts.land_15.
  split; [|split].
  - f_equal; Z.div_mod_to_equations; lia.
  - repeat split; try lia; Z.div_mod_to_equations; lia.
  - Z.div_mod_to_equations; lia.
Qed.

Lemma touch_round_trip_witness :
  hidpp_touchpad_touch_event (encode_touch (finger 2 1) 3) = finger 2 1.
Proof.
  refine (proj1 (touch_round_trip (finger 2 1) 3 _ _ _ _ _ _ _ _));
    unfold finger; cbn; lia.
Defined.

End WtpWireFacts.

(** ** Frames of the touchpad *)
Module WtpRunFacts.
Import Wtp WtpRun.

Lemma slot_active_app d a b :
  slot_active d (a ++ b) = slot_active (slot_active d a) b.
Proof. apply fold_left_app. Qed.

Lemma last_status_from recs i : forall acc,
  fold_left (fun r t => if finger_id t - 1 =? i
                        then Some (negb (contact_status t =? 0)) else r)
            recs acc
  = match last_status recs i with Some s => Some s | None => acc end.
Proof.
  unfold last_status. induction recs as [|t recs IH]; intros acc; [reflexivity|].
  cbn [fold_left]. rewrite IH.
  rewrite (IH (if finger_id t - 1 =? i
               then Some (negb (contact_status t =? 0)) else None)).
  destruct (fold_left _ recs None); [reflexivity|].
  destruct (finger_id t - 1 =? i); reflexivity.
Qed.

Lemma last_status_app a b i :
  last_status (a ++ b) i
  = match last_status b i with Some s => Some s | None => last_status a i end.
Proof.
  unfold last_status at 1. rewrite fold_left_app. apply last_status_from.
Qed.

Lemma hit_slot t i :
  in_slots t ->
  (i =? Z.to_nat (finger_id t - 1))%nat = (finger_id t - 1 =? Z.of_nat i).
Proof.
  unfold in_slots. intros H.
  destruct (Nat.eqb_spec i (Z.to_nat (finger_id t - 1))),
    (Z.eqb_spec (finger_id t - 1) (Z.of_nat i)); try reflexivity; lia.
Qed.

(** What one touch record does to a slot and tells the sink of it. *)
Lemma touch_event_effect fd t :
  length (slots fd) = 5%nat -> in_slots t ->
  exists fd1 ev,
    wtp_touch_event fd t = Done (fd1, ev)
    /\ length (slots fd1) = 5%nat
    /\ forall i cur d,
         let hit := finger_id t - 1 =? Z.of_nat i in
         touch_at fd1 i
         = (if hit then negb (contact_status t =? 0) else touch_at fd i)
         /\ seen_at fd1 i = (if hit then true else seen_at fd i)
         /\ slot_active d (slot_events cur (Z.of_nat i) ev)
            = (if hit then negb (contact_status t =? 0) else d).
Proof.
  intros Hlen Hin. rewrite WtpFacts.wtp_touch_event_in by exact Hin.
  eexists _, _. split; [reflexivity|].
  assert (Hk : (Z.to_nat (finger_id t - 1) < length (slots fd))%nat).
  { unfold in_slots, ARRAY_SIZE_slots in Hin. lia. }
  split; [cbn [slots set_slots]; rewrite length_insert; exact Hlen|].
  intros i cur d hit. subst hit.
  rewrite WtpFacts.touch_at_insert, WtpFacts.seen_at_insert by exact Hk.
  rewrite (hit_slot t i Hin). cbn [touch_state seen_in_this_frame].
  split; [reflexivity|]. split; [reflexivity|].
  cbn [app slot_events].
  destruct (negb (contact_status t =? 0));
    cbn [slot_events is_slot_ev andb];
    destruct (finger_id t - 1 =? Z.of_nat i); reflexivity.
Qed.

(** What the touch records of a report do, slot by slot. *)
Lemma apply_touches_effect fd raw :
  length (slots fd) = 5%nat -> touches_in_slots raw ->
  exists fd1 ev1,
    apply_touches fd raw = Done (fd1, ev1)
    /\ length (slots fd1) = 5%nat
    /\ forall i cur d,
         touch_at fd1 i
         = match last_status (records raw) (Z.of_nat i) with
           | Some b => b | None => touch_at fd i end
         /\ seen_at fd1 i
            = match last_status (records raw) (Z.of_nat i) with
              | Some _ => true | None => seen_at fd i end
         /\ slot_active d (slot_events cur (Z.of_nat i) ev1)
            = match last_status (records raw) (Z.of_nat i) with
              | Some b => b | None => d end.
Proof.
  intros Hlen [Hin0 Hin1]. unfold apply_touches, records.
  destruct (Z.eqb_spec (finger_count raw) 0) as [Hc|Hc]; cbn [negb].
  { exists fd, []. split; [reflexivity|]. split; [exact Hlen|].
    intros i cur d. cbn. auto. }
  specialize (Hin0 Hc). specialize (Hin1 Hc).
  destruct (touch_event_effect fd _ Hlen Hin0) as (fda & eva & -> & Hlena & Ha).
  cbn [bind].
  destruct (second_touch (negb (end_of_frame raw =? 0)) (finger_count raw)) eqn:E2.
  - specialize (Hin1 eq_refl).
    destruct (touch_event_effect fda _ Hlena Hin1)
      as (fdb & evb & -> & Hlenb & Hb).
    cbn [bind]. eexists _, _. split; [reflexivity|]. split; [exact Hlenb|].
    intros i cur d.
    destruct (Hb i (selected cur eva) (slot_active d (slot_events cur (Z.of_nat i) eva)))
      as (Hb1 & Hb2 & Hb3).
    destruct (Ha i cur d) as (Ha1 & Ha2 & Ha3).
    rewrite InputFacts.slot_events_app, slot_active_app, Hb1, Hb2, Hb3, Ha1, Ha2, Ha3.
    unfold last_status. cbn [fold_left].
    destruct (finger_id (fingers_1 raw) - 1 =? Z.of_nat i),
      (finger_id (fingers_0 raw) - 1 =? Z.of_nat i); auto.
  - eexists _, _. split; [reflexivity|]. split; [exact Hlena|].
    intros i cur d. destruct (Ha i cur d) as (Ha1 & Ha2 & Ha3).
    rewrite Ha1, Ha2, Ha3. unfold last_status. cbn [fold_left].
    destruct (finger_id (fingers_0 raw) - 1 =? Z.of_nat i); auto.
Qed.

(** What a whole report does, slot by slot. *)
Lemma report_effect fd raw :
  length (slots fd) = 5%nat -> touches_in_slots raw ->
  exists fd2 ev,
    wtp_touchpad_raw_xy_event true fd raw = Done (1, fd2, ev)
    /\ length (slots fd2) = 5%nat
    /\ forall i cur d, (i < 5)%nat ->
         let st := last_status (records raw) (Z.of_nat i) in
         let t1 := match st with Some b => b | None => touch_at fd i end in
         let s1 := match st with Some _ => true | None => seen_at fd i end in
         let a1 := match st with Some b => b | None => d end in
         touch_at fd2 i = (if frame_boundary raw then t1 && s1 else t1)
         /\ seen_at fd2 i = (if frame_boundary raw then false else s1)
         /\ slot_active d (slot_events cur (Z.of_nat i) ev)
            = (if frame_boundary raw && t1 && negb s1 then false else a1).
Proof.
  intros Hlen Hin.
  destruct (apply_touches_effect fd raw Hlen Hin)
    as (fd1 & ev1 & Happ & Hlen1 & H1).
  unfold wtp_touchpad_raw_xy_event. cbn [negb]. rewrite Happ. cbn [bind].
  destruct (frame_boundary raw) eqn:Eb.
  - destruct (flush_frame (slots fd1)) as [sl ev2] eqn:Ef.
    eexists _, _. split; [reflexivity|].
    assert (Hsl : length sl = 5%nat).
    { destruct (slots fd1) as [|s0 [|s1 [|s2 [|s3 [|s4 [|]]]]]];
        try discriminate.
      rewrite WtpFacts.flush_frame_five in Ef. injection Ef as <- _.
      reflexivity. }
    split; [exact Hsl|].
    intros i cur d Hi. cbv zeta.
    destruct (H1 i cur d) as (Ht & Hs & Hact).
    destruct (slots fd1 !! i) as [s|] eqn:Es.
    2:{ apply lookup_ge_None in Es. lia. }
    destruct (WtpFacts.flush_frame_slot (slots fd1) i s (selected cur ev1)
                (finger_count raw) Hlen1 Es) as [Hl Hev].
    rewrite Ef in Hl, Hev. cbn [fst snd] in Hl, Hev.
    unfold frame_summary in Hev.
    assert (T2 : touch_at (set_slots fd1 sl) i = touch_at fd1 i && seen_at fd1 i).
    { unfold touch_at, seen_at. cbn [slots set_slots]. rewrite Hl, Es.
      unfold flushed, stale. cbn [touch_state].
      destruct (touch_state s), (seen_in_this_frame s); reflexivity. }
    assert (S2 : seen_at (set_slots fd1 sl) i = false).
    { unfold seen_at. cbn [slots set_slots]. rewrite Hl. reflexivity. }
    assert (A2 : stale s = touch_at fd1 i && negb (seen_at fd1 i)).
    { unfold touch_at, seen_at, stale. rewrite Es.
      destruct (touch_state s), (seen_in_this_frame s); reflexivity. }
    rewrite T2, S2, InputFacts.slot_events_app, slot_active_app, Hact, Hev, A2.
    rewrite Ht, Hs.
    destruct (last_status (records raw) (Z.of_nat i)) as [b|];
      [destruct b|destruct (touch_at fd i), (seen_at fd i)]; cbn; auto.
  - eexists _, _. split; [reflexivity|]. split; [exact Hlen1|].
    intros i cur d Hi. cbv zeta.
    destruct (H1 i cur d) as (Ht & Hs & Hact). cbn [andb]. auto.
Qed.

Lemma wtp_run_cons fd r rs fd1 ev1 :
  wtp_touchpad_raw_xy_event true fd r = Done (1, fd1, ev1) ->
  wtp_run true fd (r :: rs)
  = bind (wtp_run true fd1 rs) (fun '(fd2, ev2) => Done (fd2, ev1 ++ ev2)).
Proof. intros H. cbn [wtp_run]. rewrite H. reflexivity. Qed.

(** The slots and the sink stay in step over a run. *)
Lemma pad_in_step_run rs : forall fd evs0,
  length (slots fd) = 5%nat ->
  Forall touches_in_slots rs ->
  (forall i, (i < 5)%nat ->
     touch_at fd i = slot_active false (slot_events 0 (Z.of_nat i) evs0)) ->
  exists fd' evs,
    wtp_run true fd rs = Done (fd', evs)
    /\ length (slots fd') = 5%nat
    /\ forall i, (i < 5)%nat ->
         touch_at fd' i
         = slot_active false (slot_events 0 (Z.of_nat i) (evs0 ++ evs)).
Proof.
  induction rs as [|r rs IH]; intros fd evs0 Hlen Hall Hinv.
  { exists fd, []. split; [reflexivity|]. split; [exact Hlen|].
    intros i Hi. rewrite app_nil_r. apply Hinv, Hi. }
  apply Forall_cons in Hall. destruct Hall as [Hr Hall].
  destruct (report_effect fd r Hlen Hr) as (fd1 & ev1 & Hev & Hlen1 & H1).
  destruct (IH fd1 (evs0 ++ ev1) Hlen1 Hall) as (fd' & evs & Hrun & Hlen' & H').
  - intros i Hi.
    destruct (H1 i (selected 0 evs0)
                (slot_active false (slot_events 0 (Z.of_nat i) evs0)) Hi)
      as (Ht & _ & Hact).
    rewrite InputFacts.slot_events_app, slot_active_app, Hact, Ht.
    rewrite (Hinv i Hi).
    destruct (last_status (records r) (Z.of_nat i)) as [b|];
      destruct (frame_boundary r); cbn [andb negb];
      try reflexivity.
    + destruct b; reflexivity.
    + destruct (slot_active false (slot_events 0 (Z.of_nat i) evs0)),
        (seen_at fd i); reflexivity.
  - exists fd', (ev1 ++ evs). rewrite (wtp_run_cons _ _ _ _ _ Hev), Hrun.
    cbn [bind]. split; [reflexivity|]. split; [exact Hlen'|].
    intros i Hi. rewrite app_assoc. apply H', Hi.
Qed.

(** The finger identifiers of a given report are in range. *)
Ltac in_range :=
  unfold touches_in_slots, in_slots, ARRAY_SIZE_slots; cbn;
  split; [intros _; lia|intros _ H; try discriminate H; lia].

(** X19: The touchpad and the sink agree.  Over any sequence of reports
    whose finger identifiers are in range, starting from probe, the run
    ends without a fault and a slot is in contact for the driver exactly
    when the last slot state the sink was told for it is "in contact". *)
Theorem slots_and_sink_agree reports :
  Forall touches_in_slots reports ->
  exists fd evs,
    wtp_run true wtp_probe reports = Done (fd, evs)
    /\ length (slots fd) = 5%nat
    /\ forall i, (i < 5)%nat ->
         touch_at fd i = slot_active false (slot_events 0 (Z.of_nat i) evs).
Proof.
  intros Hall.
  destruct (pad_in_step_run reports wtp_probe [] eq_refl Hall)
    as (fd & evs & Hrun & Hlen & H).
  - intros i Hi. destruct i as [|[|[|[|[|]]]]]; try lia; reflexivity.
  - exists fd, evs. auto.
Qed.

Lemma slots_and_sink_agree_witness :
  exists fd evs,
    wtp_run true wtp_probe three_fingers = Done (fd, evs)
    /\ length (slots fd) = 5%nat
    /\ forall i, (i < 5)%nat ->
         touch_at fd i = slot_active false (slot_events 0 (Z.of_nat i) evs).
Proof.
  apply slots_and_sink_agree. unfold three_fingers.
  apply List.Forall_cons; [|apply List.Forall_cons; [|apply List.Forall_nil]];
    in_range.
Defined.

(** The state of a frame under way: [recs] are the records applied since
    the last frame boundary, [t0] the contacts at that boundary. *)
Lemma frame_assembly_from rs : forall fd recs (t0 : nat -> bool) last,
  length (slots fd) = 5%nat ->
  (forall i, (i < 5)%nat ->
     touch_at fd i = match last_status recs (Z.of_nat i) with
                     | Some b => b | None => t0 i end
     /\ seen_at fd i = match last_status recs (Z.of_nat i) with
                       | Some _ => true | None => false end) ->
  Forall touches_in_slots (rs ++ [last]) ->
  Forall (fun r => frame_boundary r = false) rs ->
  frame_boundary last = true ->
  exists fd' evs,
    wtp_run true fd (rs ++ [last]) = Done (fd', evs)
    /\ length (slots fd') = 5%nat
    /\ forall i, (i < 5)%nat ->
         touch_at fd' i
         = match last_status (recs ++ flat_map records (rs ++ [last]))
                             (Z.of_nat i) with
           | Some b => b | None => false end
         /\ seen_at fd' i = false.
Proof.
  induction rs as [|r rs IH]; intros fd recs t0 last Hlen Hinv Hall Hnb Hb.
  - cbn [app] in *. apply Forall_cons in Hall. destruct Hall as [Hl _].
    destruct (report_effect fd last Hlen Hl) as (fd1 & ev1 & Hev & Hlen1 & H1).
    exists fd1, (ev1 ++ []). rewrite (wtp_run_cons _ _ _ _ _ Hev).
    split; [reflexivity|]. split; [exact Hlen1|].
    intros i Hi. destruct (H1 i 0 false Hi) as (Ht & Hs & _).
    destruct (Hinv i Hi) as [Ht0 Hs0].
    rewrite Hb in Ht, Hs. rewrite Ht, Hs, Ht0, Hs0.
    cbn [flat_map]. rewrite app_nil_r, last_status_app.
    split; [|reflexivity].
    destruct (last_status (records last) (Z.of_nat i)) as [b|];
      [apply andb_true_r|].
    destruct (last_status recs (Z.of_nat i)) as [b|];
      [apply andb_true_r|apply andb_false_r].
  - cbn [app] in Hall. apply Forall_cons in Hall. destruct Hall as [Hr Hall].
    apply Forall_cons in Hnb. destruct Hnb as [Hrb Hnb].
    destruct (report_effect fd r Hlen Hr) as (fd1 & ev1 & Hev & Hlen1 & H1).
    destruct (IH fd1 (recs ++ records r) t0 last Hlen1) as
      (fd' & evs & Hrun & Hlen' & H'); try assumption.
    + intros i Hi. destruct (H1 i 0 false Hi) as (Ht & Hs & _).
      destruct (Hinv i Hi) as [Ht0 Hs0].
      rewrite Hrb in Ht, Hs. rewrite Ht, Hs, Ht0, Hs0, last_status_app.
      destruct (last_status (records r) (Z.of_nat i)); auto.
    + exists fd', (ev1 ++ evs). cbn [app].
      rewrite (wtp_run_cons _ _ _ _ _ Hev), Hrun. cbn [bind].
      split; [reflexivity|]. split; [exact Hlen'|].
      intros i Hi. cbn [flat_map]. rewrite app_assoc. apply H', Hi.
Qed.

(** X20: How a frame is put together.  A frame is a run of reports of
    which only the last closes it; it starts with no slot marked as
    seen, as after probe or after any closed frame.  With every finger
    identifier in range, the frame ends without a fault, and afterwards a
    slot is in contact exactly when the frame named it and the last
    record naming it said so; a slot the frame did not name is out of
    contact whatever it was before, and no slot is marked as seen. *)
Theorem frame_assembly fd rs last :
  length (slots fd) = 5%nat ->
  (forall i, (i < 5)%nat -> seen_at fd i = false) ->
  Forall touches_in_slots (rs ++ [last]) ->
  Forall (fun r => frame_boundary r = false) rs ->
  frame_boundary last = true ->
  exists fd' evs,
    wtp_run true fd (rs ++ [last]) = Done (fd', evs)
    /\ length (slots fd') = 5%nat
    /\ forall i, (i < 5)%nat ->
         touch_at fd' i
         = match last_status (flat_map records (rs ++ [last])) (Z.of_nat i) with
           | Some b => b | None => false end
         /\ seen_at fd' i = false.
Proof.
  intros Hlen Hseen Hall Hnb Hb.
  apply (frame_assembly_from rs fd [] (touch_at fd) last Hlen); try assumption.
  intros i Hi. split; [reflexivity|apply Hseen, Hi].
Qed.

Lemma frame_assembly_witness :
  exists fd' evs,
    wtp_run true touching three_fingers = Done (fd', evs)
    /\ length (slots fd') = 5%nat
    /\ forall i, (i < 5)%nat ->
         touch_at fd' i
         = match last_status (flat_map records three_fingers) (Z.of_nat i) with
           | Some b => b | None => false end
         /\ seen_at fd' i = false.
Proof.
  apply (frame_assembly touching [raw_xy (finger 1 1) (finger 2 1) 0 3]
           (raw_xy (finger 3 1) (finger 0 0) 1 3)).
  - reflexivity.
  - intros i Hi. destruct i as [|[|[|[|[|]]]]]; try lia; reflexivity.
  - apply List.Forall_cons; [|apply List.Forall_cons; [|apply List.Forall_nil]];
      in_range.
  - apply List.Forall_cons; [reflexivity|apply List.Forall_nil].
  - reflexivity.
Defined.

(** **** Faults *)

Lemma in_slots_dec t : in_slots t \/ ~ in_slots t.
Proof. unfold in_slots, ARRAY_SIZE_slots. lia. Qed.

(** The three ways the touch records of a report can go. *)
Lemma apply_touches_cases fd raw :
  let second := second_touch (negb (end_of_frame raw =? 0)) (finger_count raw) in
  (touches_in_slots raw /\ exists v, apply_touches fd raw = Done v)
  \/ (finger_count raw <> 0 /\ ~ in_slots (fingers_0 raw)
      /\ apply_touches fd raw = OutOfBounds (finger_id (fingers_0 raw) - 1))
  \/ (finger_count raw <> 0 /\ second = true /\ ~ in_slots (fingers_1 raw)
      /\ apply_touches fd raw = OutOfBounds (finger_id (fingers_1 raw) - 1)).
Proof.
  intros second. subst second. unfold apply_touches, touches_in_slots.
  destruct (Z.eqb_spec (finger_count raw) 0) as [Hc|Hc]; cbn [negb].
  { left. split; [split; intros H; contradiction|]. eexists. reflexivity. }
  destruct (in_slots_dec (fingers_0 raw)) as [H0|H0].
  2:{ right. left. rewrite WtpFacts.wtp_touch_event_out by exact H0. auto. }
  rewrite WtpFacts.wtp_touch_event_in by exact H0. cbn [bind].
  destruct (second_touch (negb (end_of_frame raw =? 0)) (finger_count raw)).
  2:{ left. split; [split; [auto|discriminate]|]. eexists. reflexivity. }
  destruct (in_slots_dec (fingers_1 raw)) as [H1|H1].
  - left. rewrite WtpFacts.wtp_touch_event_in by exact H1. cbn [bind].
    split; [split; auto|]. eexists. reflexivity.
  - right. right. rewrite WtpFacts.wtp_touch_event_out by exact H1. auto.
Qed.

Lemma raw_xy_event_done fd raw v1 :
  apply_touches fd raw = Done v1 ->
  exists v, wtp_touchpad_raw_xy_event true fd raw = Done v.
Proof.
  intros H. unfold wtp_touchpad_raw_xy_event. cbn [negb]. rewrite H.
  destruct v1 as [fd1 ev1]. cbn [bind].
  destruct (frame_boundary raw); [|eexists; reflexivity].
  destruct (flush_frame (slots fd1)). eexists. reflexivity.
Qed.

Lemma raw_xy_event_fault fd raw idx :
  apply_touches fd raw = OutOfBounds idx ->
  wtp_touchpad_raw_xy_event true fd raw = OutOfBounds idx.
Proof.
  intros H. unfold wtp_touchpad_raw_xy_event. cbn [negb]. rewrite H.
  reflexivity.
Qed.

(** X21: When a report faults.  A report runs into no fault exactly when
    the device is not yet initialised, in which case it is dropped, or
    every touch record it applies has a finger identifier of 1 to 5.
    Otherwise a record out of range is written outside the slot array,
    at index -1 (identifier 0) or 5 to 14 (identifiers 6 to 15), the
    identifier being the high half of the record's [id] byte. *)
Theorem report_faults_iff initialized stack fd report :
  0 <= id (touches_0 report) < 256 -> 0 <= id (touches_1 report) < 256 ->
  let raw := decode_raw_xy stack report in
  let res := hidpp_touchpad_raw_xy_event initialized stack fd report in
  ((exists v, res = Done v) <-> initialized = false \/ touches_in_slots raw)
  /\ (initialized = false -> res = Done (0, fd, []))
  /\ (forall idx, res = OutOfBounds idx ->
        (idx = -1 \/ 5 <= idx <= 14)
        /\ (idx = id (touches_0 report) / 16 - 1
            \/ idx = id (touches_1 report) / 16 - 1)).
Proof.
  intros Hid0 Hid1 raw res. subst res. unfold hidpp_touchpad_raw_xy_event.
  fold raw.
  destruct initialized.
  2:{ cbn. split; [split; [auto|intros _; eexists; reflexivity]|].
      split; [reflexivity|]. intros idx H. discriminate H. }
  pose proof (WtpFacts.decode_fields stack report) as Hd. cbv zeta in Hd.
  fold raw in Hd. destruct Hd as (_ & _ & Hf0 & Hf1). clearbody raw.
  assert (Hrange : forall a, 0 <= a < 256 -> 0 <= Z.shiftr a 4 <= 15
                                             /\ Z.shiftr a 4 = a / 16).
  { intros a Ha. rewrite WireFacts.shiftr_4. split; [|reflexivity].
    Z.div_mod_to_equations. lia. }
  destruct (apply_touches_cases fd raw)
    as [(Hin & v1 & Hv)|[(Hc & Hout & Hv)|(Hc & H2 & Hout & Hv)]].
  - destruct (raw_xy_event_done fd raw v1 Hv) as [v Hdone].
    rewrite Hdone. split; [split; [auto|intros _; eexists; reflexivity]|].
    split; [discriminate|]. intros idx H. discriminate H.
  - rewrite (raw_xy_event_fault fd raw _ Hv).
    split.
    { split; [intros [v H]; discriminate H|].
      intros [H|[H _]]; [discriminate H|]. exfalso. apply Hout, H, Hc. }
    split; [discriminate|]. intros idx H. injection H as <-.
    apply Z.eqb_neq in Hc. rewrite Hc in Hf0. cbn [negb] in Hf0.
    unfold in_slots, ARRAY_SIZE_slots in Hout. rewrite Hf0 in Hout |- *.
    cbn [hidpp_touchpad_touch_event finger_id] in Hout |- *.
    destruct (Hrange _ Hid0) as [Hr He]. rewrite He in *. lia.
  - rewrite (raw_xy_event_fault fd raw _ Hv).
    split.
    { split; [intros [v H]; discriminate H|].
      intros [H|[_ H]]; [discriminate H|]. exfalso. apply Hout, H; assumption. }
    split; [discriminate|]. intros idx H. injection H as <-.
    apply Z.eqb_neq in Hc. rewrite Hc, H2 in Hf1. cbn [negb andb] in Hf1.
    unfold in_slots, ARRAY_SIZE_slots in Hout. rewrite Hf1 in Hout |- *.
    cbn [hidpp_touchpad_touch_event finger_id] in Hout |- *.
    destruct (Hrange _ Hid1) as [Hr He]. rewrite He in *. lia.
Qed.

Lemma report_faults_iff_witness :
  exists v,
    hidpp_touchpad_raw_xy_event true zero_raw_xy wtp_probe
      (dual_touch (touch 0 0x40 0x21) (touch 0 0 0x01))
    = Done v.
Proof.
  apply (proj1 (report_faults_iff true zero_raw_xy wtp_probe
                  (dual_touch (touch 0 0x40 0x21) (touch 0 0 0x01))
                  ltac:(cbn; lia) ltac:(cbn; lia))).
  right. split.
  - intros _. vm_compute. split; discriminate.
  - intros _ H. vm_compute in H. discriminate H.
Defined.

End WtpRunFacts.

(** ** What the touchpad declares, and what it reports *)
Module WtpMappingFacts.
Import Wtp WtpRun Setup WtpSetup.

Lemma wtp_touch_event_in_ev fd t fd1 ev e :
  wtp_touch_event fd t = Done (fd1, ev) -> In e ev ->
  in_slots t
  /\ (e = input_mt_slot (finger_id t - 1)
      \/ (exists b, e = input_mt_report_slot_state b)
      \/ e = input_event EV_ABS ABS_MT_POSITION_X (x t)
      \/ e = input_event EV_ABS ABS_MT_POSITION_Y (y t)
      \/ e = input_event EV_ABS ABS_MT_PRESSURE (area t)).
Proof.
  intros H Hin.
  destruct (WtpRunFacts.in_slots_dec t) as [Ht|Ht].
  2:{ rewrite WtpFacts.wtp_touch_event_out in H by exact Ht. discriminate H. }
  split; [exact Ht|].
  rewrite WtpFacts.wtp_touch_event_in in H by exact Ht.
  injection H as _ <-. cbn [app In] in Hin.
  destruct Hin as [<-|[<-|Hin]]; eauto.
  destruct (negb (contact_status t =? 0)); [|destruct Hin].
  destruct Hin as [<-|[<-|[<-|[]]]]; auto 6.
Qed.

Lemma apply_touches_in_ev fd raw fd1 ev e :
  apply_touches fd raw = Done (fd1, ev) -> In e ev ->
  exists t, In t (records raw) /\ in_slots t
    /\ (e = input_mt_slot (finger_id t - 1)
        \/ (exists b, e = input_mt_report_slot_state b)
        \/ e = input_event EV_ABS ABS_MT_POSITION_X (x t)
        \/ e = input_event EV_ABS ABS_MT_POSITION_Y (y t)
        \/ e = input_event EV_ABS ABS_MT_PRESSURE (area t)).
Proof.
  unfold apply_touches, records.
  destruct (negb (finger_count raw =? 0)).
  2:{ intros H Hin. injection H as _ <-. destruct Hin. }
  destruct (wtp_touch_event fd (fingers_0 raw)) as [[fda eva]|] eqn:Ea;
    cbn [bind]; [|discriminate].
  destruct (second_touch (negb (end_of_frame raw =? 0)) (finger_count raw)).
  - destruct (wtp_touch_event fda (fingers_1 raw)) as [[fdb evb]|] eqn:Eb;
      cbn [bind]; [|discriminate].
    intros H Hin. injection H as _ <-. apply in_app_or in Hin.
    destruct Hin as [Hin|Hin].
    + exists (fingers_0 raw). split; [left; reflexivity|].
      exact (wtp_touch_event_in_ev _ _ _ _ _ Ea Hin).
    + exists (fingers_1 raw). split; [right; left; reflexivity|].
      exact (wtp_touch_event_in_ev _ _ _ _ _ Eb Hin).
  - intros H Hin. injection H as _ <-.
    exists (fingers_0 raw). split; [left; reflexivity|].
    exact (wtp_touch_event_in_ev _ _ _ _ _ Ea Hin).
Qed.

Lemma flush_in_ev l : forall st e,
  (forall i, In i l -> (i < 5)%nat) ->
  In e (snd (fold_left flush_slot l st)) ->
  In e (snd st)
  \/ (exists i, (i < 5)%nat /\ e = input_mt_slot (Z.of_nat i))
  \/ e = input_mt_report_slot_state false.
Proof.
  induction l as [|j l IH]; intros st e Hl Hin; [left; exact Hin|].
  cbn [fold_left] in Hin. apply IH in Hin; [|intros i Hi; apply Hl; right; exact Hi].
  destruct Hin as [Hin|Hin]; [|right; exact Hin].
  destruct st as [sl out]. unfold flush_slot in Hin.
  destruct (sl !! j) as [s|]; [|left; exact Hin].
  destruct (stale s); cbn [snd] in Hin |- *; [|left; exact Hin].
  apply in_app_or in Hin. destruct Hin as [Hin|[<-|[<-|[]]]]; auto.
  right. left. exists j. split; [apply Hl; left; reflexivity|reflexivity].
Qed.

(** The decoded records of a report come from its two sub-records. *)
Lemma records_decoded stack report t :
  In t (records (decode_raw_xy stack report)) ->
  t = hidpp_touchpad_touch_event (touches_0 report)
  \/ t = hidpp_touchpad_touch_event (touches_1 report).
Proof.
  unfold records.
  pose proof (WtpFacts.decode_fields stack report) as Hd. cbv zeta in Hd.
  destruct Hd as (_ & _ & Hf0 & Hf1). rewrite Hf0, Hf1.
  destruct (negb (finger_count (decode_raw_xy stack report) =? 0));
    [|intros []].
  cbn [andb].
  destruct (second_touch _ _); intros [<-|[<-|[]]] || intros [<-|[]]; auto.
Qed.

Lemma decoded_ranges t :
  u8_fields t ->
  0 <= x (hidpp_touchpad_touch_event t) < 16384
  /\ 0 <= y (hidpp_touchpad_touch_event t) < 16384
  /\ 0 <= area (hidpp_touchpad_touch_event t) <= 255.
Proof.
  intros (Hxm & Hxl & Hym & Hyl & Hz & Ha & Hid).
  unfold hidpp_touchpad_touch_event. cbn [x y area].
  rewrite !WtpWireFacts.coordinate by lia.
  pose proof (Z.mod_pos_bound (x_m t) 64 ltac:(lia)).
  pose proof (Z.mod_pos_bound (y_m t) 64 ltac:(lia)). lia.
Qed.

(** X22: A report of the touchpad against what was declared.  When a
    report is handled without fault on a pad of five contacts, every
    slot it selects is below the number of slots declared, every
    pressure it reports lies in the declared range, and every key it
    reports was declared.  The position is not held to the declared
    3700 by 2480: it is whatever 14-bit number the device sent. *)
Theorem pad_within_declared stack fd report ret fd' evs :
  maxcontacts fd = 5 ->
  u8_fields (touches_0 report) -> u8_fields (touches_1 report) ->
  hidpp_touchpad_raw_xy_event true stack fd report = Done (ret, fd', evs) ->
  let calls := snd (wtp_input_mapping fd true) in
  (forall s, In (input_mt_slot s) evs ->
     exists n, declared_slots calls = Some n /\ 0 <= s < n)
  /\ (forall v, In (input_event EV_ABS ABS_MT_PRESSURE v) evs ->
        exists lo hi, declared_range calls ABS_MT_PRESSURE = Some (lo, hi)
                      /\ lo <= v <= hi)
  /\ (forall c v, In (input_report_key c v) evs -> key_declared calls c = true)
  /\ declared_range calls ABS_MT_POSITION_X = Some (0, 3700)
  /\ declared_range calls ABS_MT_POSITION_Y = Some (0, 2480)
  /\ (forall v, In (input_event EV_ABS ABS_MT_POSITION_X v) evs
                \/ In (input_event EV_ABS ABS_MT_POSITION_Y v) evs ->
                0 <= v < 16384).
Proof.
  intros Hmax Hu0 Hu1 Hrun calls.
  assert (Hev : forall e, In e evs ->
            (exists t, (t = hidpp_touchpad_touch_event (touches_0 report)
                        \/ t = hidpp_touchpad_touch_event (touches_1 report))
               /\ in_slots t
               /\ (e = input_mt_slot (finger_id t - 1)
                   \/ (exists b, e = input_mt_report_slot_state b)
                   \/ e = input_event EV_ABS ABS_MT_POSITION_X (x t)
                   \/ e = input_event EV_ABS ABS_MT_POSITION_Y (y t)
                   \/ e = input_event EV_ABS ABS_MT_PRESSURE (area t)))
            \/ (exists i, (i < 5)%nat /\ e = input_mt_slot (Z.of_nat i))
            \/ e = input_mt_report_slot_state false
            \/ In e (frame_summary
                       (finger_count (decode_raw_xy stack report)))).
  { intros e Hin. unfold hidpp_touchpad_raw_xy_event in Hrun.
    set (raw := decode_raw_xy stack report) in *.
    unfold wtp_touchpad_raw_xy_event in Hrun. cbn [negb] in Hrun.
    destruct (apply_touches fd raw) as [[fd1 ev1]|] eqn:Ea;
      cbn [bind] in Hrun; [|discriminate].
    assert (H1 : In e ev1 ->
              exists t, (t = hidpp_touchpad_touch_event (touches_0 report)
                         \/ t = hidpp_touchpad_touch_event (touches_1 report))
                /\ in_slots t
                /\ (e = input_mt_slot (finger_id t - 1)
                    \/ (exists b, e = input_mt_report_slot_state b)
                    \/ e = input_event EV_ABS ABS_MT_POSITION_X (x t)
                    \/ e = input_event EV_ABS ABS_MT_POSITION_Y (y t)
                    \/ e = input_event EV_ABS ABS_MT_PRESSURE (area t))).
    { intros H. destruct (apply_touches_in_ev _ _ _ _ _ Ea H)
        as (t & Ht & Hs & He).
      exists t. split; [exact (records_decoded _ _ _ Ht)|]. auto. }
    destruct (frame_boundary raw).
    - destruct (flush_frame (slots fd1)) as [sl ev2] eqn:Ef.
      injection Hrun as _ _ <-.
      apply in_app_or in Hin. destruct Hin as [Hin|Hin]; [left; auto|].
      apply in_app_or in Hin. destruct Hin as [Hin|Hin];
        [|right; right; right; exact Hin].
      right. unfold flush_frame in Ef.
      assert (Hin' : In e (snd (fold_left flush_slot (seq 0 (Z.to_nat ARRAY_SIZE_slots))
                                     (slots fd1, [])))) by (rewrite Ef; exact Hin).
      apply flush_in_ev in Hin'.
      + destruct Hin' as [[]|[H|H]]; auto.
      + intros i Hi. apply in_seq in Hi. unfold ARRAY_SIZE_slots in Hi. lia.
    - injection Hrun as _ _ <-. left. auto. }
  assert (Hslots : declared_slots calls = Some (maxcontacts fd)).
  { reflexivity. }
  split; [|split; [|split; [|split; [|split]]]].
  - intros s Hin. exists (maxcontacts fd). split; [exact Hslots|].
    rewrite Hmax.
    destruct (Hev _ Hin) as [(t & _ & Hs & He)|[(i & Hi & He)|[He|He]]].
    + unfold in_slots, ARRAY_SIZE_slots in Hs.
      destruct He as [He|[[b He]|[He|[He|He]]]]; try discriminate He.
      injection He as ->. lia.
    + injection He as ->. lia.
    + discriminate He.
    + cbn [frame_summary In] in He.
      destruct He as [He|[He|[He|[He|[He|[He|[]]]]]]]; discriminate He.
  - intros v Hin. exists 0, 255. split; [reflexivity|].
    destruct (Hev _ Hin) as [(t & Ht & _ & He)|[(i & Hi & He)|[He|He]]].
    + destruct He as [He|[[b He]|[He|[He|He]]]]; try discriminate He.
      injection He as ->.
      destruct Ht as [-> | ->];
        [destruct (decoded_ranges _ Hu0) as (_ & _ & H)
        |destruct (decoded_ranges _ Hu1) as (_ & _ & H)]; exact H.
    + discriminate He.
    + discriminate He.
    + cbn [frame_summary In] in He.
      destruct He as [He|[He|[He|[He|[He|[He|[]]]]]]]; discriminate He.
  - intros c v Hin.
    destruct (Hev _ Hin) as [(t & Ht & _ & He)|[(i & Hi & He)|[He|He]]].
    + destruct He as [He|[[b He]|[He|[He|He]]]]; discriminate He.
    + discriminate He.
    + discriminate He.
    + cbn [frame_summary In] in He.
      destruct He as [He|[He|[He|[He|[He|[He|[]]]]]]]; try discriminate He;
        injection He as <- _; reflexivity.
  - reflexivity.
  - reflexivity.
  - intros v [Hin|Hin].
    + destruct (Hev _ Hin) as [(t & Ht & _ & He)|[(i & Hi & He)|[He|He]]].
      * destruct He as [He|[[b He]|[He|[He|He]]]]; try discriminate He.
        injection He as ->.
        destruct Ht as [-> | ->];
          [destruct (decoded_ranges _ Hu0) as (H & _ & _)
          |destruct (decoded_ranges _ Hu1) as (H & _ & _)]; exact H.
      * discriminate He.
      * discriminate He.
      * cbn [frame_summary In] in He.
        destruct He as [He|[He|[He|[He|[He|[He|[]]]]]]]; discriminate He.
    + destruct (Hev _ Hin) as [(t & Ht & _ & He)|[(i & Hi & He)|[He|He]]].
      * destruct He as [He|[[b He]|[He|[He|He]]]]; try discriminate He.
        injection He as ->.
        destruct Ht as [-> | ->];
          [destruct (decoded_ranges _ Hu0) as (_ & H & _)
          |destruct (decoded_ranges _ Hu1) as (_ & H & _)]; exact H.
      * discriminate He.
      * discriminate He.
      * cbn [frame_summary In] in He.
        destruct He as [He|[He|[He|[He|[He|[He|[]]]]]]]; discriminate He.
Qed.

Lemma pad_within_declared_witness :
  exists n, declared_slots (snd (wtp_input_mapping wtp_probe true)) = Some n
            /\ 0 <= 1 < n.
Proof.
  refine (proj1 (pad_within_declared zero_raw_xy wtp_probe
                   (dual_touch (touch 0 0x40 0x21) (touch 0 0 0x01))
                   _ _ _ _ _ _ _) 1 _).
  - reflexivity.
  - unfold u8_fields. cbn. lia.
  - unfold u8_fields. cbn. lia.
  - reflexivity.
  - left. reflexivity.
Defined.

End WtpMappingFacts.
